(** * Manifest extraction and npm registry verification

    A shallow embedding of [src/package_extractor.py] (class
    [PackageExtractor]) and [src/npm_checker.py] (class [NPMChecker]),
    together with the properties of the extraction and verification engine.

    Conventions of the embedding.
    - A Python [str] is a Rocq [string]; each character stands for one code
      point below 256.  [lower] and [strip] follow Python on that range.
    - Python integers are [Z]; lengths are converted with [Z.of_nat].
    - A function that can raise returns a [result]; [try]/[except] is a
      pattern match on it.
    - Mutable lists built with [append] are threaded explicitly. *)

From Stdlib Require Import String Ascii List ZArith Bool Lia Arith.
From Stdlib Require Import DecimalString.
From Stdlib Require QArith.
From Stdlib Require Import Permutation.
Import ListNotations.

Local Open Scope string_scope.
Local Open Scope list_scope.

(* ================================================================== *)
(** ** Python string primitives *)
(* ================================================================== *)

Module Py.

(** The double quote and the apostrophe. *)
Definition dquote : ascii := ascii_of_nat 34.
Definition squote : ascii := ascii_of_nat 39.

(** [dq s] is [s] with every apostrophe turned into a double quote; texts
    that contain double quotes are written with apostrophes and [dq]. *)
Fixpoint dq (s : string) : string :=
  match s with
  | EmptyString => EmptyString
  | String c r => String (if Ascii.eqb c squote then dquote else c) (dq r)
  end.

(** [len(s)] as a Python integer. *)
Definition len (s : string) : Z := Z.of_nat (String.length s).

(** [s.startswith(p)]. *)
Definition startswith (s p : string) : bool := String.prefix p s.

(** [sub in s] on strings: [sub] occurs at some offset of [s]. *)
Fixpoint contains (sub s : string) : bool :=
  String.prefix sub s ||
  match s with
  | EmptyString => false
  | String _ s' => contains sub s'
  end.

(** Drop the first [n] characters. *)
Fixpoint drop (n : nat) (s : string) : string :=
  match n, s with
  | O, _ => s
  | S _, EmptyString => EmptyString
  | S n', String _ s' => drop n' s'
  end.

(** [s.split(sep, 1)] for a non-empty [sep]: split at the leftmost
    occurrence, or the one-element list when there is none. *)
Fixpoint split1 (sep s : string) : list string :=
  if String.prefix sep s then [EmptyString; drop (String.length sep) s]
  else match s with
       | EmptyString => [EmptyString]
       | String c s' =>
           match split1 sep s' with
           | [a; b] => [String c a; b]
           | _ => [s]
           end
       end.

(** [s.split(c)] for a one-character separator: never the empty list. *)
Fixpoint split_char (c : ascii) (s : string) : list string :=
  match s with
  | EmptyString => [EmptyString]
  | String d s' =>
      if Ascii.eqb d c then EmptyString :: split_char c s'
      else match split_char c s' with
           | h :: t => String d h :: t
           | [] => [String d EmptyString]
           end
  end.

(** [str.isspace] on a single code point below 256. *)
Definition isspace (c : ascii) : bool :=
  let n := nat_of_ascii c in
  (((9 <=? n) && (n <=? 13)) || ((28 <=? n) && (n <=? 32))
   || (n =? 133) || (n =? 160))%nat.

Definition isempty (s : string) : bool :=
  match s with EmptyString => true | _ => false end.

Fixpoint lstrip_by (p : ascii -> bool) (s : string) : string :=
  match s with
  | EmptyString => EmptyString
  | String c s' => if p c then lstrip_by p s' else s
  end.

Fixpoint rstrip_by (p : ascii -> bool) (s : string) : string :=
  match s with
  | EmptyString => EmptyString
  | String c s' =>
      let r := rstrip_by p s' in
      if p c && isempty r then EmptyString else String c r
  end.

Definition strip_by (p : ascii -> bool) (s : string) : string :=
  rstrip_by p (lstrip_by p s).

(** A left-stripped text is empty or starts with a character that stays. *)
Definition lstrip_head_ok (p : ascii -> bool) (s : string) : Prop :=
  match s with
  | EmptyString => True
  | String c _ => p c = false
  end.

(** [s.strip()]. *)
Definition strip (s : string) : string := strip_by isspace s.

Fixpoint mem_char (c : ascii) (chars : string) : bool :=
  match chars with
  | EmptyString => false
  | String d r => Ascii.eqb c d || mem_char c r
  end.

(** [s.strip(chars)]. *)
Definition strip_chars (chars s : string) : string :=
  strip_by (fun c => mem_char c chars) s.

(** [str.lower] on one code point below 256: A-Z and the Latin-1 capitals
    (U+00C0..U+00DE without the multiplication sign U+00D7) move up by 32. *)
Definition lower_char (c : ascii) : ascii :=
  let n := nat_of_ascii c in
  if (((65 <=? n) && (n <=? 90))
      || ((192 <=? n) && (n <=? 222) && negb (n =? 215)))%nat
  then ascii_of_nat (n + 32) else c.

Fixpoint lower (s : string) : string :=
  match s with
  | EmptyString => EmptyString
  | String c s' => String (lower_char c) (lower s')
  end.

(** [s.endswith(suffix)]. *)
Definition endswith (s suffix : string) : bool :=
  String.eqb (drop (String.length s - String.length suffix) s) suffix
  && (String.length suffix <=? String.length s)%nat.

(** [s.split()]: the maximal runs of non-space characters.  [cur] is the
    run being read (none yet when [None]). *)
Fixpoint split_ws_from (cur : option string) (s : string) : list string :=
  match s with
  | EmptyString => match cur with Some w => [w] | None => [] end
  | String c r =>
      if isspace c then
        match cur with
        | Some w => w :: split_ws_from None r
        | None => split_ws_from None r
        end
      else
        match cur with
        | Some w => split_ws_from (Some (w ++ String c EmptyString)%string) r
        | None => split_ws_from (Some (String c EmptyString)) r
        end
  end.

Definition split_ws (s : string) : list string := split_ws_from None s.

(** [str(n)] for a non-negative integer. *)
Definition str_of_nat (n : nat) : string :=
  NilEmpty.string_of_uint (Nat.to_uint n).

(** [zip(a, b)] on two strings. *)
Fixpoint zip (a b : string) : list (ascii * ascii) :=
  match a, b with
  | String x a', String y b' => (x, y) :: zip a' b'
  | _, _ => []
  end.

(** [sum(...)] over a generator of booleans ([True] counts 1). *)
Fixpoint sum_bool (l : list bool) : Z :=
  match l with
  | [] => 0
  | b :: r => (if b then 1 else 0) + sum_bool r
  end%Z.

(** A [for x in l: ... return v] loop: the first iteration that returns
    decides; [None] when the loop runs to its end. *)
Fixpoint for_return {A R : Type} (l : list A) (body : A -> option R)
  : option R :=
  match l with
  | [] => None
  | x :: r => match body x with
              | Some v => Some v
              | None => for_return r body
              end
  end.

End Py.


(* ================================================================== *)
(** ** Exceptions *)
(* ================================================================== *)

(** The exception classes the two modules can meet. *)
Inductive exn : Type :=
| JSONDecodeError
| ParseError            (* xml.etree.ElementTree.ParseError *)
| TypeError
| ValueError
| AttributeError
| KeyError
| OSError
| TimeoutError          (* asyncio.TimeoutError *)
| ClientError (msg : string)   (* any other failure of the HTTP client *)
| OtherError (msg : string).

Inductive result (A : Type) : Type :=
| Ok (a : A)
| Raise (e : exn).
Arguments Ok {A} a.
Arguments Raise {A} e.

Definition bind {A B : Type} (r : result A) (k : A -> result B) : result B :=
  match r with
  | Ok a => k a
  | Raise e => Raise e
  end.

Declare Scope result_scope.
Delimit Scope result_scope with result.
Notation "x <- r ;; k" := (bind r (fun x => k))
  (at level 61, r at next level, right associativity) : result_scope.
Notation "' p <- r ;; k" := (bind r (fun p => k))
  (at level 61, p pattern, r at next level, right associativity)
  : result_scope.
Local Open Scope result_scope.

(** A [for x in l: body] loop over a state; the first exception leaves the
    loop. *)
Fixpoint for_each {A S : Type} (l : list A) (body : A -> S -> result S)
  (s : S) : result S :=
  match l with
  | [] => Ok s
  | x :: r => s' <- body x s ;; for_each r body s'
  end.

(** [enumerate(l, start)]. *)
Fixpoint enumerate {A : Type} (l : list A) (start : nat) : list (nat * A) :=
  match l with
  | [] => []
  | x :: r => (start, x) :: enumerate r (S start)
  end.

(* ================================================================== *)
(** ** JSON values and [json.loads] *)
(* ================================================================== *)

Module JSON.

(** What [json.loads] builds: [None], [bool], a number (kept as its
    literal), [str], [list], [dict] (insertion order, unique keys). *)
#[warnings="-register-all"]
Inductive value : Type :=
| Null
| Bool (b : bool)
| Num (lit : string)
| Str (s : string)
| Arr (items : list value)
| Obj (members : list (string * value)).

Definition dict := list (string * value).

(** [d[k] = v] on a dict: an existing key keeps its place. *)
Fixpoint dict_set (d : dict) (k : string) (v : value) : dict :=
  match d with
  | [] => [(k, v)]
  | (k', v') :: r =>
      if String.eqb k' k then (k', v) :: r else (k', v') :: dict_set r k v
  end.

Fixpoint dict_get (d : dict) (k : string) : option value :=
  match d with
  | [] => None
  | (k', v) :: r => if String.eqb k' k then Some v else dict_get r k
  end.

Definition is_ws (c : ascii) : bool :=
  let n := nat_of_ascii c in
  ((n =? 32) || (n =? 9) || (n =? 10) || (n =? 13))%nat.

Fixpoint skip_ws (s : string) : string :=
  match s with
  | String c r => if is_ws c then skip_ws r else s
  | EmptyString => s
  end.

Definition is_digit (c : ascii) : bool :=
  let n := nat_of_ascii c in ((48 <=? n) && (n <=? 57))%nat.

Definition hex_val (c : ascii) : option nat :=
  let n := nat_of_ascii c in
  if ((48 <=? n) && (n <=? 57))%nat then Some (n - 48)
  else if ((65 <=? n) && (n <=? 70))%nat then Some (n - 55)
  else if ((97 <=? n) && (n <=? 102))%nat then Some (n - 87)
  else None.

(** The body of a string literal after its opening quote, up to and
    including the closing quote (strict mode: no raw control characters).
    A [\uXXXX] escape above U+00FF has no character in this embedding and
    is rejected; the model is exact on texts without such escapes. *)
Fixpoint scan_string (s : string) : option (string * string) :=
  match s with
  | EmptyString => None
  | String c r =>
      if Ascii.eqb c Py.dquote then Some (EmptyString, r)
      else if Ascii.eqb c "\" then
        match r with
        | String e r' =>
            let simple (ch : ascii) :=
              match scan_string r' with
              | Some (body, rest) => Some (String ch body, rest)
              | None => None
              end in
            if Ascii.eqb e Py.dquote then simple Py.dquote
            else if Ascii.eqb e "\" then simple "\"%char
            else if Ascii.eqb e "/" then simple "/"%char
            else if Ascii.eqb e "b" then simple "008"%char
            else if Ascii.eqb e "f" then simple "012"%char
            else if Ascii.eqb e "n" then simple "010"%char
            else if Ascii.eqb e "r" then simple "013"%char
            else if Ascii.eqb e "t" then simple "009"%char
            else if Ascii.eqb e "u" then
              match r' with
              | String h1 (String h2 (String h3 (String h4 r5))) =>
                  match hex_val h1, hex_val h2, hex_val h3, hex_val h4 with
                  | Some a, Some b, Some c', Some d =>
                      let code := (((a * 16 + b) * 16 + c') * 16 + d)%nat in
                      if (code <? 256)%nat then
                        match scan_string r5 with
                        | Some (body, rest) =>
                            Some (String (ascii_of_nat code) body, rest)
                        | None => None
                        end
                      else None
                  | _, _, _, _ => None
                  end
              | _ => None
              end
            else None
        | EmptyString => None
        end
      else if (nat_of_ascii c <? 32)%nat then None
      else match scan_string r with
           | Some (body, rest) => Some (String c body, rest)
           | None => None
           end
  end.

(** The longest run of digits at the head of [s]. *)
Fixpoint digits (s : string) : string * string :=
  match s with
  | String c r =>
      if is_digit c then let '(d, rest) := digits r in (String c d, rest)
      else (EmptyString, s)
  | EmptyString => (EmptyString, s)
  end.

(** A number literal at the head of [s]: an optional minus sign, then 0 or
    a digit run without leading zero, then an optional fraction (a dot and
    at least one digit), then an optional exponent (e or E, an optional
    sign, at least one digit). *)
Definition scan_number (s : string) : option (string * string) :=
  let '(sign, s1) :=
    match s with
    | String c r => if Ascii.eqb c "-" then ("-", r) else (EmptyString, s)
    | EmptyString => (EmptyString, s)
    end in
  let int_part :=
    match s1 with
    | String c r =>
        if Ascii.eqb c "0" then Some ("0", r)
        else if is_digit c then Some (digits s1) else None
    | EmptyString => None
    end in
  match int_part with
  | None => None
  | Some (ip, s2) =>
      let '(frac, s3) :=
        match s2 with
        | String c r =>
            if Ascii.eqb c "." then
              match digits r with
              | (EmptyString, _) => (EmptyString, s2)
              | (d, rest) => (String "." d, rest)
              end
            else (EmptyString, s2)
        | EmptyString => (EmptyString, s2)
        end in
      let '(expo, s4) :=
        match s3 with
        | String e r =>
            if Ascii.eqb e "e" || Ascii.eqb e "E" then
              let '(sg, r1) :=
                match r with
                | String c r' =>
                    if Ascii.eqb c "+" then ("+", r')
                    else if Ascii.eqb c "-" then ("-", r')
                    else (EmptyString, r)
                | EmptyString => (EmptyString, r)
                end in
              match digits r1 with
              | (EmptyString, _) => (EmptyString, s3)
              | (d, rest) => (String e (sg ++ d), rest)
              end
            else (EmptyString, s3)
        | EmptyString => (EmptyString, s3)
        end in
      Some (sign ++ ip ++ frac ++ expo, s4)
  end%string.

(** The recursive-descent scanner of the [json] module: a value at the head
    of [s], and the text after it.  [fuel] bounds the nesting; every call
    consumes a character first, so [S (String.length s)] never runs out. *)
Fixpoint parse_value (fuel : nat) (s : string) : option (value * string) :=
  match fuel with
  | O => None
  | S f =>
      match s with
      | EmptyString => None
      | String c r =>
          if Ascii.eqb c Py.dquote then
            match scan_string r with
            | Some (body, rest) => Some (Str body, rest)
            | None => None
            end
          else if Ascii.eqb c "{" then
            match skip_ws r with
            | String c1 r2 =>
                if Ascii.eqb c1 "}" then Some (Obj [], r2)
                else parse_members f (skip_ws r) []
            | EmptyString => None
            end
          else if Ascii.eqb c "[" then
            match skip_ws r with
            | String c1 r2 =>
                if Ascii.eqb c1 "]" then Some (Arr [], r2)
                else parse_items f (skip_ws r) []
            | EmptyString => None
            end
          else if String.prefix "null" s then Some (Null, Py.drop 4 s)
          else if String.prefix "true" s then Some (Bool true, Py.drop 4 s)
          else if String.prefix "false" s then Some (Bool false, Py.drop 5 s)
          else
            match scan_number s with
            | Some (lit, rest) => Some (Num lit, rest)
            | None =>
                if String.prefix "NaN" s then Some (Num "NaN", Py.drop 3 s)
                else if String.prefix "Infinity" s
                then Some (Num "Infinity", Py.drop 8 s)
                else if String.prefix "-Infinity" s
                then Some (Num "-Infinity", Py.drop 9 s)
                else None
            end
      end
  end

with parse_members (fuel : nat) (s : string) (acc : dict)
  : option (value * string) :=
  match fuel with
  | O => None
  | S f =>
      match s with
      | EmptyString => None
      | String c r =>
          if Ascii.eqb c Py.dquote then
            match scan_string r with
            | None => None
            | Some (key, r1) =>
                match skip_ws r1 with
                | EmptyString => None
                | String c1 r2 =>
                    if Ascii.eqb c1 ":" then
                      match parse_value f (skip_ws r2) with
                      | None => None
                      | Some (v, r3) =>
                          let acc' := dict_set acc key v in
                          match skip_ws r3 with
                          | EmptyString => None
                          | String c2 r4 =>
                              if Ascii.eqb c2 "}" then Some (Obj acc', r4)
                              else if Ascii.eqb c2 ","
                              then parse_members f (skip_ws r4) acc'
                              else None
                          end
                      end
                    else None
                end
            end
          else None
      end
  end

with parse_items (fuel : nat) (s : string) (acc : list value)
  : option (value * string) :=
  match fuel with
  | O => None
  | S f =>
      match parse_value f s with
      | None => None
      | Some (v, r1) =>
          let acc' := acc ++ [v] in
          match skip_ws r1 with
          | EmptyString => None
          | String c r2 =>
              if Ascii.eqb c "]" then Some (Arr acc', r2)
              else if Ascii.eqb c ","
              then parse_items f (skip_ws r2) acc'
              else None
          end
      end
  end.

(** [json.loads(s)]: one value between optional white space, anything else
    is a [JSONDecodeError].  The limits of the interpreter (the recursion
    limit on nesting, the digit limit on integers) are not modelled. *)
Definition loads (s : string) : result value :=
  match parse_value (S (String.length s)) (skip_ws s) with
  | Some (v, rest) =>
      if Py.isempty (skip_ws rest) then Ok v else Raise JSONDecodeError
  | None => Raise JSONDecodeError
  end.

End JSON.

(** A loop inside a [try] whose handler keeps the list built so far: the
    state reached and the exception that ended the loop, if any. *)
Fixpoint for_each_keep {A S : Type} (l : list A) (body : A -> S -> result S)
  (s : S) : S * option exn :=
  match l with
  | [] => (s, None)
  | x :: r =>
      match body x s with
      | Ok s' => for_each_keep r body s'
      | Raise e => (s, Some e)
      end
  end.

(** [a, b = l]: unpacking into two names. *)
Definition unpack2 {A : Type} (l : list A) : result (A * A) :=
  match l with
  | [a; b] => Ok (a, b)
  | _ => Raise ValueError
  end.

(* ================================================================== *)
(** ** ElementTree elements *)
(* ================================================================== *)

Module XML.

(** An [xml.etree.ElementTree.Element]. *)
#[warnings="-register-all"]
Inductive element : Type :=
| Element (tag : string) (attrib : list (string * string))
          (text : option string) (children : list element).

Definition tag (e : element) : string :=
  match e with Element t _ _ _ => t end.
Definition attrib (e : element) : list (string * string) :=
  match e with Element _ a _ _ => a end.
Definition text (e : element) : option string :=
  match e with Element _ _ t _ => t end.
Definition children (e : element) : list element :=
  match e with Element _ _ _ c => c end.

(** [e.get(key)]. *)
Fixpoint get_attr (a : list (string * string)) (key : string) : option string :=
  match a with
  | [] => None
  | (k, v) :: r => if String.eqb k key then Some v else get_attr r key
  end.
Definition get (e : element) (key : string) : option string :=
  get_attr (attrib e) key.

(** [e.iter()]: the element and its descendants in document order. *)
Fixpoint iter (e : element) : list element :=
  match e with
  | Element _ _ _ cs =>
      e :: (fix go (l : list element) : list element :=
              match l with
              | [] => []
              | c :: r => iter c ++ go r
              end) cs
  end.

Definition has_tag (t : string) (e : element) : bool := String.eqb (tag e) t.

(** [e.findall('.//t')]: the proper descendants tagged [t]. *)
Definition findall_descendants (e : element) (t : string) : list element :=
  filter (has_tag t) (tl (iter e)).
(** [e.find('.//t')]. *)
Definition find_descendant (e : element) (t : string) : option element :=
  hd_error (findall_descendants e t).
(** [e.findall('t')]: the children tagged [t]. *)
Definition findall_children (e : element) (t : string) : list element :=
  filter (has_tag t) (children e).
(** [e.find('t')]. *)
Definition find_child (e : element) (t : string) : option element :=
  hd_error (findall_children e t).

End XML.

(* ================================================================== *)
(** ** Regular expressions *)
(* ================================================================== *)

(** The patterns of [package_extractor.py], by the place that uses them.
    The [re] engine itself is a parameter of the extractor. *)
Inductive pattern : Type :=
| pat_install_requires   (* the bracketed list after install_requires = *)
| pat_quoted_literal     (* one quoted string literal, group 1 its body *)
| pat_setup_name         (* name = quoted literal *)
| pat_setup_version      (* version = quoted literal *)
| pat_gradle_literal     (* configuration keyword and one quoted literal *)
| pat_gradle_keywords    (* configuration keyword, group:, name:, version: *)
| pat_gem                (* gem, a quoted name, an optional quoted version *)
| pat_npm_install
| pat_yarn_add
| pat_pip_install
| pat_composer_require.

(** One element of [re.findall]: a string for a pattern with at most one
    group, a tuple of the groups otherwise. *)
Inductive re_item : Type :=
| MStr (s : string)
| MTuple (groups : list string).

(** A match object: [group(i)] for i = 1, 2, ... ([None] for a group that
    did not take part). *)
Definition re_groups := list (option string).

Definition group (m : re_groups) (i : nat) : option string :=
  match i with
  | O => None
  | S i' => match nth_error m i' with Some g => g | None => None end
  end.

(* ================================================================== *)
(** ** [PackageExtractor] *)
(* ================================================================== *)

Module PackageExtractor.

Import JSON.

(** A package dictionary as the parsers build it.  [name] and [version]
    hold whatever the manifest held, so they are values, not strings. *)
Record package : Type := mk_package {
  name : value;
  version : value;
  type : string;
  category : string;
  package_manager : string;
  file_path : string;
  source : string
}.

Definition newline : ascii := ascii_of_nat 10.

(** The two quote characters, the argument of [strip] in the TOML
    scanners. *)
Definition quotes : string :=
  String Py.dquote (String Py.squote EmptyString).

(** [Path.name]: the last component. *)
Definition path_name (p : string) : string :=
  last (Py.split_char "/" p) EmptyString.

(** [k in data] for a decoded JSON value. *)
Definition value_contains (data : value) (k : string) : result bool :=
  match data with
  | Obj members =>
      Ok (match dict_get members k with Some _ => true | None => false end)
  | Arr items =>
      Ok (existsb (fun v => match v with
                            | Str s => String.eqb s k
                            | _ => false
                            end) items)
  | Str s => Ok (Py.contains k s)
  | _ => Raise TypeError
  end.

(** [data[k]] with a string key. *)
Definition getitem (data : value) (k : string) : result value :=
  match data with
  | Obj members =>
      match dict_get members k with
      | Some v => Ok v
      | None => Raise KeyError
      end
  | _ => Raise TypeError
  end.

(** [data.get(k, default)]. *)
Definition get_default (data : value) (k : string) (default : value)
  : result value :=
  match data with
  | Obj members =>
      Ok (match dict_get members k with Some v => v | None => default end)
  | _ => Raise AttributeError
  end.

(** An optional string as a Python value ([None] when absent). *)
Definition of_option (o : option string) : value :=
  match o with Some s => Str s | None => Null end.

(** An optional string inside an f-string. *)
Definition format_option (o : option string) : string :=
  match o with Some s => s | None => "None" end.

(** [x or 'unknown'] for an attribute value. *)
Definition or_unknown (o : option string) : value :=
  match o with
  | Some s => if Py.isempty s then Str "unknown" else Str s
  | None => Str "unknown"
  end.

(** Truth value of an attribute: present and not empty. *)
Definition truthy (o : option string) : bool :=
  match o with Some s => negb (Py.isempty s) | None => false end.

Definition pip_operators : list string :=
  ["=="; ">="; "<="; ">"; "<"; "~="; "!="].

(** The operator loop of [_parse_pip_specification] on the stripped
    specification. *)
Fixpoint pip_operator_loop (operators : list string) (spec : string)
  : result (string * string) :=
  match operators with
  | [] => Ok (spec, "unknown")
  | operator :: rest =>
      if Py.contains operator spec then
        '(name, version) <- unpack2 (Py.split1 operator spec) ;;
        Ok (Py.strip name, (operator ++ Py.strip version)%string)
      else pip_operator_loop rest spec
  end.

Definition _parse_pip_specification (spec : string) : result (string * string) :=
  pip_operator_loop pip_operators (Py.strip spec).

Definition _extract_requirements_txt (content file_path : string)
  : result (list package) :=
  let lines := Py.split_char newline content in
  for_each (enumerate lines 1)
    (fun '(line_num, line) packages =>
       let line := Py.strip line in
       if negb (Py.isempty line) && negb (Py.startswith line "#") then
         '(name, version) <- _parse_pip_specification line ;;
         Ok (packages ++
             [{| name := Str name;
                 version := Str version;
                 type := "dependency";
                 category := "requirements";
                 package_manager := "pip";
                 file_path := file_path;
                 source := ("requirements.txt:line_"
                            ++ Py.str_of_nat line_num)%string |}])
       else Ok packages)
    [].

(** One iteration of the section scanner of [_extract_pyproject_toml]; the
    state is the list built so far and [in_dependencies]. *)
Definition pyproject_line (file_path : string) (x : nat * string)
  (st : list package * bool) : result (list package * bool) :=
  let '(line_num, line) := x in
  let '(packages, in_dependencies) := st in
  let line := Py.strip line in
  if Py.startswith line "[tool.poetry.dependencies]"
     || Py.startswith line "[project.dependencies]"
  then Ok (packages, true)
  else if Py.startswith line "[" && in_dependencies
  then Ok (packages, false)
  else if in_dependencies && Py.contains "=" line
          && negb (Py.startswith line "#") then
    if Py.contains "=" line then
      '(name, version) <- unpack2 (Py.split1 "=" line) ;;
      let name := Py.strip_chars quotes (Py.strip name) in
      let version := Py.strip_chars quotes (Py.strip version) in
      Ok (packages ++
          [{| name := Str name;
              version := Str version;
              type := "dependency";
              category := "dependencies";
              package_manager := "pip";
              file_path := file_path;
              source := ("pyproject.toml:line_"
                         ++ Py.str_of_nat line_num)%string |}],
          in_dependencies)
    else Ok st
  else Ok st.

Definition _extract_pyproject_toml (content file_path : string)
  : list package :=
  let lines := Py.split_char newline content in
  fst (fst (for_each_keep (enumerate lines 1) (pyproject_line file_path)
              ([], false))).

(** One iteration of the section scanner of [_extract_cargo_packages]. *)
Definition cargo_line (file_path : string) (x : nat * string)
  (st : list package * bool) : result (list package * bool) :=
  let '(line_num, line) := x in
  let '(packages, in_dependencies) := st in
  let line := Py.strip line in
  if Py.startswith line "[dependencies]"
  then Ok (packages, true)
  else if Py.startswith line "[" && in_dependencies
  then Ok (packages, false)
  else if in_dependencies && Py.contains "=" line
          && negb (Py.startswith line "#") then
    '(name, version) <- unpack2 (Py.split1 "=" line) ;;
    let name := Py.strip name in
    let version := Py.strip_chars quotes (Py.strip version) in
    Ok (packages ++
        [{| name := Str name;
            version := Str version;
            type := "dependency";
            category := "dependencies";
            package_manager := "cargo";
            file_path := file_path;
            source := ("Cargo.toml:line_"
                       ++ Py.str_of_nat line_num)%string |}],
        in_dependencies)
  else Ok st.

Definition _extract_cargo_packages (content file_path : string)
  : list package :=
  let lines := Py.split_char newline content in
  fst (fst (for_each_keep (enumerate lines 1) (cargo_line file_path)
              ([], false))).

(** One iteration of [_extract_go_packages]. *)
Definition go_line (file_path : string) (x : nat * string)
  (packages : list package) : result (list package) :=
  let '(line_num, line) := x in
  let line := Py.strip line in
  if Py.startswith line "require " || Py.startswith line "replace " then
    let parts := Py.split_ws line in
    match parts with
    | _ :: package_name :: rest =>
        let version :=
          match rest with v :: _ => v | [] => "unknown" end in
        Ok (packages ++
            [{| name := Str package_name;
                version := Str version;
                type := "dependency";
                category := "require";
                package_manager := "go";
                file_path := file_path;
                source := ("go.mod:line_"
                           ++ Py.str_of_nat line_num)%string |}])
    | _ => Ok packages
    end
  else Ok packages.

Definition _extract_go_packages (content file_path : string) : list package :=
  let lines := Py.split_char newline content in
  fst (for_each_keep (enumerate lines 1) (go_line file_path) []).

Section Library.

(** The library calls of the module: decoding, the [re] engine, and the
    file system.  The extractor is defined for every behaviour of them. *)
Variable json_loads : string -> result value.
Variable ET_fromstring : string -> result XML.element.
Variable re_findall : pattern -> string -> list re_item.
Variable re_search : pattern -> string -> option re_groups.
Variable re_match : pattern -> string -> option re_groups.
Variable read_text : string -> result string.
(** [directory.glob(pattern)]: the paths produced, and the exception that
    ended the walk, if any. *)
Variable glob : string -> string -> list string * option exn.
Variable is_file : string -> bool.

(** The dependency loop of [_extract_setup_py]. *)
Definition setup_py_dep (file_path : string) (dep : re_item)
  (packages : list package) : result (list package) :=
  match dep with
  | MStr dep =>
      '(name, version) <- _parse_pip_specification dep ;;
      Ok (packages ++
          [{| name := Str name;
              version := Str version;
              type := "dependency";
              category := "install_requires";
              package_manager := "pip";
              file_path := file_path;
              source := "setup.py:install_requires" |}])
  | MTuple _ => Raise AttributeError
  end.

Definition _extract_setup_py (content file_path : string) : list package :=
  let '(packages, e) :=
    match re_search pat_install_requires content with
    | Some install_requires_match =>
        match group install_requires_match 1 with
        | Some deps_text =>
            let deps := re_findall pat_quoted_literal deps_text in
            for_each_keep deps (setup_py_dep file_path) []
        | None => ([], Some TypeError)
        end
    | None => ([], None)
    end in
  match e with
  | Some _ => packages
  | None =>
      let name_match := re_search pat_setup_name content in
      let version_match := re_search pat_setup_version content in
      match name_match with
      | Some nm =>
          packages ++
          [{| name := of_option (group nm 1);
              version := match version_match with
                         | Some vm => of_option (group vm 1)
                         | None => Str "unknown"
                         end;
              type := "package";
              category := "main";
              package_manager := "pip";
              file_path := file_path;
              source := "setup.py:main" |}]
      | None => packages
      end
  end.

Definition _extract_pip_packages (content file_path : string) : list package :=
  let r :=
    if String.eqb (path_name file_path) "requirements.txt"
    then _extract_requirements_txt content file_path
    else if String.eqb (path_name file_path) "setup.py"
    then Ok (_extract_setup_py content file_path)
    else if String.eqb (path_name file_path) "pyproject.toml"
    then Ok (_extract_pyproject_toml content file_path)
    else Ok [] in
  match r with
  | Ok packages => packages
  | Raise _ => []
  end.

Definition pom_ns (t : string) : string :=
  ("{http://maven.apache.org/POM/4.0.0}" ++ t)%string.

Definition maven_name (group_id artifact_id : option XML.element)
  : option string :=
  match artifact_id with
  | Some a =>
      Some (match group_id with
            | Some g => format_option (XML.text g)
            | None => "unknown"
            end ++ ":" ++ format_option (XML.text a))%string
  | None => None
  end.

Definition maven_version (version : option XML.element) : value :=
  match version with
  | Some v => of_option (XML.text v)
  | None => Str "unknown"
  end.

Definition _extract_maven_packages (content file_path : string)
  : list package :=
  match ET_fromstring content with
  | Raise _ => []
  | Ok root =>
      let group_id := XML.find_descendant root (pom_ns "groupId") in
      let artifact_id := XML.find_descendant root (pom_ns "artifactId") in
      let version := XML.find_descendant root (pom_ns "version") in
      let packages :=
        match maven_name group_id artifact_id with
        | Some n =>
            [{| name := Str n;
                version := maven_version version;
                type := "package";
                category := "main";
                package_manager := "maven";
                file_path := file_path;
                source := "pom.xml:main" |}]
        | None => []
        end in
      let dependencies := XML.findall_descendants root (pom_ns "dependency") in
      fold_left
        (fun packages dep =>
           let dep_group_id := XML.find_child dep (pom_ns "groupId") in
           let dep_artifact_id := XML.find_child dep (pom_ns "artifactId") in
           let dep_version := XML.find_child dep (pom_ns "version") in
           match maven_name dep_group_id dep_artifact_id with
           | Some n =>
               packages ++
               [{| name := Str n;
                   version := maven_version dep_version;
                   type := "dependency";
                   category := "dependencies";
                   package_manager := "maven";
                   file_path := file_path;
                   source := "pom.xml:dependencies" |}]
           | None => packages
           end)
        dependencies packages
  end.

(** One match of a Gradle pattern. *)
Definition gradle_match (file_path : string) (m : re_item)
  (packages : list package) : result (list package) :=
  '(package_name, version) <-
    match m with
    | MTuple [group; name; version] =>
        Ok ((group ++ ":" ++ name)%string, version)
    | MTuple (first :: _) => Ok (first, "unknown")
    | MTuple [] => Raise (OtherError "tuple index out of range")
    | MStr s => Ok (s, "unknown")
    end ;;
  Ok (packages ++
      [{| name := Str package_name;
          version := Str version;
          type := "dependency";
          category := "gradle";
          package_manager := "gradle";
          file_path := file_path;
          source := "build.gradle" |}]).

Definition _extract_gradle_packages (content file_path : string)
  : list package :=
  let dependency_patterns := [pat_gradle_literal; pat_gradle_keywords] in
  let matches :=
    flat_map (fun pattern => re_findall pattern content)
      dependency_patterns in
  fst (for_each_keep matches (gradle_match file_path) []).

(** The records of one dependency table ([data[deps_key].items()]). *)
Definition dependency_records (manager src deps_key file_path : string)
  (members : dict) : list package :=
  map (fun '(name, version) =>
         {| name := Str name;
            version := version;
            type := "dependency";
            category := deps_key;
            package_manager := manager;
            file_path := file_path;
            source := src |})
      members.

(** The main-package block shared by [package.json] and [composer.json]. *)
Definition main_record (manager src file_path : string) (data : value)
  : result (list package) :=
  has_name <- value_contains data "name" ;;
  if has_name : bool then
    n <- getitem data "name" ;;
    v <- get_default data "version" (Str "unknown") ;;
    Ok [{| name := n;
           version := v;
           type := "package";
           category := "main";
           package_manager := manager;
           file_path := file_path;
           source := src |}]
  else Ok [].

(** The loop over the dependency keys. *)
Definition dependency_tables (manager src file_path : string) (data : value)
  (keys : list string) (packages : list package) : result (list package) :=
  for_each keys
    (fun deps_key packages =>
       present <- value_contains data deps_key ;;
       if present : bool then
         table <- getitem data deps_key ;;
         match table with
         | Obj members =>
             Ok (packages ++
                 dependency_records manager src deps_key file_path members)
         | _ => Ok packages
         end
       else Ok packages)
    packages.

Definition reference_patterns : list pattern :=
  [pat_npm_install; pat_yarn_add; pat_pip_install; pat_composer_require].

(** [_extract_package_references_from_text]; [re.findall] refuses a text
    that is not a string. *)
Definition _extract_package_references_from_text (text : value)
  : result (list re_item) :=
  match text with
  | Str text =>
      Ok (flat_map (fun pattern => re_findall pattern text)
            reference_patterns)
  | _ => Raise TypeError
  end.

Definition item_value (m : re_item) : value :=
  match m with
  | MStr s => Str s
  | MTuple groups => Arr (map Str groups)
  end.

Definition _extract_npm_packages (content file_path : string)
  : result (list package) :=
  match json_loads content with
  | Raise JSONDecodeError => Ok []
  | Raise e => Raise e
  | Ok data =>
      packages <- main_record "npm" "package.json" file_path data ;;
      packages <-
        dependency_tables "npm" "package.json" file_path data
          ["dependencies"; "devDependencies"; "peerDependencies";
           "optionalDependencies"]
          packages ;;
      has_scripts <- value_contains data "scripts" ;;
      if has_scripts : bool then
        scripts <- getitem data "scripts" ;;
        match scripts with
        | Obj members =>
            for_each members
              (fun '(script_name, script_content) packages =>
                 package_refs <-
                   _extract_package_references_from_text script_content ;;
                 Ok (packages ++
                     map (fun pkg_name =>
                            {| name := item_value pkg_name;
                               version := Str "unknown";
                               type := "script_reference";
                               category := "scripts";
                               package_manager := "npm";
                               file_path := file_path;
                               source := ("package.json:scripts:"
                                          ++ script_name)%string |})
                         package_refs))
              packages
        | _ => Ok packages
        end
      else Ok packages
  end.

Definition _extract_composer_packages (content file_path : string)
  : result (list package) :=
  match json_loads content with
  | Raise JSONDecodeError => Ok []
  | Raise e => Raise e
  | Ok data =>
      packages <- main_record "composer" "composer.json" file_path data ;;
      dependency_tables "composer" "composer.json" file_path data
        ["require"; "require-dev"] packages
  end.

(** One iteration of [_extract_ruby_packages]. *)
Definition ruby_line (file_path : string) (x : nat * string)
  (packages : list package) : result (list package) :=
  let '(line_num, line) := x in
  let line := Py.strip line in
  if Py.startswith line "gem " then
    match re_match pat_gem line with
    | Some gem_match =>
        Ok (packages ++
            [{| name := of_option (group gem_match 1);
                version := or_unknown (group gem_match 2);
                type := "dependency";
                category := "gem";
                package_manager := "ruby";
                file_path := file_path;
                source := ("Gemfile:line_"
                           ++ Py.str_of_nat line_num)%string |}])
    | None => Ok packages
    end
  else Ok packages.

Definition _extract_ruby_packages (content file_path : string)
  : list package :=
  let lines := Py.split_char newline content in
  fst (for_each_keep (enumerate lines 1) (ruby_line file_path) []).

(** The element loop shared by the two NuGet formats: [key] names the
    attribute that carries the package id. *)
Definition nuget_records (elements : list XML.element)
  (key version_key cat src file_path : string) : list package :=
  flat_map
    (fun e =>
       let id_attr := XML.get e key in
       let version_attr := XML.get e version_key in
       if truthy id_attr then
         [{| name := of_option id_attr;
             version := or_unknown version_attr;
             type := "dependency";
             category := cat;
             package_manager := "nuget";
             file_path := file_path;
             source := src |}]
       else [])
    elements.

Definition _extract_packages_config (content file_path : string)
  : result (list package) :=
  match ET_fromstring content with
  | Raise ParseError => Ok []
  | Raise e => Raise e
  | Ok root =>
      Ok (nuget_records (XML.findall_children root "package")
            "id" "version" "package" "packages.config" file_path)
  end.

Definition _extract_csproj_packages (content file_path : string)
  : result (list package) :=
  match ET_fromstring content with
  | Raise ParseError => Ok []
  | Raise e => Raise e
  | Ok root =>
      Ok (nuget_records (XML.findall_descendants root "PackageReference")
            "Include" "Version" "PackageReference" ".csproj" file_path)
  end.

Definition _extract_nuget_packages (content file_path : string)
  : list package :=
  let r :=
    if String.eqb (path_name file_path) "packages.config"
    then _extract_packages_config content file_path
    else if Py.endswith (path_name file_path) ".csproj"
            || Py.endswith (path_name file_path) ".vbproj"
    then _extract_csproj_packages content file_path
    else Ok [] in
  match r with
  | Ok packages => packages
  | Raise _ => []
  end.

Definition _identify_package_type (file_path : string) : option string :=
  let filename := Py.lower (path_name file_path) in
  if String.eqb filename "package.json" then Some "npm"
  else if String.eqb filename "yarn.lock" then Some "yarn"
  else if String.eqb filename "requirements.txt" then Some "pip"
  else if String.eqb filename "setup.py" then Some "pip"
  else if String.eqb filename "pyproject.toml" then Some "pip"
  else if String.eqb filename "pom.xml" then Some "maven"
  else if existsb (String.eqb filename) ["build.gradle"; "build.gradle.kts"]
  then Some "gradle"
  else if String.eqb filename "composer.json" then Some "composer"
  else if String.eqb filename "cargo.toml" then Some "cargo"
  else if existsb (String.eqb filename) ["go.mod"; "go.sum"] then Some "go"
  else if existsb (String.eqb filename) ["gemfile"; "gemfile.lock"]
  then Some "ruby"
  else if String.eqb filename "packages.config" then Some "nuget"
  else if Py.endswith filename ".csproj" || Py.endswith filename ".vbproj"
  then Some "nuget"
  else None.

(** The body of the [try] of [_extract_packages_from_file]. *)
Definition extract_file_body (file_path : string) : result (list package) :=
  match _identify_package_type file_path with
  | None => Ok []
  | Some package_type =>
      content <- read_text file_path ;;
      if Py.isempty content then Ok []
      else if String.eqb package_type "npm"
      then _extract_npm_packages content file_path
      else if String.eqb package_type "pip"
      then Ok (_extract_pip_packages content file_path)
      else if String.eqb package_type "maven"
      then Ok (_extract_maven_packages content file_path)
      else if String.eqb package_type "gradle"
      then Ok (_extract_gradle_packages content file_path)
      else if String.eqb package_type "composer"
      then _extract_composer_packages content file_path
      else if String.eqb package_type "cargo"
      then Ok (_extract_cargo_packages content file_path)
      else if String.eqb package_type "go"
      then Ok (_extract_go_packages content file_path)
      else if String.eqb package_type "ruby"
      then Ok (_extract_ruby_packages content file_path)
      else if String.eqb package_type "nuget"
      then Ok (_extract_nuget_packages content file_path)
      else Ok []
  end.

(** [except Exception] logs and falls through to [return []]. *)
Definition _extract_packages_from_file (file_path : string) : list package :=
  match extract_file_body file_path with
  | Ok packages => packages
  | Raise _ => []
  end.

Definition PACKAGE_FILE_PATTERNS : list string :=
  [ "**/package.json"; "**/requirements.txt"; "**/setup.py";
    "**/pyproject.toml"; "**/pom.xml"; "**/build.gradle";
    "**/build.gradle.kts"; "**/composer.json"; "**/Cargo.toml";
    "**/go.mod"; "**/go.sum"; "**/Gemfile"; "**/packages.config";
    "**/*.csproj"; "**/*.vbproj" ].

(** The pattern loop of [_find_package_files]; an exception of the walk
    ends the whole loop and keeps the files found so far. *)
Fixpoint find_loop (directory : string) (patterns : list string)
  (package_files : list string) : list string :=
  match patterns with
  | [] => package_files
  | pattern :: rest =>
      let '(paths, e) := glob directory pattern in
      let package_files := package_files ++ filter is_file paths in
      match e with
      | Some _ => package_files
      | None => find_loop directory rest package_files
      end
  end.

Definition _find_package_files (directory : string) : list string :=
  find_loop directory PACKAGE_FILE_PATTERNS [].

(** The two attributes of the extractor object. *)
Record extractor : Type := mk_extractor {
  extracted_packages : list package;
  package_files_found : list (string * Z)
}.

(** One iteration of the file loop of [extract_packages_from_directory]. *)
Definition extract_step (self : extractor) (file_path : string) : extractor :=
  let packages := _extract_packages_from_file file_path in
  match packages with
  | [] => self
  | _ :: _ =>
      {| extracted_packages := extracted_packages self ++ packages;
         package_files_found :=
           package_files_found self
           ++ [(file_path, Z.of_nat (List.length packages))] |}
  end.

(** [extract_packages_from_directory]: the object after the call; the value
    returned is its [extracted_packages]. *)
Definition extract_packages_from_directory_state (directory : string)
  : extractor :=
  let package_files := _find_package_files directory in
  fold_left extract_step package_files
    {| extracted_packages := []; package_files_found := [] |}.

Definition extract_packages_from_directory (directory : string)
  : list package :=
  extracted_packages (extract_packages_from_directory_state directory).

End Library.

End PackageExtractor.

(* ================================================================== *)
(** ** Risk scorer: [NPMChecker._is_potentially_vulnerable_package] *)
(* ================================================================== *)

Module NPMChecker.

Definition suspicious_patterns : list string :=
  [ "test"; "demo"; "example"; "sample"; "temp"; "tmp";
    "backup"; "old"; "legacy"; "deprecated"; "unused";
    "admin"; "root"; "password"; "secret"; "key"; "token";
    "debug"; "dev"; "development"; "local"; "private" ].

Definition popular_packages : list string :=
  [ "lodash"; "express"; "react"; "vue"; "angular"; "jquery";
    "axios"; "moment"; "bootstrap"; "webpack"; "babel" ].

(** The [while i < len(shorter) and j < len(longer)] loop of
    [_is_similar_name]; the result is the final value of [i].  Every
    iteration increments [j], so [String.length longer - j] iterations are
    enough (lemma [scan_loop_fuel] below). *)
Fixpoint scan_loop (fuel : nat) (shorter longer : string) (i j : nat) : nat :=
  match fuel with
  | O => i
  | S fuel' =>
      if ((i <? String.length shorter) && (j <? String.length longer))%nat then
        match String.get i shorter, String.get j longer with
        | Some c, Some d =>
            if Ascii.eqb c d
            then scan_loop fuel' shorter longer (i + 1) (j + 1)
            else scan_loop fuel' shorter longer i (j + 1)
        | _, _ => i
        end
      else i
  end.

Definition _is_similar_name (name1 name2 : string) : bool :=
  if (Z.abs (Py.len name1 - Py.len name2) >? 2)%Z then false
  else if (Py.len name1 =? Py.len name2)%Z then
    let differences :=
      Py.sum_bool (map (fun '(c1, c2) => negb (Ascii.eqb c1 c2))
                       (Py.zip name1 name2)) in
    (differences <=? 1)%Z
  else
    let '(shorter, longer) :=
      if (Py.len name1 <? Py.len name2)%Z then (name1, name2)
      else (name2, name1) in
    if (Py.len longer - Py.len shorter =? 1)%Z then
      let i := scan_loop (String.length longer) shorter longer 0 0 in
      Nat.eqb i (String.length shorter)
    else false.

Definition _is_potentially_vulnerable_package (package_name : string) : bool :=
  let package_lower := Py.lower package_name in
  match Py.for_return suspicious_patterns
          (fun pattern =>
             if Py.contains pattern package_lower then Some true else None)
  with
  | Some r => r
  | None =>
      if (Py.len package_name <? 3)%Z then true
      else
        match Py.for_return popular_packages
                (fun popular =>
                   if _is_similar_name package_name popular
                   then Some true else None)
        with
        | Some r => r
        | None => false
        end
  end.

(** *** Registry lookups *)

Import JSON.

Definition Q := QArith_base.Q.

Definition NPM_REGISTRY_BASE : string := "https://registry.npmjs.org".
Definition NPM_RATE_LIMIT : Z := 1000.
Definition MAX_CONCURRENT_NPM_CHECKS : nat := 10.
Definition REQUEST_TIMEOUT : Z := 10.
Definition MAX_RETRIES : nat := 3.
Definition RETRY_DELAY : Z := 1.
Definition BACKOFF_FACTOR : Z := 2.

(** [self.rate_limit_delay = 60 / NPM_RATE_LIMIT], in seconds. *)
Definition rate_limit_delay : Q :=
  QArith_base.Qmake 60 (Z.to_pos NPM_RATE_LIMIT).

(** How one [session.get(url)] of a lookup ends: a response with its status
    and what [response.json()] gives, a timeout, or any other exception. *)
Inductive outcome : Type :=
| Response (status : Z) (body : result value)
| Timeout
| Failure (e : exn).

(** What a task does that the outside sees.  [EvGet n k] is the request
    [GET NPM_REGISTRY_BASE/n] of attempt [k]. *)
Inductive event : Type :=
| EvSleep (seconds : Q)
| EvGet (package_name : value) (attempt : nat).

(** The dictionary returned by [_get_package_info] on a 200. *)
Record package_info : Type := mk_info {
  info_name : value;
  info_version : value;
  description : value;
  homepage : value;
  repository : value;
  author : value;
  license : value;
  keywords : value;
  maintainers : value;
  time : value;
  versions : list string
}.

(** The [versions] entry: the keys of [data['versions']] when present. *)
Definition info_versions (data : value) : result (list string) :=
  present <- PackageExtractor.value_contains data "versions" ;;
  if present : bool then
    v <- PackageExtractor.get_default data "versions" (Obj []) ;;
    match v with
    | Obj members => Ok (map fst members)
    | _ => Raise AttributeError
    end
  else Ok [].

Definition build_info (data package_name : value) : result package_info :=
  let get := PackageExtractor.get_default data in
  n <- get "name" package_name ;;
  v <- get "version" (Str "unknown") ;;
  d <- get "description" (Str "") ;;
  h <- get "homepage" (Str "") ;;
  r <- get "repository" (Obj []) ;;
  a <- get "author" (Obj []) ;;
  l <- get "license" (Str "") ;;
  k <- get "keywords" (Arr []) ;;
  m <- get "maintainers" (Arr []) ;;
  t <- get "time" (Obj []) ;;
  vs <- info_versions data ;;
  Ok {| info_name := n; info_version := v; description := d;
        homepage := h; repository := r; author := a; license := l;
        keywords := k; maintainers := m; time := t; versions := vs |}.

(** The handler shared by [except asyncio.TimeoutError] and
    [except Exception]: back off unless this was the last attempt. *)
Definition backoff (attempt : nat) : list event :=
  if (Z.of_nat attempt <? Z.of_nat MAX_RETRIES - 1)%Z
  then [EvSleep (QArith_base.inject_Z
                   (RETRY_DELAY * BACKOFF_FACTOR ^ Z.of_nat attempt))]
  else [].

(** The [for attempt in range(MAX_RETRIES)] loop of [_get_package_info].
    [net k] is how the request of attempt [k] ends. *)
Fixpoint attempt_loop (net : nat -> outcome) (package_name : value)
  (attempts : list nat) : option package_info * list event :=
  match attempts with
  | [] => (None, [])
  | attempt :: rest =>
      let retry :=
        let '(r, evs) := attempt_loop net package_name rest in
        (r, EvGet package_name attempt :: backoff attempt ++ evs) in
      match net attempt with
      | Response status body =>
          if (status =? 200)%Z then
            match (data <- body ;; build_info data package_name) with
            | Ok info => (Some info, [EvGet package_name attempt])
            | Raise _ => retry
            end
          else if (status =? 404)%Z then (None, [EvGet package_name attempt])
          else (None, [EvGet package_name attempt])
      | Timeout => retry
      | Failure _ => retry
      end
  end.

Definition _get_package_info (net : nat -> outcome) (package_name : value)
  : option package_info * list event :=
  attempt_loop net package_name (seq 0 MAX_RETRIES).

Record vulnerability : Type := mk_vulnerability {
  vuln_id : string;
  severity : string;
  title : string;
  vuln_description : string;
  vuln_source : string
}.

(** [_get_package_vulnerabilities]: a name that is not a string makes
    [lower] raise, which the [try] swallows. *)
Definition _get_package_vulnerabilities (package_name : value)
  : list vulnerability :=
  match package_name with
  | Str s =>
      if _is_potentially_vulnerable_package s then
        [{| vuln_id := "potential_vulnerability";
            severity := "medium";
            title := "Potentially vulnerable package";
            vuln_description :=
              "Package name suggests potential security risk";
            vuln_source := "heuristic_check" |}]
      else []
  | _ => []
  end.

(** [updated_package]: the copied record and the keys [update] adds
    ([package_info] only on the found branch). *)
Record checked_package : Type := mk_checked {
  package : PackageExtractor.package;
  npm_status : string;
  is_unclaimed : bool;
  is_vulnerable : bool;
  vulnerabilities : list vulnerability;
  info : option package_info;
  last_checked : Q
}.

(** The value of a run of decimal digits read after [acc]. *)
Fixpoint digits_value (s : string) (acc : Z) : Z :=
  match s with
  | EmptyString => acc
  | String c r =>
      digits_value r (10 * acc + (Z.of_nat (nat_of_ascii c) - 48))%Z
  end.

(** [not x] for the number that [json.loads] builds from the literal
    [lit].  A literal without fraction and exponent is an [int], false
    when it is 0.  Any other literal is the [float] nearest to its value
    (ties to even), false when that float is 0.0 or -0.0: all its digits
    are 0, or its value is at most 2^-1075, half the smallest positive
    float, as for 1e-400.  NaN and the infinities are true. *)
Definition number_is_zero (lit : string) : bool :=
  let unsigned :=
    match lit with
    | String c r => if Ascii.eqb c "-" then r else lit
    | EmptyString => lit
    end in
  let '(int_part, s2) := JSON.digits unsigned in
  let '(frac, s3) :=
    match s2 with
    | String c r =>
        if Ascii.eqb c "." then JSON.digits r else (EmptyString, s2)
    | EmptyString => (EmptyString, s2)
    end in
  let exponent : option Z :=
    match s3 with
    | String e r =>
        if Ascii.eqb e "e" || Ascii.eqb e "E" then
          match r with
          | String c r' =>
              if Ascii.eqb c "-"
              then Some (- digits_value (fst (JSON.digits r')) 0)%Z
              else if Ascii.eqb c "+"
              then Some (digits_value (fst (JSON.digits r')) 0)
              else Some (digits_value (fst (JSON.digits r)) 0)
          | EmptyString => Some 0%Z
          end
        else None
    | EmptyString => None
    end in
  if Py.isempty int_part then false
  else
    let m := digits_value (int_part ++ frac) 0 in
    if (m =? 0)%Z then true
    else
      match frac, exponent with
      | EmptyString, None => false
      | _, _ =>
          let e := ((match exponent with Some x => x | None => 0 end)
                    - Z.of_nat (String.length frac))%Z in
          ((e <? 0) && (m * 2 ^ 1075 <=? 10 ^ (- e)))%Z
      end.

(** [not v] for a decoded value. *)
Definition falsy (v : value) : bool :=
  match v with
  | Null => true
  | Bool b => negb b
  | Num lit => number_is_zero lit
  | Str s => Py.isempty s
  | Arr items => match items with [] => true | _ => false end
  | Obj members => match members with [] => true | _ => false end
  end.

(** The body of [_check_single_package_async] inside [async with
    semaphore].  [net] answers the requests of this task, [now] is what
    [time.time()] reads when the record is built. *)
Definition _check_single_package_async (net : nat -> outcome) (now : Q)
  (package : PackageExtractor.package)
  : option checked_package * list event :=
  let package_name := PackageExtractor.name package in
  if falsy package_name then (None, [EvSleep rate_limit_delay])
  else
    let '(package_info, evs) := _get_package_info net package_name in
    let trace := EvSleep rate_limit_delay :: evs in
    match package_info with
    | None =>
        (Some {| package := package;
                 npm_status := "not_found";
                 is_unclaimed := true;
                 is_vulnerable := false;
                 vulnerabilities := [];
                 info := None;
                 last_checked := now |}, trace)
    | Some package_info =>
        let vulnerabilities := _get_package_vulnerabilities package_name in
        let is_vulnerable := (0 <? List.length vulnerabilities)%nat in
        (Some {| package := package;
                 npm_status := "found";
                 is_unclaimed := false;
                 is_vulnerable := is_vulnerable;
                 vulnerabilities := vulnerabilities;
                 info := Some package_info;
                 last_checked := now |}, trace)
    end.

(** The tasks of [check_packages_async], one per npm record, in list
    order ([asyncio.gather] keeps that order).  [net i] and [now i] belong
    to the task of the [i]-th npm record. *)
Definition npm_packages (packages : list PackageExtractor.package)
  : list PackageExtractor.package :=
  filter (fun pkg => String.eqb (PackageExtractor.package_manager pkg) "npm")
    packages.

Definition run_tasks (net : nat -> nat -> outcome) (now : nat -> Q)
  (packages : list PackageExtractor.package)
  : list (option checked_package * list event) :=
  map (fun '(i, package) => _check_single_package_async (net i) (now i) package)
      (enumerate (npm_packages packages) 0).

(** [check_packages_async]: the results that are not [None], in task
    order. *)
Definition check_packages_async (net : nat -> nat -> outcome) (now : nat -> Q)
  (packages : list PackageExtractor.package) : list checked_package :=
  flat_map (fun r => match fst r with Some c => [c] | None => [] end)
    (run_tasks net now packages).

(** Everything the run sends or waits for, task by task. *)
Definition run_trace (net : nat -> nat -> outcome) (now : nat -> Q)
  (packages : list PackageExtractor.package) : list event :=
  flat_map snd (run_tasks net now packages).

(** The names for which a lookup is issued: one entry per first attempt. *)
Definition lookups (trace : list event) : list value :=
  flat_map (fun e => match e with
                     | EvGet n O => [n]
                     | _ => []
                     end) trace.

End NPMChecker.

(* ================================================================== *)
(** ** The admission gate of [check_packages_async] *)
(* ================================================================== *)

Module Scheduler.

(** Where a task of [_check_single_package_async] stands. *)
Inductive phase : Type :=
| Waiting                       (* at [async with semaphore] *)
| RateLimit                     (* in [asyncio.sleep(self.rate_limit_delay)] *)
| Requesting (attempt : nat)    (* awaiting [session.get] *)
| BackingOff (attempt : nat)    (* in the sleep of a handler *)
| Finished.                     (* left the [async with] block *)

(** A lookup is in flight from its admission to its return. *)
Definition in_flight (p : phase) : bool :=
  match p with
  | RateLimit | Requesting _ | BackingOff _ => true
  | Waiting | Finished => false
  end.

(** The semaphore's counter and the tasks handed to [asyncio.gather]. *)
Record state : Type := mk_state {
  permits : nat;
  tasks : list phase
}.

Fixpoint update {A : Type} (l : list A) (i : nat) (x : A) : list A :=
  match l, i with
  | [], _ => []
  | _ :: r, O => x :: r
  | y :: r, S i' => y :: update r i' x
  end.

Definition outstanding (s : state) : nat :=
  List.length (filter in_flight (tasks s)).

(** One move of the event loop.  [acquire] needs a free permit; leaving the
    block ([skip], [answer]) gives the permit back. *)
Inductive step (s : state) : state -> Prop :=
| step_acquire (i : nat) :
    nth_error (tasks s) i = Some Waiting ->
    0 < permits s ->
    step s {| permits := permits s - 1;
              tasks := update (tasks s) i RateLimit |}
| step_skip (i : nat) :              (* empty name: [return None] *)
    nth_error (tasks s) i = Some RateLimit ->
    step s {| permits := permits s + 1;
              tasks := update (tasks s) i Finished |}
| step_request (i : nat) :
    nth_error (tasks s) i = Some RateLimit ->
    step s {| permits := permits s;
              tasks := update (tasks s) i (Requesting 0) |}
| step_answer (i attempt : nat) :    (* a response, or the last failure *)
    nth_error (tasks s) i = Some (Requesting attempt) ->
    step s {| permits := permits s + 1;
              tasks := update (tasks s) i Finished |}
| step_fail (i attempt : nat) :
    nth_error (tasks s) i = Some (Requesting attempt) ->
    attempt + 1 < NPMChecker.MAX_RETRIES ->
    step s {| permits := permits s;
              tasks := update (tasks s) i (BackingOff attempt) |}
| step_retry (i attempt : nat) :
    nth_error (tasks s) i = Some (BackingOff attempt) ->
    step s {| permits := permits s;
              tasks := update (tasks s) i (Requesting (attempt + 1)) |}.

(** [asyncio.Semaphore(MAX_CONCURRENT_NPM_CHECKS)] and [n] fresh tasks. *)
Definition init (n : nat) : state :=
  {| permits := NPMChecker.MAX_CONCURRENT_NPM_CHECKS;
     tasks := repeat Waiting n |}.

Inductive reachable (n : nat) : state -> Prop :=
| reach_init : reachable n (init n)
| reach_step s s' : reachable n s -> step s s' -> reachable n s'.

(** 1 for a lookup in flight. *)
Definition weight (p : phase) : nat := if in_flight p then 1 else 0.

(** A run with 100 names: ten tasks admitted, ninety waiting. *)
Definition ten_admitted : state :=
  {| permits := 0;
     tasks := repeat RateLimit 10 ++ repeat Waiting 90 |}.

End Scheduler.

(* ================================================================== *)
(** ** The documented rules, stated independently of the code *)
(* ================================================================== *)

Module Spec.

(** [kw] occurs in [s]. *)
Definition Substring (kw s : string) : Prop :=
  exists pre post : string, s = (pre ++ kw ++ post)%string.

(** Number of positions at which two strings differ. *)
Fixpoint hamming (a b : string) : nat :=
  match a, b with
  | String x a', String y b' =>
      (if Ascii.eqb x y then 0 else 1) + hamming a' b'
  | _, _ => 0
  end.

(** [s] can be read in [l] from left to right, skipping characters. *)
Inductive Subseq : string -> string -> Prop :=
| subseq_nil (l : string) : Subseq EmptyString l
| subseq_take (c : ascii) (s l : string) :
    Subseq s l -> Subseq (String c s) (String c l)
| subseq_skip (c : ascii) (s l : string) :
    Subseq s l -> Subseq s (String c l).

(** The scan of [_is_similar_name] on the unread parts of both names: how
    many characters of [s] it matches. *)
Fixpoint greedy (s l : string) : nat :=
  match l with
  | EmptyString => 0
  | String d l' =>
      match s with
      | EmptyString => 0
      | String c s' =>
          if Ascii.eqb c d then S (greedy s' l') else greedy s l'
      end
  end.

(** The similarity rule, case by case on the length difference. *)
Definition similar (a b : string) : Prop :=
  let la := String.length a in
  let lb := String.length b in
  if (2 <? (la - lb) + (lb - la))%nat then False
  else if (la =? lb)%nat then hamming a b <= 1
  else if ((la - lb) + (lb - la) =? 1)%nat then
    if (la <? lb)%nat then Subseq a b else Subseq b a
  else False.

(** The three rules of the scorer. *)
Definition keyword_match (name : string) : Prop :=
  exists kw, In kw NPMChecker.suspicious_patterns
             /\ Substring kw (Py.lower name).
Definition short_name (name : string) : Prop := String.length name < 3.
Definition name_similarity (name : string) : Prop :=
  exists p, In p NPMChecker.popular_packages /\ similar name p.

Definition suspicious (name : string) : Prop :=
  keyword_match name \/ short_name name \/ name_similarity name.

(** The operator that the loop picks: the first of the list, in list
    order, that occurs in the text. *)
Definition first_operator (spec : string) : option string :=
  find (fun operator => Py.contains operator spec) PackageExtractor.pip_operators.

End Spec.

(* ================================================================== *)
(** ** The bracket-section scanner, as documented *)
(* ================================================================== *)

Module SpecScanner.

Import PackageExtractor.

(** The text before, and after, the first occurrence of [c]. *)
Fixpoint before_first (c : ascii) (s : string) : string :=
  match s with
  | EmptyString => EmptyString
  | String d r => if Ascii.eqb d c then EmptyString
                  else String d (before_first c r)
  end.

Fixpoint after_first (c : ascii) (s : string) : string :=
  match s with
  | EmptyString => EmptyString
  | String d r => if Ascii.eqb d c then r else after_first c r
  end.

(** Surrounding white space, then surrounding quotes, stripped. *)
Definition clean (s : string) : string :=
  Py.strip_chars quotes (Py.strip s).

(** The record of a dependency line. *)
Definition dependency_line (manager file_name file_path : string)
  (line_num : nat) (name version : string) : package :=
  {| name := JSON.Str name;
     version := JSON.Str version;
     type := "dependency";
     category := "dependencies";
     package_manager := manager;
     file_path := file_path;
     source := (file_name ++ ":line_" ++ Py.str_of_nat line_num)%string |}.

(** The documented scanner over numbered lines.  [trigger] recognises the
    headers that open the dependency section; any other line that starts
    with a bracket closes it.  Inside the section every line with an equals
    sign that is not a comment gives one record: the name is [name_of] of
    the text before the first equals sign, the version is the cleaned text
    after it. *)
Fixpoint section_scan (trigger : string -> bool) (name_of : string -> string)
  (emit : nat -> string -> string -> package) (in_section : bool)
  (lines : list (nat * string)) : list package :=
  match lines with
  | [] => []
  | (line_num, raw) :: rest =>
      let line := Py.strip raw in
      if trigger line then section_scan trigger name_of emit true rest
      else if Py.startswith line "["
      then section_scan trigger name_of emit false rest
      else if in_section && Py.contains "=" line
              && negb (Py.startswith line "#")
      then emit line_num (name_of (before_first "=" line))
                (clean (after_first "=" line))
           :: section_scan trigger name_of emit in_section rest
      else section_scan trigger name_of emit in_section rest
  end.

Definition pyproject_trigger (line : string) : bool :=
  Py.startswith line "[tool.poetry.dependencies]"
  || Py.startswith line "[project.dependencies]".

Definition cargo_trigger (line : string) : bool :=
  Py.startswith line "[dependencies]".

(** The scanner of the pyproject rule: quotes and white space stripped from
    both parts. *)
Definition pyproject_scanner (content file_path : string) : list package :=
  section_scan pyproject_trigger clean
    (dependency_line "pip" "pyproject.toml" file_path) false
    (enumerate (Py.split_char newline content) 1).

(** "The same scanner, triggered on [dependencies]". *)
Definition cargo_scanner_as_documented (content file_path : string)
  : list package :=
  section_scan cargo_trigger clean
    (dependency_line "cargo" "Cargo.toml" file_path) false
    (enumerate (Py.split_char newline content) 1).

(** The same scanner with the name only stripped of white space. *)
Definition cargo_scanner (content file_path : string) : list package :=
  section_scan cargo_trigger Py.strip
    (dependency_line "cargo" "Cargo.toml" file_path) false
    (enumerate (Py.split_char newline content) 1).

(** A Cargo manifest whose dependency key is quoted. *)
Definition quoted_key_manifest : string :=
  ("[dependencies]" ++ String newline (Py.dq "'serde' = '1.0'"))%string.

End SpecScanner.

(* ================================================================== *)
(** ** Names of emitted records: definitions *)
(* ================================================================== *)

Module RecordNames.

Import PackageExtractor.


(** The lines of requirements.txt that give a record. *)
Definition qualifying (x : nat * string) : bool :=
  let line := Py.strip (snd x) in
  negb (Py.isempty line) && negb (Py.startswith line "#").

Definition pip_name (line : string) : string :=
  match _parse_pip_specification line with
  | Ok (name, _) => name
  | Raise _ => EmptyString
  end.

Definition pip_version (line : string) : string :=
  match _parse_pip_specification line with
  | Ok (_, version) => version
  | Raise _ => EmptyString
  end.

(** The record of a numbered requirements line. *)
Definition requirement_record (file_path : string) (x : nat * string)
  : package :=
  {| name := JSON.Str (pip_name (Py.strip (snd x)));
     version := JSON.Str (pip_version (Py.strip (snd x)));
     type := "dependency";
     category := "requirements";
     package_manager := "pip";
     file_path := file_path;
     source := ("requirements.txt:line_" ++ Py.str_of_nat (fst x))%string |}.

End RecordNames.

(* ================================================================== *)
(** ** Registry verification: definitions *)
(* ================================================================== *)

Module Verifier.

Import NPMChecker.

(** An npm dependency record. *)
Definition npm_record (name : string) : PackageExtractor.package :=
  {| PackageExtractor.name := JSON.Str name;
     PackageExtractor.version := JSON.Str "1.0.0";
     PackageExtractor.type := "dependency";
     PackageExtractor.category := "dependencies";
     PackageExtractor.package_manager := "npm";
     PackageExtractor.file_path := "package.json";
     PackageExtractor.source := "package.json" |}.

(** A registry that is down: every request gets a 500. *)
Definition server_error : nat -> outcome :=
  fun _ => Response 500 (Raise JSONDecodeError).

Definition zero : Q := QArith_base.inject_Z 0.

(** The record built on the not-found branch. *)
Definition not_found_record (now : Q) (package : PackageExtractor.package)
  : checked_package :=
  {| package := package;
     npm_status := "not_found";
     is_unclaimed := true;
     is_vulnerable := false;
     vulnerabilities := [];
     info := None;
     last_checked := now |}.

(** A registry where the name is not published. *)
Definition not_published : nat -> outcome :=
  fun _ => Response 404 (Ok JSON.Null).

(** A registry where the name is published. *)
Definition published : nat -> outcome :=
  fun _ => Response 200 (Ok (JSON.Obj [])).

(** The first task is told 404, the others 200. *)
Definition changing_registry (task : nat) : nat -> outcome :=
  match task with
  | O => not_published
  | S _ => published
  end.

(** An attempt that the loop of [_get_package_info] treats as failed: a
    timeout, another exception, or a 200 whose body cannot be read. *)
Definition attempt_fails (package_name : JSON.value) (o : outcome) : bool :=
  match o with
  | Timeout => true
  | Failure _ => true
  | Response status body =>
      (status =? 200)%Z
      && match bind body (fun data => build_info data package_name) with
         | Raise _ => true
         | Ok _ => false
         end
  end.

(** What [k] failed attempts leave in the trace: each request, followed by
    its backoff sleep. *)
Definition failed_prefix (package_name : JSON.value) (k : nat) : list event :=
  flat_map (fun attempt => EvGet package_name attempt :: backoff attempt)
    (seq 0 k).

(** The record built on the found branch. *)
Definition found_record (now : Q) (package : PackageExtractor.package)
  (package_info : package_info) : checked_package :=
  let vulnerabilities :=
    _get_package_vulnerabilities (PackageExtractor.name package) in
  {| package := package;
     npm_status := "found";
     is_unclaimed := false;
     is_vulnerable := (0 <? List.length vulnerabilities)%nat;
     vulnerabilities := vulnerabilities;
     info := Some package_info;
     last_checked := now |}.

(** Names that make a task issue a lookup. *)
Definition has_name (p : PackageExtractor.package) : bool :=
  negb (falsy (PackageExtractor.name p)).

End Verifier.

(* ================================================================== *)
(** ** Documented inputs *)
(* ================================================================== *)

Module Manifests.

(** The documented [package.json]. *)
Definition documented_manifest : string :=
  Py.dq "{'name':'x','version':'1.0.0','dependencies':{'a':'^1.0.0','b':'2.0.0'}}".

(** A checkout with two manifests: a [package.json] cut off after its
    opening brace, and a [requirements.txt] with one line. *)
Definition checkout_read_text (path : string) : result string :=
  if String.eqb path "repo/package.json" then Ok "{"
  else if String.eqb path "repo/requirements.txt" then Ok "flask"
  else Raise OSError.

Definition checkout_glob (directory pattern : string)
  : list string * option exn :=
  if String.eqb pattern "**/package.json"
  then ([(directory ++ "/package.json")%string], None)
  else if String.eqb pattern "**/requirements.txt"
  then ([(directory ++ "/requirements.txt")%string], None)
  else ([], None).

Definition checkout_is_file (path : string) : bool := true.

(** Library calls the checkout never reaches. *)
Definition no_xml (content : string) : result XML.element := Raise ParseError.
Definition no_findall (p : pattern) (text : string) : list re_item := [].
Definition no_match (p : pattern) (text : string) : option re_groups := None.

(** The record of the line [flask]. *)
Definition flask_record : PackageExtractor.package :=
  {| PackageExtractor.name := JSON.Str "flask";
     PackageExtractor.version := JSON.Str "unknown";
     PackageExtractor.type := "dependency";
     PackageExtractor.category := "requirements";
     PackageExtractor.package_manager := "pip";
     PackageExtractor.file_path := "repo/requirements.txt";
     PackageExtractor.source := "requirements.txt:line_1" |}.

(** A registry whose first answer is lost and whose second is a 200. *)
Definition flaky_registry (attempt : nat) : NPMChecker.outcome :=
  match attempt with
  | O => NPMChecker.Timeout
  | S _ => NPMChecker.Response 200 (Ok (JSON.Obj []))
  end.

End Manifests.

(* ================================================================== *)
(** ** Statistics of the extractor and of the checker *)
(* ================================================================== *)

Module Statistics.

(** A counting dictionary: keys in insertion order. *)
Definition counter := list (string * Z).

(** [d.get(k, default)]. *)
Fixpoint counter_get (d : counter) (k : string) (default : Z) : Z :=
  match d with
  | [] => default
  | (k', v) :: r => if String.eqb k' k then v else counter_get r k default
  end.

(** [d[k] = v]. *)
Fixpoint counter_set (d : counter) (k : string) (v : Z) : counter :=
  match d with
  | [] => [(k, v)]
  | (k', v') :: r =>
      if String.eqb k' k then (k', v) :: r else (k', v') :: counter_set r k v
  end.

(** [d[k] = d.get(k, 0) + 1]. *)
Definition count_up (d : counter) (k : string) : counter :=
  counter_set d k (counter_get d k 0 + 1)%Z.

(** The dictionary returned by [get_extraction_statistics]. *)
Record extraction_statistics : Type := mk_extraction_statistics {
  total_packages : Z;
  package_files_found : Z;
  package_managers : counter;
  package_types : counter;
  files_processed : Z
}.

(** The counting loop of [get_extraction_statistics]. *)
Definition count_packages (packages : list PackageExtractor.package)
  : counter * counter :=
  fold_left
    (fun '(package_managers, package_types) package =>
       (count_up package_managers
          (PackageExtractor.package_manager package),
        count_up package_types (PackageExtractor.type package)))
    packages ([], []).

Definition get_extraction_statistics (self : PackageExtractor.extractor)
  : extraction_statistics :=
  let '(package_managers, package_types) :=
    count_packages (PackageExtractor.extracted_packages self) in
  {| total_packages :=
       Z.of_nat (List.length (PackageExtractor.extracted_packages self));
     package_files_found :=
       Z.of_nat (List.length (PackageExtractor.package_files_found self));
     package_managers := package_managers;
     package_types := package_types;
     files_processed :=
       Z.of_nat (List.length (PackageExtractor.package_files_found self)) |}.

(** Sum of the values of a counter. *)
Definition counter_total (d : counter) : Z :=
  fold_right (fun kv acc => (snd kv + acc)%Z) 0%Z d.

(** How many packages carry [k] under the projection [key]. *)
Definition occurrences (key : PackageExtractor.package -> string)
  (k : string) (packages : list PackageExtractor.package) : Z :=
  Z.of_nat (List.length
              (filter (fun p => String.eqb (key p) k) packages)).

End Statistics.

Module CheckerState.

Import NPMChecker.

(** The four lists of an [NPMChecker] object.  An entry of
    [failed_checks] is the package and the text of the exception. *)
Record checker : Type := mk_checker {
  checked_packages : list checked_package;
  failed_checks : list (PackageExtractor.package * string);
  vulnerable_packages : list checked_package;
  unclaimed_packages : list checked_package
}.

(** [__init__]. *)
Definition init : checker :=
  {| checked_packages := [];
     failed_checks := [];
     vulnerable_packages := [];
     unclaimed_packages := [] |}.

(** [_check_single_package_async] with the object it appends to: the
    object after the task and the value the task returns. *)
Definition task_on (net : nat -> outcome) (now : Q) (self : checker)
  (package : PackageExtractor.package) : checker * option checked_package :=
  let package_name := PackageExtractor.name package in
  if falsy package_name then (self, None)
  else
    match fst (_get_package_info net package_name) with
    | None =>
        let updated_package :=
          {| NPMChecker.package := package;
             npm_status := "not_found";
             is_unclaimed := true;
             is_vulnerable := false;
             vulnerabilities := [];
             info := None;
             last_checked := now |} in
        ({| checked_packages := checked_packages self;
            failed_checks := failed_checks self;
            vulnerable_packages := vulnerable_packages self;
            unclaimed_packages :=
              unclaimed_packages self ++ [updated_package] |},
         Some updated_package)
    | Some package_info =>
        let vulnerabilities := _get_package_vulnerabilities package_name in
        let is_vulnerable := (0 <? List.length vulnerabilities)%nat in
        let updated_package :=
          {| NPMChecker.package := package;
             npm_status := "found";
             is_unclaimed := false;
             is_vulnerable := is_vulnerable;
             vulnerabilities := vulnerabilities;
             info := Some package_info;
             last_checked := now |} in
        (if is_vulnerable
         then {| checked_packages := checked_packages self;
                 failed_checks := failed_checks self;
                 vulnerable_packages :=
                   vulnerable_packages self ++ [updated_package];
                 unclaimed_packages := unclaimed_packages self |}
         else self,
         Some updated_package)
    end.

(** The object after [check_packages_async].  The tasks append as they
    finish: [completion] lists the task numbers in the order in which the
    tasks finish.  No task hands an exception to [gather], so the loop over
    the results leaves [failed_checks] alone. *)
Definition check_packages_async_on (completion : list nat)
  (net : nat -> nat -> outcome) (now : nat -> Q)
  (packages : list PackageExtractor.package) (self : checker) : checker :=
  fold_left
    (fun self i =>
       match nth_error (npm_packages packages) i with
       | Some package => fst (task_on (net i) (now i) self package)
       | None => self
       end)
    completion self.

(** A statistic: an integer, or the float [num / den * 100], kept as its
    two operands. *)
Inductive number : Type :=
| Int (z : Z)
| Percent (num den : Z).

(** The dictionary returned by [get_check_statistics]. *)
Record check_statistics : Type := mk_check_statistics {
  total_packages_checked : Z;
  stat_failed_checks : Z;
  stat_vulnerable_packages : Z;
  stat_unclaimed_packages : Z;
  success_rate : number;
  vulnerability_rate : number;
  unclaimed_rate : number
}.

Definition get_check_statistics (self : checker) : check_statistics :=
  let total_checked := Z.of_nat (List.length (checked_packages self)) in
  let total_failed := Z.of_nat (List.length (failed_checks self)) in
  let total_vulnerable :=
    Z.of_nat (List.length (vulnerable_packages self)) in
  let total_unclaimed := Z.of_nat (List.length (unclaimed_packages self)) in
  {| total_packages_checked := total_checked;
     stat_failed_checks := total_failed;
     stat_vulnerable_packages := total_vulnerable;
     stat_unclaimed_packages := total_unclaimed;
     success_rate :=
       if (total_checked + total_failed >? 0)%Z
       then Percent total_checked (total_checked + total_failed)
       else Int 0;
     vulnerability_rate :=
       if (total_checked >? 0)%Z
       then Percent total_vulnerable total_checked
       else Int 0;
     unclaimed_rate :=
       if (total_checked >? 0)%Z
       then Percent total_unclaimed total_checked
       else Int 0 |}.

(** One call of [check_packages_async]: its arguments and the order in
    which its tasks finished. *)
Record run : Type := mk_run {
  run_completion : list nat;
  run_net : nat -> nat -> outcome;
  run_now : nat -> Q;
  run_packages : list PackageExtractor.package
}.

(** The object after a series of calls. *)
Definition after_runs (runs : list run) (self : checker) : checker :=
  fold_left
    (fun self r =>
       check_packages_async_on (run_completion r) (run_net r) (run_now r)
         (run_packages r) self)
    runs self.

(** What a finished task appends, read off the value it returns. *)
Definition unclaimed_of (r : option checked_package) : list checked_package :=
  match r with
  | Some c => if is_unclaimed c then [c] else []
  | None => []
  end.

Definition vulnerable_of (r : option checked_package) : list checked_package :=
  match r with
  | Some c => if is_vulnerable c then [c] else []
  | None => []
  end.

(** The value returned by task [i] of a call. *)
Definition result_of_task (net : nat -> nat -> outcome) (now : nat -> Q)
  (packages : list PackageExtractor.package) (i : nat)
  : option checked_package :=
  match nth_error (npm_packages packages) i with
  | Some package =>
      fst (_check_single_package_async (net i) (now i) package)
  | None => None
  end.

End CheckerState.

(* ================================================================== *)
(** ** Sample inputs *)
(* ================================================================== *)

Module Samples.

(** A Cargo manifest with development dependencies and a dependency
    table, but no plain dependency section. *)
Definition dev_only_manifest : string :=
  ("[dev-dependencies]" ++ String PackageExtractor.newline
     ("rand = 1" ++ String PackageExtractor.newline "[dependencies.serde]"))%string.

(** The manifests that the pattern table names literally, each with the
    type that [_identify_package_type] gives it. *)
Definition literal_manifests : list (string * string) :=
  [ ("package.json", "npm"); ("requirements.txt", "pip");
    ("setup.py", "pip"); ("pyproject.toml", "pip"); ("pom.xml", "maven");
    ("build.gradle", "gradle"); ("build.gradle.kts", "gradle");
    ("composer.json", "composer"); ("Cargo.toml", "cargo");
    ("go.mod", "go"); ("go.sum", "go"); ("Gemfile", "ruby");
    ("packages.config", "nuget") ].

(** A decoded JSON value is an object. *)
Definition is_object (data : JSON.value) : bool :=
  match data with
  | JSON.Obj _ => true
  | _ => false
  end.

(** A file system in which every file holds a JSON array. *)
Definition array_read_text (path : string) : result string := Ok "[1, 2]".

(** A file system in which every file holds one requirement. *)
Definition flask_read_text (path : string) : result string := Ok "flask".

End Samples.

(* ================================================================== *)
(** ** Merging the check results: [BugBountyAnalyzer.analyze_organization] *)
(* ================================================================== *)

Module Analyzer.

Import JSON.

(** The keys that [update] adds to a package dictionary, apart from
    [package_info]. *)
Record verification : Type := mk_verification {
  npm_status : string;
  is_unclaimed : bool;
  is_vulnerable : bool;
  vulnerabilities : list NPMChecker.vulnerability;
  last_checked : NPMChecker.Q
}.

(** A dictionary of [all_packages]: the seven keys of the extractor, the
    keys of a check when one was merged in, and [package_info] when some
    merged check carried it. *)
Record report_package : Type := mk_report_package {
  record : PackageExtractor.package;
  checked : option verification;
  package_info : option NPMChecker.package_info
}.

(** A dictionary as the extractor left it. *)
Definition unchecked (p : PackageExtractor.package) : report_package :=
  {| record := p; checked := None; package_info := None |}.

(** [d.update(checked_pkg)]: every key of [checked_pkg] overwrites; a key
    that [checked_pkg] lacks ([package_info] on the not-found branch)
    stays. *)
Definition update_with (d : report_package)
  (checked_pkg : NPMChecker.checked_package) : report_package :=
  {| record := NPMChecker.package checked_pkg;
     checked :=
       Some {| npm_status := NPMChecker.npm_status checked_pkg;
               is_unclaimed := NPMChecker.is_unclaimed checked_pkg;
               is_vulnerable := NPMChecker.is_vulnerable checked_pkg;
               vulnerabilities := NPMChecker.vulnerabilities checked_pkg;
               last_checked := NPMChecker.last_checked checked_pkg |};
     package_info :=
       match NPMChecker.info checked_pkg with
       | Some i => Some i
       | None => package_info d
       end |}.

(** Lists and dictionaries cannot be dictionary keys. *)
Definition hashable (v : value) : bool :=
  match v with
  | Arr _ | Obj _ => false
  | _ => true
  end.

Section Keys.

(** Equality of two keys that are [None], booleans or numbers, as the
    dictionary decides it. *)
Variable scalar_eqb : value -> value -> bool.

(** Equality of dictionary keys: strings by their text, a string never
    equals another kind of value. *)
Definition key_eqb (a b : value) : bool :=
  match a, b with
  | Str s, Str t => String.eqb s t
  | Str _, _ => false
  | _, Str _ => false
  | _, _ => scalar_eqb a b
  end.

(** [package_map]: each name with the position, in [all_packages], of the
    dictionary it is bound to (the dictionaries are shared, not copied). *)
Definition package_map := list (value * nat).

(** [m[k] = i]: a key that is already there keeps its place. *)
Fixpoint map_set (m : package_map) (k : value) (i : nat) : package_map :=
  match m with
  | [] => [(k, i)]
  | (k', j) :: r =>
      if key_eqb k' k then (k', i) :: r else (k', j) :: map_set r k i
  end.

Fixpoint map_get (m : package_map) (k : value) : option nat :=
  match m with
  | [] => None
  | (k', j) :: r => if key_eqb k' k then Some j else map_get r k
  end.

(** [{pkg['name']: pkg for pkg in all_packages}]. *)
Definition build_package_map (all_packages : list PackageExtractor.package)
  : result package_map :=
  for_each (enumerate all_packages 0)
    (fun '(i, pkg) m =>
       if hashable (PackageExtractor.name pkg)
       then Ok (map_set m (PackageExtractor.name pkg) i)
       else Raise TypeError)
    [].

(** One iteration of [for checked_pkg in checked_packages]. *)
Definition merge_step (m : package_map)
  (checked_pkg : NPMChecker.checked_package) (store : list report_package)
  : result (list report_package) :=
  let k := PackageExtractor.name (NPMChecker.package checked_pkg) in
  if hashable k then
    match map_get m k with
    | Some i =>
        match nth_error store i with
        | Some d =>
            Ok (Scheduler.update store i (update_with d checked_pkg))
        | None => Ok store
        end
    | None => Ok store
    end
  else Raise TypeError.

(** The merge of step 5: [all_packages] after the loop, and the exception
    that ended the step early, if any (the dictionaries updated before it
    stay updated). *)
Definition update_packages (all_packages : list PackageExtractor.package)
  (checked_packages : list NPMChecker.checked_package)
  : list report_package * option exn :=
  match build_package_map all_packages with
  | Raise e => (map unchecked all_packages, Some e)
  | Ok m =>
      for_each_keep checked_packages (merge_step m)
        (map unchecked all_packages)
  end.

End Keys.

(** The name of the record is a string. *)
Definition string_named (p : PackageExtractor.package) : Prop :=
  exists s : string, PackageExtractor.name p = Str s.

(** The position that the loop of [build_package_map] leaves bound to the
    name [s]: the last record of [l] with that name, counted from [start];
    [acc] when there is none. *)
Fixpoint last_from (l : list PackageExtractor.package) (start : nat)
  (s : string) (acc : option nat) : option nat :=
  match l with
  | [] => acc
  | p :: r =>
      last_from r (S start) s
        (match PackageExtractor.name p with
         | Str t => if String.eqb t s then Some start else acc
         | _ => acc
         end)
  end.

(** Every key of the map is a string. *)
Definition string_keys (m : list (value * nat)) : Prop :=
  Forall (fun kv => exists s : string, fst kv = Str s) m.

(** The check is addressed to position [i]. *)
Definition aims_at (lookup : value -> option nat) (i : nat)
  (c : NPMChecker.checked_package) : bool :=
  match lookup (PackageExtractor.name (NPMChecker.package c)) with
  | Some j => Nat.eqb j i
  | None => false
  end.

(** A pip record and an npm record of the same name, and the check of the
    npm record. *)
Definition pip_requests : PackageExtractor.package :=
  {| PackageExtractor.name := Str "requests";
     PackageExtractor.version := Str "==2.28.0";
     PackageExtractor.type := "dependency";
     PackageExtractor.category := "requirements";
     PackageExtractor.package_manager := "pip";
     PackageExtractor.file_path := "requirements.txt";
     PackageExtractor.source := "requirements.txt:line_1" |}.

Definition checked_requests : NPMChecker.checked_package :=
  Verifier.not_found_record Verifier.zero (Verifier.npm_record "requests").

Definition no_scalars (a b : value) : bool := false.

End Analyzer.

(* ================================================================== *)
(** ** Runs of the event loop *)
(* ================================================================== *)

Module Runs.

Import Scheduler.

(** The moves a task has before it at most: the admission, the first
    request, per attempt but the last a failure and a retry, and the
    answer. *)
Definition rank (p : phase) : nat :=
  match p with
  | Waiting => 2 * NPMChecker.MAX_RETRIES + 1
  | RateLimit => 2 * NPMChecker.MAX_RETRIES
  | Requesting attempt => 2 * (NPMChecker.MAX_RETRIES - 1 - attempt) + 1
  | BackingOff attempt => 2 * (NPMChecker.MAX_RETRIES - 1 - attempt)
  | Finished => 0
  end.

Definition remaining (s : state) : nat := list_sum (map rank (tasks s)).

(** A run of [k] moves of the event loop. *)
Inductive run (s : state) : nat -> state -> Prop :=
| run_stop : run s 0 s
| run_move k s1 s2 : run s k s1 -> step s1 s2 -> run s (S k) s2.

Definition finished (p : phase) : bool :=
  match p with
  | Finished => true
  | _ => false
  end.

(** A task backs off only when an attempt is left. *)
Definition may_retry (p : phase) : Prop :=
  match p with
  | BackingOff attempt => attempt + 1 < NPMChecker.MAX_RETRIES
  | _ => True
  end.

(** One name: the task after its admission. *)
Definition one_admitted : state :=
  {| permits := NPMChecker.MAX_CONCURRENT_NPM_CHECKS - 1;
     tasks := [RateLimit] |}.

End Runs.

(* ================================================================== *)
(** ** The [re] engine on the patterns of the extractor *)
(* ================================================================== *)

Module Re.

(** The constructs the patterns of [package_extractor.py] are written
    with, each followed by the rest of the pattern.  Every group of these
    patterns encloses exactly one repeated character class. *)
Inductive regex : Type :=
| End
| Lit (text : string) (rest : regex)
| Alt (alternatives : list string) (rest : regex)
    (* a non-capturing group of literal alternatives *)
| Char (cls : ascii -> bool) (rest : regex)
    (* one character of a class *)
| Run (cls : ascii -> bool) (min : nat) (greedy capture : bool)
    (rest : regex)
    (* a class repeated [min] times or more, greedy or lazy; a group when
       [capture] *)
| Opt (body : regex) (rest : regex).
    (* an optional non-capturing group, greedy *)

Definition quote (c : ascii) : bool :=
  Ascii.eqb c Py.dquote || Ascii.eqb c Py.squote.

Definition not_quote (c : ascii) : bool := negb (quote c).

(** The dot under [re.DOTALL]. *)
Definition any (c : ascii) : bool := true.

Definition alnum (c : ascii) : bool :=
  let n := nat_of_ascii c in
  (((97 <=? n) && (n <=? 122)) || ((65 <=? n) && (n <=? 90))
   || ((48 <=? n) && (n <=? 57)))%nat.

(** The classes of the four script patterns. *)
Definition npm_name_char (c : ascii) : bool :=
  alnum c || Ascii.eqb c "@" || Ascii.eqb c "-" || Ascii.eqb c "_"
  || Ascii.eqb c "/".

Definition pip_name_char (c : ascii) : bool :=
  alnum c || Ascii.eqb c "-" || Ascii.eqb c "_".

Definition composer_name_char (c : ascii) : bool :=
  alnum c || Ascii.eqb c "-" || Ascii.eqb c "_" || Ascii.eqb c "/".

(** White space: zero or more, one or more. *)
Definition spaces0 (rest : regex) : regex := Run Py.isspace 0 true false rest.
Definition spaces1 (rest : regex) : regex := Run Py.isspace 1 true false rest.

(** A quoted literal with its body as a group. *)
Definition quoted (rest : regex) : regex :=
  Char quote (Run not_quote 1 true true (Char quote rest)).

Definition gradle_configurations : list string :=
  [ "implementation"; "compile"; "testImplementation"; "testCompile";
    "api"; "compileOnly"; "runtimeOnly" ].

(** The pattern strings of the module. *)
Definition regex_of (p : pattern) : regex :=
  match p with
  | pat_install_requires =>
      Lit "install_requires"
        (spaces0 (Lit "=" (spaces0 (Lit "["
           (Run any 0 false true (Lit "]" End))))))
  | pat_quoted_literal => quoted End
  | pat_setup_name => Lit "name" (spaces0 (Lit "=" (spaces0 (quoted End))))
  | pat_setup_version =>
      Lit "version" (spaces0 (Lit "=" (spaces0 (quoted End))))
  | pat_gradle_literal =>
      Alt gradle_configurations (spaces1 (quoted End))
  | pat_gradle_keywords =>
      Alt gradle_configurations
        (spaces1 (Lit "group:" (spaces0 (quoted
           (spaces0 (Lit "," (spaces0 (Lit "name:" (spaces0 (quoted
              (spaces0 (Lit "," (spaces0 (Lit "version:" (spaces0
                 (quoted End))))))))))))))))
  | pat_gem =>
      Lit "gem"
        (spaces1 (quoted
           (Opt (spaces0 (Lit "," (spaces0 (quoted End)))) End)))
  | pat_npm_install =>
      Lit "npm" (spaces1 (Lit "install" (spaces1
        (Run npm_name_char 1 true true End))))
  | pat_yarn_add =>
      Lit "yarn" (spaces1 (Lit "add" (spaces1
        (Run npm_name_char 1 true true End))))
  | pat_pip_install =>
      Lit "pip" (spaces1 (Lit "install" (spaces1
        (Run pip_name_char 1 true true End))))
  | pat_composer_require =>
      Lit "composer" (spaces1 (Lit "require" (spaces1
        (Run composer_name_char 1 true true End))))
  end.

(** The groups of a pattern, in order: the least length of the text a
    group can hold, and whether the group can stay out of a match. *)
Fixpoint group_shape (optional : bool) (r : regex) : list (nat * bool) :=
  match r with
  | End => []
  | Lit _ rest => group_shape optional rest
  | Alt _ rest => group_shape optional rest
  | Char _ rest => group_shape optional rest
  | Run _ min _ capture rest =>
      (if capture then [(min, optional)] else [])
      ++ group_shape optional rest
  | Opt body rest => group_shape true body ++ group_shape optional rest
  end.

(** A repeated class at the head of [s]; [taken] is what it has consumed
    so far.  A greedy repetition goes on as long as it can and gives
    characters back one by one; a lazy one stops as early as the rest of
    the pattern lets it. *)
Fixpoint run {A : Type} (cls : ascii -> bool) (min : nat) (greedy : bool)
  (leave : string -> string -> option A) (s taken : string) : option A :=
  let stop :=
    if (min <=? String.length taken)%nat then leave taken s else None in
  match s with
  | String c s' =>
      if cls c then
        let more :=
          run cls min greedy leave s' (taken ++ String c EmptyString) in
        if greedy then
          match more with Some m => Some m | None => stop end
        else
          match stop with Some m => Some m | None => more end
      else stop
  | EmptyString => stop
  end.

(** The backtracking matcher: the pattern [r] at the head of [s], then
    the continuation [k] on the rest of the text; the first success in the
    order of preference of the engine. *)
Fixpoint exec {A : Type} (r : regex) (s : string) (g : re_groups)
  (k : string -> re_groups -> option A) {struct r} : option A :=
  match r with
  | End => k s g
  | Lit text rest =>
      if String.prefix text s
      then exec rest (Py.drop (String.length text) s) g k
      else None
  | Alt alternatives rest =>
      Py.for_return alternatives
        (fun a => if String.prefix a s
                  then exec rest (Py.drop (String.length a) s) g k
                  else None)
  | Char cls rest =>
      match s with
      | String c s' => if cls c then exec rest s' g k else None
      | EmptyString => None
      end
  | Run cls min greedy capture rest =>
      run cls min greedy
        (fun taken s' =>
           exec rest s' (if capture then g ++ [Some taken] else g) k)
        s EmptyString
  | Opt body rest =>
      match exec body s g (fun s' g' => exec rest s' g' k) with
      | Some m => Some m
      | None =>
          exec rest s
            (g ++ repeat None (List.length (group_shape true body))) k
      end
  end.

(** A match at the head of [s]: its groups and the text after it. *)
Definition match_here (r : regex) (s : string)
  : option (re_groups * string) :=
  exec r s [] (fun rest g => Some (g, rest)).

(** [re.match]. *)
Definition re_match (p : pattern) (s : string) : option re_groups :=
  option_map fst (match_here (regex_of p) s).

(** The leftmost match. *)
Fixpoint search_from (r : regex) (s : string)
  : option (re_groups * string) :=
  match match_here r s with
  | Some m => Some m
  | None =>
      match s with
      | String _ s' => search_from r s'
      | EmptyString => None
      end
  end.

(** [re.search]. *)
Definition re_search (p : pattern) (s : string) : option re_groups :=
  option_map fst (search_from (regex_of p) s).

Definition group_text (o : option string) : string :=
  match o with Some t => t | None => EmptyString end.

(** What [re.findall] lists for a match of [s] that leaves [rest]: the
    matched text without groups, the group with one, a tuple otherwise;
    a group that stayed out reads as the empty string. *)
Definition item_of (s : string) (g : re_groups) (rest : string) : re_item :=
  match g with
  | [] => MStr (String.substring 0 (String.length s - String.length rest) s)
  | [o] => MStr (group_text o)
  | _ => MTuple (map group_text g)
  end.

(** The matches from left to right, each search starting where the last
    match ended (one character further after an empty match, which no
    pattern of the module has).  Every round consumes a character, so
    [S (String.length s)] rounds are enough. *)
Fixpoint findall_from (fuel : nat) (r : regex) (s : string) : list re_item :=
  match fuel with
  | O => []
  | S fuel' =>
      let skip :=
        match s with
        | String _ s' => findall_from fuel' r s'
        | EmptyString => []
        end in
      match match_here r s with
      | Some (g, rest) =>
          item_of s g rest
          :: (if (String.length rest <? String.length s)%nat
              then findall_from fuel' r rest
              else skip)
      | None => skip
      end
  end.

(** [re.findall]. *)
Definition re_findall (p : pattern) (s : string) : list re_item :=
  findall_from (S (String.length s)) (regex_of p) s.


End Re.

(* ================================================================== *)
(** ** Record names: the parsers that use [re] and [json] *)
(* ================================================================== *)

Module EmittedNames.

Import PackageExtractor.





End EmittedNames.

(* ================================================================== *)
(** ** Registry verification, record by record *)
(* ================================================================== *)

Module VerifierSpec.

Import NPMChecker Verifier.

(** The records of the npm ecosystem, in input order. *)
Fixpoint npm_records (packages : list PackageExtractor.package)
  : list PackageExtractor.package :=
  match packages with
  | [] => []
  | p :: rest =>
      if string_dec (PackageExtractor.package_manager p) "npm"
      then p :: npm_records rest
      else npm_records rest
  end.

(** What the record [p] becomes when [net] answers the requests of its own
    lookup and the clock reads [now]. *)
Definition own_result (net : nat -> outcome) (now : Q)
  (p : PackageExtractor.package) : checked_package :=
  match fst (_get_package_info net (PackageExtractor.name p)) with
  | Some package_info => found_record now p package_info
  | None => not_found_record now p
  end.

(** What the task of the record [p] sends and waits for: the rate-limit
    sleep and, when the record has a name, the requests and sleeps of its
    own lookup. *)
Definition own_trace (net : nat -> outcome) (p : PackageExtractor.package)
  : list event :=
  EvSleep rate_limit_delay
  :: (if has_name p
      then snd (_get_package_info net (PackageExtractor.name p))
      else []).

End VerifierSpec.

(* ================================================================== *)
(** ** Facts about the string primitives *)
(* ================================================================== *)

Module PyFacts.

Lemma prefix_app (p s : string) :
  String.prefix p s = true <-> exists post, s = (p ++ post)%string.
Proof.
  revert s; induction p as [|c p IH]; intros s.
  - split; [intros _; exists s; reflexivity | destruct s; reflexivity].
  - destruct s as [|d s]; simpl.
    + split; [discriminate | intros [post H]; discriminate].
    + destruct (ascii_dec c d) as [->|Hne].
      * rewrite IH. split; intros [post H]; exists post.
        -- now rewrite H.
        -- now inversion H.
      * split; [discriminate|].
        intros [post H]. inversion H. congruence.
Qed.

Lemma contains_spec (sub s : string) :
  Py.contains sub s = true <-> Spec.Substring sub s.
Proof.
  unfold Spec.Substring.
  induction s as [|c s IH]; cbn [Py.contains].
  - rewrite orb_false_r, prefix_app. split.
    + intros [post H]. exists EmptyString, post. exact H.
    + intros [pre [post H]]. destruct pre; simpl in H; [|discriminate].
      exists post. exact H.
  - rewrite orb_true_iff, IH, prefix_app. split.
    + intros [[post H] | [pre [post H]]].
      * exists EmptyString, post. exact H.
      * exists (String c pre), post. simpl. now rewrite H.
    + intros [pre [post H]]. destruct pre as [|d pre]; simpl in H.
      * left. exists post. exact H.
      * right. inversion H. exists pre, post. reflexivity.
Qed.

Lemma for_return_existsb {A : Type} (f : A -> bool) (l : list A) :
  Py.for_return l (fun x => if f x then Some true else None)
  = if existsb f l then Some true else None.
Proof.
  induction l as [|x l IH]; simpl; [reflexivity|].
  destruct (f x); simpl; [reflexivity | exact IH].
Qed.

Lemma sum_bool_hamming (a b : string) :
  Py.sum_bool (map (fun '(c1, c2) => negb (Ascii.eqb c1 c2)) (Py.zip a b))
  = Z.of_nat (Spec.hamming a b).
Proof.
  revert b; induction a as [|x a IH]; intros [|y b]; try reflexivity.
  cbn [Py.zip map Py.sum_bool Spec.hamming].
  rewrite IH, Nat2Z.inj_add. destruct (Ascii.eqb x y); cbn [negb]; lia.
Qed.

Lemma hamming_sym (a b : string) : Spec.hamming a b = Spec.hamming b a.
Proof.
  revert b; induction a as [|x a IH]; intros [|y b]; simpl; try reflexivity.
  rewrite IH, (Ascii.eqb_sym x y). reflexivity.
Qed.

Lemma drop_length_le (n : nat) (s : string) :
  String.length s <= n -> Py.drop n s = EmptyString.
Proof.
  revert s; induction n as [|n IH]; intros [|c s]; simpl; intros H;
    try reflexivity; try lia.
  apply IH; lia.
Qed.

Lemma get_drop (i : nat) (s : string) :
  i < String.length s ->
  exists c, String.get i s = Some c
            /\ Py.drop i s = String c (Py.drop (S i) s).
Proof.
  revert s; induction i as [|i IH]; intros [|c s]; simpl; intros H;
    try lia.
  - exists c. split; reflexivity.
  - apply IH. lia.
Qed.

Lemma lstrip_by_head (p : ascii -> bool) (s : string) :
  Py.lstrip_head_ok p (Py.lstrip_by p s).
Proof.
  induction s as [|c s IH]; simpl; [exact I|].
  destruct (p c) eqn:E; [exact IH | simpl; exact E].
Qed.

Lemma rstrip_by_idempotent (p : ascii -> bool) (s : string) :
  Py.rstrip_by p (Py.rstrip_by p s) = Py.rstrip_by p s.
Proof.
  induction s as [|c s IH]; simpl; [reflexivity|].
  destruct (p c && Py.isempty (Py.rstrip_by p s)) eqn:E; [reflexivity|].
  simpl. rewrite IH, E. reflexivity.
Qed.

Lemma strip_by_idempotent (p : ascii -> bool) (s : string) :
  Py.strip_by p (Py.strip_by p s) = Py.strip_by p s.
Proof.
  unfold Py.strip_by.
  pose proof (lstrip_by_head p s) as H.
  destruct (Py.lstrip_by p s) as [|c t]; [reflexivity|].
  simpl in H. cbn [Py.rstrip_by]. rewrite H. cbn [andb Py.lstrip_by].
  rewrite H. cbn [Py.rstrip_by]. rewrite rstrip_by_idempotent, H.
  reflexivity.
Qed.

Lemma strip_idempotent (s : string) : Py.strip (Py.strip s) = Py.strip s.
Proof. apply strip_by_idempotent. Qed.

End PyFacts.

(* ================================================================== *)
(** ** The risk scorer *)
(* ================================================================== *)

Module RiskScorer.

Import NPMChecker Spec.

(** The index loop and the scan agree once the fuel covers what is left of
    the longer name. *)
Lemma scan_loop_greedy (fuel : nat) (s l : string) (i j : nat) :
  String.length l - j <= fuel ->
  scan_loop fuel s l i j = i + greedy (Py.drop i s) (Py.drop j l).
Proof.
  revert i j; induction fuel as [|fuel IH]; intros i j Hf;
    cbn [scan_loop].
  - rewrite (PyFacts.drop_length_le j l) by lia.
    destruct (Py.drop i s); cbn [greedy]; lia.
  - destruct (i <? String.length s)%nat eqn:Hi; cbn [andb].
    + destruct (j <? String.length l)%nat eqn:Hj.
      * apply Nat.ltb_lt in Hi, Hj.
        destruct (PyFacts.get_drop i s Hi) as [c [Hc Hds]].
        destruct (PyFacts.get_drop j l Hj) as [d [Hd Hdl]].
        rewrite Hc, Hd, Hdl. rewrite !Nat.add_1_r.
        destruct (Ascii.eqb c d) eqn:E; rewrite IH by lia.
        -- rewrite Hds. cbn [greedy]. rewrite E. lia.
        -- rewrite Hds at 2. cbn [greedy]. rewrite E, <- Hds. reflexivity.
      * apply Nat.ltb_ge in Hj.
        rewrite (PyFacts.drop_length_le j l) by lia.
        destruct (Py.drop i s); cbn [greedy]; lia.
    + apply Nat.ltb_ge in Hi.
      rewrite (PyFacts.drop_length_le i s) by lia.
      destruct (Py.drop j l); cbn [greedy]; lia.
Qed.

(** Fuel beyond the length of the longer name changes nothing: the loop
    has ended by then. *)
Lemma scan_loop_fuel (fuel : nat) (s l : string) :
  String.length l <= fuel ->
  scan_loop fuel s l 0 0 = scan_loop (String.length l) s l 0 0.
Proof.
  intros H. rewrite !scan_loop_greedy by lia. reflexivity.
Qed.

Lemma greedy_le (s l : string) : greedy s l <= String.length s.
Proof.
  revert s; induction l as [|d l IH]; intros [|c s]; simpl; try lia.
  destruct (Ascii.eqb c d).
  - specialize (IH s). lia.
  - specialize (IH (String c s)). simpl in IH. lia.
Qed.

Lemma subseq_tail (c : ascii) (s l : string) :
  Spec.Subseq (String c s) l -> Spec.Subseq s l.
Proof.
  induction l as [|d l IH]; intros H; inversion H; subst.
  - constructor. assumption.
  - constructor. apply IH. assumption.
Qed.

Lemma greedy_subseq (s l : string) :
  greedy s l = String.length s <-> Spec.Subseq s l.
Proof.
  revert s; induction l as [|d l IH]; intros s.
  - destruct s as [|c s]; simpl.
    + split; [constructor | reflexivity].
    + split; [discriminate | intros H; inversion H].
  - destruct s as [|c s]; simpl.
    + split; [constructor | reflexivity].
    + destruct (Ascii.eqb c d) eqn:E.
      * apply Ascii.eqb_eq in E. subst d. split.
        -- intros H. constructor. apply IH. lia.
        -- intros H. f_equal. apply IH.
           inversion H; subst; [assumption|].
           eapply subseq_tail; eassumption.
      * apply Ascii.eqb_neq in E. split.
        -- intros H. constructor. apply IH. exact H.
        -- intros H. inversion H; subst; [congruence|].
           apply (IH (String c s)). assumption.
Qed.

Lemma scan_subseq (shorter longer : string) :
  Nat.eqb (scan_loop (String.length longer) shorter longer 0 0)
          (String.length shorter) = true
  <-> Spec.Subseq shorter longer.
Proof.
  rewrite Nat.eqb_eq, scan_loop_greedy by lia. simpl.
  apply greedy_subseq.
Qed.

Lemma similar_name_spec (a b : string) :
  _is_similar_name a b = true <-> Spec.similar a b.
Proof.
  unfold _is_similar_name, Spec.similar, Py.len.
  set (la := String.length a). set (lb := String.length b).
  rewrite Z.gtb_ltb.
  destruct (Z.ltb_spec 2 (Z.abs (Z.of_nat la - Z.of_nat lb))) as [H2|H2];
    destruct (Nat.ltb_spec 2 (la - lb + (lb - la))) as [H2'|H2'];
    try (exfalso; lia).
  { split; [intros HH; discriminate HH | intros []]. }
  destruct (Z.eqb_spec (Z.of_nat la) (Z.of_nat lb)) as [He|He];
    destruct (Nat.eqb_spec la lb) as [He'|He']; try (exfalso; lia).
  { rewrite PyFacts.sum_bool_hamming, Z.leb_le. lia. }
  destruct (Z.ltb_spec (Z.of_nat la) (Z.of_nat lb)) as [Hl|Hl];
    destruct (Nat.ltb_spec la lb) as [Hl'|Hl']; try (exfalso; lia);
    fold la; fold lb.
  - destruct (Z.eqb_spec (Z.of_nat lb - Z.of_nat la) 1) as [H1|H1];
      destruct (Nat.eqb_spec (la - lb + (lb - la)) 1) as [H1'|H1'];
      try (exfalso; lia).
    + apply scan_subseq.
    + split; [intros HH; discriminate HH | intros []].
  - destruct (Z.eqb_spec (Z.of_nat la - Z.of_nat lb) 1) as [H1|H1];
      destruct (Nat.eqb_spec (la - lb + (lb - la)) 1) as [H1'|H1'];
      try (exfalso; lia).
    + apply scan_subseq.
    + split; [intros HH; discriminate HH | intros []].
Qed.

Lemma similar_sym (a b : string) : Spec.similar a b <-> Spec.similar b a.
Proof.
  unfold Spec.similar.
  set (la := String.length a). set (lb := String.length b).
  replace (lb - la + (la - lb)) with (la - lb + (lb - la)) by lia.
  destruct (2 <? la - lb + (lb - la))%nat; [reflexivity|].
  destruct (Nat.eqb_spec la lb) as [He|He];
    destruct (Nat.eqb_spec lb la) as [He'|He']; try lia.
  - rewrite PyFacts.hamming_sym. reflexivity.
  - destruct (la - lb + (lb - la) =? 1)%nat; [|reflexivity].
    destruct (Nat.ltb_spec la lb) as [Hl|Hl];
      destruct (Nat.ltb_spec lb la) as [Hl'|Hl']; try lia; reflexivity.
Qed.

Lemma bool_eq_iff (x y : bool) : (x = true <-> y = true) -> x = y.
Proof. destruct x, y; intuition congruence. Qed.

Lemma existsb_similar (name : string) (l : list string) :
  existsb (_is_similar_name name) l = true
  <-> exists p, In p l /\ Spec.similar name p.
Proof.
  rewrite existsb_exists.
  split; intros [p [Hin H]]; exists p; split; auto;
    now apply similar_name_spec.
Qed.

Lemma existsb_keyword (s : string) (l : list string) :
  existsb (fun kw => Py.contains kw s) l = true
  <-> exists kw, In kw l /\ Spec.Substring kw s.
Proof.
  rewrite existsb_exists.
  split; intros [p [Hin H]]; exists p; split; auto;
    now apply PyFacts.contains_spec.
Qed.

(** The scorer as the chain of its three rules. *)
Lemma scorer_chain (name : string) :
  _is_potentially_vulnerable_package name
  = if existsb (fun kw => Py.contains kw (Py.lower name)) suspicious_patterns
    then true
    else if (String.length name <? 3)%nat then true
    else existsb (_is_similar_name name) popular_packages.
Proof.
  unfold _is_potentially_vulnerable_package.
  rewrite (PyFacts.for_return_existsb
             (fun kw => Py.contains kw (Py.lower name))).
  destruct (existsb _ suspicious_patterns); [reflexivity|].
  unfold Py.len.
  replace (Z.of_nat (String.length name) <? 3)%Z
    with (String.length name <? 3)%nat
    by (destruct (Nat.ltb_spec (String.length name) 3);
        destruct (Z.ltb_spec (Z.of_nat (String.length name)) 3); lia).
  destruct (String.length name <? 3)%nat; [reflexivity|].
  rewrite (PyFacts.for_return_existsb (_is_similar_name name)).
  destruct (existsb _ popular_packages); reflexivity.
Qed.

(** C4.  The scorer reports a name exactly when one of its three rules
    applies, tried in the order keyword, short name, similarity to a
    popular package; the similarity test is the documented one (not similar
    beyond a length difference of 2 or at exactly 2, Hamming distance at
    most 1 at equal lengths, left-to-right subsequence at a difference of
    1); and the four documented names score as documented. *)
Theorem risk_scorer_rules :
  (forall name : string,
      _is_potentially_vulnerable_package name
      = if existsb (fun kw => Py.contains kw (Py.lower name))
             suspicious_patterns
        then true
        else if (String.length name <? 3)%nat then true
        else existsb (_is_similar_name name) popular_packages)
  /\ (forall name : string,
        _is_potentially_vulnerable_package name = true
        <-> Spec.suspicious name)
  /\ (forall a b : string, _is_similar_name a b = true <-> Spec.similar a b)
  /\ _is_potentially_vulnerable_package "lodah" = true
  /\ _is_potentially_vulnerable_package "expres" = true
  /\ _is_potentially_vulnerable_package "ab" = true
  /\ _is_potentially_vulnerable_package "completely-unrelated-package-name"
     = false.
Proof.
  split; [exact scorer_chain|].
  split.
  - intros name. rewrite scorer_chain. unfold Spec.suspicious,
      Spec.keyword_match, Spec.short_name, Spec.name_similarity.
    rewrite <- existsb_keyword, <- existsb_similar.
    destruct (existsb _ suspicious_patterns); [tauto|].
    destruct (Nat.ltb_spec (String.length name) 3) as [Hs|Hs].
    + tauto.
    + split; [tauto|]. intros [H|[H|H]]; [discriminate | lia | exact H].
  - split; [exact similar_name_spec|].
    repeat split; vm_compute; reflexivity.
Qed.

(** C10.  The similarity test does not depend on the order of its two
    arguments. *)
Theorem is_similar_name_symmetric (a b : string) :
  _is_similar_name a b = _is_similar_name b a.
Proof.
  apply bool_eq_iff.
  rewrite !similar_name_spec. apply similar_sym.
Qed.

End RiskScorer.

(* ================================================================== *)
(** ** The pip specification parser *)
(* ================================================================== *)

Module PipSpec.

Import PackageExtractor Spec.

Lemma drop_app (p s : string) :
  Py.drop (String.length p) (p ++ s) = s.
Proof. induction p as [|c p IH]; simpl; [reflexivity | exact IH]. Qed.

(** [split(sep, 1)] on a text that contains [sep]: two parts around the
    leftmost occurrence. *)
Lemma split1_first (sep s : string) :
  Py.contains sep s = true ->
  exists pre post,
    Py.split1 sep s = [pre; post]
    /\ s = (pre ++ sep ++ post)%string
    /\ (forall pre' post', s = (pre' ++ sep ++ post')%string ->
        String.length pre <= String.length pre').
Proof.
  induction s as [|c s IH]; cbn [Py.contains Py.split1]; intros H.
  - rewrite orb_false_r in H. rewrite H.
    apply PyFacts.prefix_app in H. destruct H as [post H].
    exists EmptyString, (Py.drop (String.length sep) EmptyString).
    split; [reflexivity|]. split.
    + destruct sep; [reflexivity | discriminate H].
    + intros; simpl; lia.
  - destruct (String.prefix sep (String c s)) eqn:P.
    + apply PyFacts.prefix_app in P. destruct P as [post P].
      exists EmptyString, (Py.drop (String.length sep) (String c s)).
      split; [reflexivity|]. split.
      * rewrite P, drop_app. reflexivity.
      * intros; simpl; lia.
    + simpl in H. destruct (IH H) as [pre [post [Hs [He Hmin]]]].
      rewrite Hs. exists (String c pre), post.
      split; [reflexivity|]. split.
      * simpl. now rewrite <- He.
      * intros pre' post' E. destruct pre' as [|d pre'].
        -- exfalso. simpl in E.
           assert (String.prefix sep (String c s) = true)
             by (apply PyFacts.prefix_app; eauto).
           congruence.
        -- simpl in E. inversion E. subst d. simpl.
           apply le_n_S. eapply Hmin. eassumption.
Qed.

Lemma split1_absent (sep s : string) :
  Py.contains sep s = false -> Py.split1 sep s = [s].
Proof.
  induction s as [|c s IH]; cbn [Py.contains Py.split1]; intros H;
    apply orb_false_iff in H; destruct H as [P H]; rewrite P.
  - reflexivity.
  - rewrite (IH H). reflexivity.
Qed.

Lemma operator_loop_found (ops : list string) (spec op : string) :
  find (fun operator => Py.contains operator spec) ops = Some op ->
  exists pre post,
    spec = (pre ++ op ++ post)%string
    /\ (forall pre' post', spec = (pre' ++ op ++ post')%string ->
        String.length pre <= String.length pre')
    /\ pip_operator_loop ops spec
       = Ok (Py.strip pre, (op ++ Py.strip post)%string).
Proof.
  induction ops as [|o ops IH]; simpl; [discriminate|].
  destruct (Py.contains o spec) eqn:C.
  - intros E. inversion E. subst o.
    destruct (split1_first op spec C) as [pre [post [Hs [He Hmin]]]].
    exists pre, post. rewrite Hs. simpl. auto.
  - exact IH.
Qed.

Lemma operator_loop_none (ops : list string) (spec : string) :
  find (fun operator => Py.contains operator spec) ops = None ->
  pip_operator_loop ops spec = Ok (spec, "unknown").
Proof.
  induction ops as [|o ops IH]; simpl; [reflexivity|].
  destruct (Py.contains o spec); [discriminate | exact IH].
Qed.

(** The parser never raises: the unpacking always finds two parts. *)
Lemma parse_total (spec : string) :
  exists name version, _parse_pip_specification spec = Ok (name, version).
Proof.
  unfold _parse_pip_specification.
  destruct (find (fun operator => Py.contains operator (Py.strip spec))
              pip_operators) as [op|] eqn:F.
  - destruct (operator_loop_found _ _ _ F) as [pre [post [_ [_ H]]]].
    rewrite H. eauto.
  - rewrite (operator_loop_none _ _ F). eauto.
Qed.

(** C5.  On a requirements line the parser takes the first operator of
    [==, >=, <=, >, <, ~=, !=] (in that order) that occurs in the stripped
    line, splits at the leftmost occurrence of that operator, and returns
    the stripped text before it as the name and the operator followed by
    the stripped text after it as the version; when no operator occurs the
    version is "unknown".  A file with the line [requests==2.28.0] gives
    (requests, ==2.28.0), one with the line [flask] gives (flask,
    unknown). *)
Theorem parse_pip_specification_spec :
  pip_operators = ["=="; ">="; "<="; ">"; "<"; "~="; "!="]
  /\ (forall line op : string,
        first_operator (Py.strip line) = Some op ->
        exists pre post : string,
          Py.strip line = (pre ++ op ++ post)%string
          /\ (forall pre' post' : string,
                Py.strip line = (pre' ++ op ++ post')%string ->
                String.length pre <= String.length pre')
          /\ _parse_pip_specification line
             = Ok (Py.strip pre, (op ++ Py.strip post)%string))
  /\ (forall line : string,
        first_operator (Py.strip line) = None ->
        _parse_pip_specification line = Ok (Py.strip line, "unknown"))
  /\ (forall file_path : string,
        _extract_requirements_txt "requests==2.28.0" file_path
        = Ok [{| name := JSON.Str "requests";
                 version := JSON.Str "==2.28.0";
                 type := "dependency";
                 category := "requirements";
                 package_manager := "pip";
                 file_path := file_path;
                 source := "requirements.txt:line_1" |}])
  /\ (forall file_path : string,
        _extract_requirements_txt "flask" file_path
        = Ok [{| name := JSON.Str "flask";
                 version := JSON.Str "unknown";
                 type := "dependency";
                 category := "requirements";
                 package_manager := "pip";
                 file_path := file_path;
                 source := "requirements.txt:line_1" |}]).
Proof.
  split; [reflexivity|]. split.
  - intros line op F. apply (operator_loop_found _ _ _ F).
  - split.
    + intros line F. apply (operator_loop_none _ _ F).
    + split; intros file_path; reflexivity.
Qed.

(** The line [requests==2.28.0] has [==] as its first operator. *)
Lemma parse_pip_specification_witness :
  exists pre post : string,
    Py.strip "requests==2.28.0" = (pre ++ "==" ++ post)%string
    /\ (forall pre' post' : string,
          Py.strip "requests==2.28.0" = (pre' ++ "==" ++ post')%string ->
          String.length pre <= String.length pre')
    /\ _parse_pip_specification "requests==2.28.0"
       = Ok (Py.strip pre, ("==" ++ Py.strip post)%string).
Proof.
  apply (proj1 (proj2 parse_pip_specification_spec) "requests==2.28.0" "==").
  reflexivity.
Defined.

End PipSpec.

(* ================================================================== *)
(** ** The npm parser on the documented manifest *)
(* ================================================================== *)

Module NpmExample.

Import PackageExtractor Manifests.

(** C6.  With [json.loads] as the decoder and any [re] engine, the npm
    parser returns exactly three records for the documented manifest: the
    main package (x, 1.0.0) and the dependencies (a, ^1.0.0) and
    (b, 2.0.0), both of category "dependencies", versions verbatim. *)
Theorem npm_documented_manifest
  (re_findall : pattern -> string -> list re_item) (file_path : string) :
  _extract_npm_packages JSON.loads re_findall documented_manifest file_path
  = Ok [ {| name := JSON.Str "x";
            version := JSON.Str "1.0.0";
            type := "package";
            category := "main";
            package_manager := "npm";
            file_path := file_path;
            source := "package.json" |};
         {| name := JSON.Str "a";
            version := JSON.Str "^1.0.0";
            type := "dependency";
            category := "dependencies";
            package_manager := "npm";
            file_path := file_path;
            source := "package.json" |};
         {| name := JSON.Str "b";
            version := JSON.Str "2.0.0";
            type := "dependency";
            category := "dependencies";
            package_manager := "npm";
            file_path := file_path;
            source := "package.json" |} ].
Proof.
  unfold _extract_npm_packages.
  replace (JSON.loads documented_manifest)
    with (Ok (JSON.Obj
                [("name", JSON.Str "x"); ("version", JSON.Str "1.0.0");
                 ("dependencies",
                  JSON.Obj [("a", JSON.Str "^1.0.0");
                            ("b", JSON.Str "2.0.0")])]))
    by (vm_compute; reflexivity).
  reflexivity.
Qed.

End NpmExample.


(* ================================================================== *)
(** ** The section scanners against the documented scanner *)
(* ================================================================== *)

Module SectionScannerProps.

Import PackageExtractor SpecScanner.

Lemma prefix_single (c d : ascii) (r : string) :
  String.prefix (String c EmptyString) (String d r) = Ascii.eqb d c.
Proof.
  cbn [String.prefix].
  destruct (ascii_dec c d) as [->|Hne].
  - rewrite Ascii.eqb_refl. destruct r; reflexivity.
  - symmetry. apply Ascii.eqb_neq. congruence.
Qed.

Lemma split1_equals (line : string) :
  Py.contains "=" line = true ->
  Py.split1 "=" line = [before_first "=" line; after_first "=" line].
Proof.
  induction line as [|d r IH]; intros H.
  - discriminate H.
  - cbn [Py.contains Py.split1 before_first after_first] in *.
    rewrite prefix_single in *.
    destruct (Ascii.eqb d "=").
    + reflexivity.
    + cbn [orb] in H. rewrite (IH H). reflexivity.
Qed.

Lemma startswith_bracket (line : string) :
  Py.startswith line "[dependencies]" = true ->
  Py.startswith line "[" = true.
Proof.
  unfold Py.startswith. rewrite !PyFacts.prefix_app.
  intros [post ->]. eexists. reflexivity.
Qed.

Lemma pyproject_loop (file_path : string) (lines : list (nat * string))
  (packages : list package) (b : bool) :
  fst (fst (for_each_keep lines (pyproject_line file_path) (packages, b)))
  = packages ++ section_scan pyproject_trigger clean
                  (dependency_line "pip" "pyproject.toml" file_path) b lines.
Proof.
  revert packages b; induction lines as [|[n raw] lines IH]; intros packages b.
  - simpl. now rewrite app_nil_r.
  - cbn [for_each_keep section_scan pyproject_line].
    unfold pyproject_trigger.
    destruct (Py.startswith (Py.strip raw) "[tool.poetry.dependencies]"
              || Py.startswith (Py.strip raw) "[project.dependencies]").
    + apply IH.
    + destruct (Py.startswith (Py.strip raw) "[") eqn:Hb; cbn [andb].
      * destruct b; cbn [andb].
        -- apply IH.
        -- apply IH.
      * destruct b; cbn [andb]; [|apply IH].
        destruct (Py.contains "=" (Py.strip raw)) eqn:Hc; cbn [andb];
          [|apply IH].
        destruct (Py.startswith (Py.strip raw) "#"); cbn [negb]; [apply IH|].
        rewrite (split1_equals _ Hc). cbn [unpack2 bind].
        rewrite IH, <- app_assoc. reflexivity.
Qed.

Lemma cargo_loop (file_path : string) (lines : list (nat * string))
  (packages : list package) (b : bool) :
  fst (fst (for_each_keep lines (cargo_line file_path) (packages, b)))
  = packages ++ section_scan cargo_trigger Py.strip
                  (dependency_line "cargo" "Cargo.toml" file_path) b lines.
Proof.
  revert packages b; induction lines as [|[n raw] lines IH]; intros packages b.
  - simpl. now rewrite app_nil_r.
  - cbn [for_each_keep section_scan cargo_line].
    unfold cargo_trigger.
    destruct (Py.startswith (Py.strip raw) "[dependencies]").
    + apply IH.
    + destruct (Py.startswith (Py.strip raw) "[") eqn:Hb; cbn [andb].
      * destruct b; cbn [andb]; apply IH.
      * destruct b; cbn [andb]; [|apply IH].
        destruct (Py.contains "=" (Py.strip raw)) eqn:Hc; cbn [andb];
          [|apply IH].
        destruct (Py.startswith (Py.strip raw) "#"); cbn [negb]; [apply IH|].
        rewrite (split1_equals _ Hc). cbn [unpack2 bind].
        rewrite IH, <- app_assoc. reflexivity.
Qed.

(** C9, as stated, fails: on a Cargo manifest whose dependency key is
    quoted the parser keeps the quotes in the name, while the documented
    scanner (quotes stripped from both parts) removes them. *)
Lemma cargo_keeps_quotes_on_name :
  _extract_cargo_packages quoted_key_manifest "Cargo.toml"
  = [dependency_line "cargo" "Cargo.toml" "Cargo.toml" 2
       (Py.dq "'serde'") "1.0"]
  /\ cargo_scanner_as_documented quoted_key_manifest "Cargo.toml"
     = [dependency_line "cargo" "Cargo.toml" "Cargo.toml" 2 "serde" "1.0"]
  /\ _extract_cargo_packages quoted_key_manifest "Cargo.toml"
     <> cargo_scanner_as_documented quoted_key_manifest "Cargo.toml".
Proof.
  split; [vm_compute; reflexivity|].
  split; [vm_compute; reflexivity|].
  vm_compute. intros H. discriminate H.
Qed.

(** C9, amended.  Both parsers are the bracket-section scanner: one record
    for each in-section line that contains an equals sign and is not a
    comment, split at the first equals sign, the version stripped of white
    space and quotes.  The pyproject parser strips white space and quotes
    from the name as well; the Cargo parser strips only white space from
    the name. *)
Theorem section_scanners_refine (content file_path : string) :
  _extract_pyproject_toml content file_path
  = pyproject_scanner content file_path
  /\ _extract_cargo_packages content file_path
     = cargo_scanner content file_path.
Proof.
  unfold _extract_pyproject_toml, _extract_cargo_packages,
    pyproject_scanner, cargo_scanner.
  rewrite pyproject_loop, cargo_loop. split; reflexivity.
Qed.

End SectionScannerProps.


(* ================================================================== *)
(** ** The [re] engine: what its groups hold *)
(* ================================================================== *)

Module ReFacts.

Import Re.








(** The fuel of [findall_from] never runs out. *)
Lemma findall_fuel (r : regex) (n : nat) :
  forall (m : nat) (s : string),
    String.length s < n -> String.length s < m ->
    findall_from n r s = findall_from m r s.
Proof.
  induction n as [|n IH]; intros m s Hn Hm; [lia|].
  destruct m as [|m]; [lia|]. cbn [findall_from].
  assert (Hskip :
            match s with
            | String _ s' => findall_from n r s'
            | EmptyString => []
            end
            = match s with
              | String _ s' => findall_from m r s'
              | EmptyString => []
              end).
  { destruct s as [|c s]; [reflexivity|].
    cbn [String.length] in *. apply IH; lia. }
  destruct (match_here r s) as [[g rest]|]; [|exact Hskip].
  f_equal.
  destruct (Nat.ltb_spec (String.length rest) (String.length s))
    as [Hlt|Hle]; [apply IH; lia | exact Hskip].
Qed.




(** The engine on texts of the kinds the parsers meet. *)
Lemma engine_examples :
  re_findall pat_gradle_literal
    "compileOnly 'a:b:1' api 'z' compile x testCompile'y'"
  = [MStr "a:b:1"; MStr "z"]
  /\ re_findall pat_gradle_keywords
       "implementation group: 'g', name: 'n' ,version:'1.0'"
     = [MTuple ["g"; "n"; "1.0"]]
  /\ map (re_match pat_gem)
       ["gem 'rails', '~> 7.0'"; "gem 'rake'"; "gem 'rake', x"; "gemx 'a'";
        "gem ''"]
     = [Some [Some "rails"; Some "~> 7.0"]; Some [Some "rake"; None];
        Some [Some "rake"; None]; None; None]
  /\ re_search pat_install_requires
       "setup(install_requires = ['a', 'b>=1'], x=[])"
     = Some [Some "'a', 'b>=1'"]
  /\ re_findall pat_quoted_literal "'a', 'b>=1', ''"
     = [MStr "a"; MStr "b>=1"]
  /\ re_search pat_setup_name "setup(name = 'pkg', version='1.0')"
     = Some [Some "pkg"]
  /\ re_findall pat_npm_install
       "npm install @scope/pkg && npm  install left-pad! npm install"
     = [MStr "@scope/pkg"; MStr "left-pad"]
  /\ re_findall pat_pip_install "pip install -r x.txt; pip install Flask==2"
     = [MStr "-r"; MStr "Flask"].
Proof. repeat split; vm_compute; reflexivity. Qed.

End ReFacts.

(* ================================================================== *)
(** ** Names of emitted records *)
(* ================================================================== *)

Module RecordNamesProps.

Import PackageExtractor RecordNames SpecScanner EmittedNames ReFacts.









Lemma requirements_loop (file_path : string) (lines : list (nat * string))
  (packages : list package) :
  for_each lines
    (fun '(line_num, line) packages =>
       let line := Py.strip line in
       if negb (Py.isempty line) && negb (Py.startswith line "#") then
         '(name, version) <- _parse_pip_specification line ;;
         Ok (packages ++
             [{| name := JSON.Str name;
                 version := JSON.Str version;
                 type := "dependency";
                 category := "requirements";
                 package_manager := "pip";
                 file_path := file_path;
                 source := ("requirements.txt:line_"
                            ++ Py.str_of_nat line_num)%string |}])
       else Ok packages)
    packages
  = Ok (packages ++ map (requirement_record file_path)
                      (filter qualifying lines)).
Proof.
  revert packages; induction lines as [|[n raw] lines IH]; intros packages.
  - simpl. now rewrite app_nil_r.
  - cbn [for_each filter]. unfold qualifying at 1. cbn [snd].
    destruct (negb (Py.isempty (Py.strip raw))
              && negb (Py.startswith (Py.strip raw) "#")).
    + destruct (PipSpec.parse_total (Py.strip raw)) as [nm [v E]].
      rewrite E. cbn [bind]. rewrite IH. cbn [map].
      unfold requirement_record at 2, pip_name, pip_version. cbn [fst snd].
      rewrite E, <- app_assoc. reflexivity.
    + cbn [bind]. apply IH.
Qed.





















End RecordNamesProps.

(* ================================================================== *)
(** ** The parser boundary *)
(* ================================================================== *)

Module ParserBoundary.

Import PackageExtractor.

Section Boundary.

Variable json_loads : string -> result JSON.value.
Variable ET_fromstring : string -> result XML.element.
Variable re_findall : pattern -> string -> list re_item.
Variable re_search : pattern -> string -> option re_groups.
Variable re_match : pattern -> string -> option re_groups.
Variable read_text : string -> result string.
Variable glob : string -> string -> list string * option exn.
Variable is_file : string -> bool.

Local Abbreviation extract_file :=
  (_extract_packages_from_file json_loads ET_fromstring re_findall
     re_search re_match read_text).
Local Abbreviation extract_body :=
  (extract_file_body json_loads ET_fromstring re_findall
     re_search re_match read_text).
Local Abbreviation extract_directory :=
  (extract_packages_from_directory json_loads ET_fromstring re_findall
     re_search re_match read_text glob is_file).
Local Abbreviation find_files := (_find_package_files glob is_file).

Lemma json_failure_npm (content file_path : string) (e : exn) :
  json_loads content = Raise e ->
  match _extract_npm_packages json_loads re_findall content file_path with
  | Ok packages => packages
  | Raise _ => []
  end = [].
Proof.
  intros E. unfold _extract_npm_packages. rewrite E.
  destruct e; reflexivity.
Qed.

Lemma json_failure_composer (content file_path : string) (e : exn) :
  json_loads content = Raise e ->
  match _extract_composer_packages json_loads content file_path with
  | Ok packages => packages
  | Raise _ => []
  end = [].
Proof.
  intros E. unfold _extract_composer_packages. rewrite E.
  destruct e; reflexivity.
Qed.

Lemma xml_failure_nuget (content file_path : string) (e : exn) :
  ET_fromstring content = Raise e ->
  _extract_nuget_packages ET_fromstring content file_path = [].
Proof.
  intros E.
  unfold _extract_nuget_packages, _extract_packages_config,
    _extract_csproj_packages.
  rewrite E.
  destruct (String.eqb (path_name file_path) "packages.config");
    [destruct e; reflexivity|].
  destruct (Py.endswith (path_name file_path) ".csproj"
            || Py.endswith (path_name file_path) ".vbproj");
    [destruct e; reflexivity | reflexivity].
Qed.

Lemma directory_fold (files : list string) (self : extractor) :
  extracted_packages
    (fold_left (extract_step json_loads ET_fromstring re_findall re_search
                  re_match read_text) files self)
  = extracted_packages self ++ flat_map (fun f => extract_file f) files.
Proof.
  revert self; induction files as [|f files IH]; intros self; simpl.
  - now rewrite app_nil_r.
  - rewrite IH. unfold extract_step.
    destruct (extract_file f) as [|p ps] eqn:E; simpl.
    + reflexivity.
    + rewrite <- app_assoc. reflexivity.
Qed.

(** C7.  The call on one file returns a list whatever happens inside: it
    is the list of the body, or the empty list when the body raises.  When
    reading the file, decoding its JSON (package.json, composer.json) or
    parsing its XML (pom.xml, packages.config, project files) fails, the
    file gives the empty list.  The directory run returns the concatenation
    of the lists of its files, so every record of every other file is
    returned. *)
Theorem parser_boundary_total :
  (forall file_path : string,
      extract_file file_path
      = match extract_body file_path with
        | Ok packages => packages
        | Raise _ => []
        end)
  /\ (forall (file_path : string) (e : exn),
        extract_body file_path = Raise e -> extract_file file_path = [])
  /\ (forall (file_path : string) (e : exn),
        read_text file_path = Raise e -> extract_file file_path = [])
  /\ (forall (file_path content : string) (e : exn),
        read_text file_path = Ok content ->
        json_loads content = Raise e ->
        (_identify_package_type file_path = Some "npm"
         \/ _identify_package_type file_path = Some "composer") ->
        extract_file file_path = [])
  /\ (forall (file_path content : string) (e : exn),
        read_text file_path = Ok content ->
        ET_fromstring content = Raise e ->
        (_identify_package_type file_path = Some "maven"
         \/ _identify_package_type file_path = Some "nuget") ->
        extract_file file_path = [])
  /\ (forall directory : string,
        extract_directory directory
        = flat_map (fun f => extract_file f) (find_files directory))
  /\ (forall (directory file_path : string) (p : package),
        In file_path (find_files directory) ->
        In p (extract_file file_path) ->
        In p (extract_directory directory)).
Proof.
  assert (Hdir : forall directory : string,
             extract_directory directory
             = flat_map (fun f => extract_file f) (find_files directory)).
  { intros directory.
    unfold extract_packages_from_directory,
      extract_packages_from_directory_state.
    rewrite directory_fold. reflexivity. }
  split; [reflexivity|].
  split.
  { intros file_path e E. unfold _extract_packages_from_file.
    rewrite E. reflexivity. }
  split.
  { intros file_path e E.
    unfold _extract_packages_from_file, extract_file_body.
    destruct (_identify_package_type file_path); [|reflexivity].
    rewrite E. reflexivity. }
  split.
  { intros file_path content e R J T.
    unfold _extract_packages_from_file, extract_file_body.
    destruct T as [T|T]; rewrite T, R; cbn [bind];
      destruct (Py.isempty content); try reflexivity; cbn [String.eqb].
    - apply (json_failure_npm content file_path e J).
    - apply (json_failure_composer content file_path e J). }
  split.
  { intros file_path content e R X T.
    unfold _extract_packages_from_file, extract_file_body.
    destruct T as [T|T]; rewrite T, R; cbn [bind];
      destruct (Py.isempty content); try reflexivity.
    - unfold _extract_maven_packages. rewrite X. reflexivity.
    - rewrite (xml_failure_nuget content file_path e X). reflexivity. }
  split; [exact Hdir|].
  intros directory file_path p Hf Hp.
  rewrite Hdir. apply in_flat_map. exists file_path. auto.
Qed.

End Boundary.

(** In the checkout with a cut-off package.json and a requirements.txt,
    the package.json gives no record and the record of the requirements
    file is returned. *)
Lemma parser_boundary_witness :
  _extract_packages_from_file JSON.loads Manifests.no_xml
    Manifests.no_findall Manifests.no_match Manifests.no_match
    Manifests.checkout_read_text "repo/package.json" = []
  /\ In Manifests.flask_record
       (extract_packages_from_directory JSON.loads Manifests.no_xml
          Manifests.no_findall Manifests.no_match Manifests.no_match
          Manifests.checkout_read_text Manifests.checkout_glob
          Manifests.checkout_is_file "repo").
Proof.
  pose proof (parser_boundary_total JSON.loads Manifests.no_xml
                Manifests.no_findall Manifests.no_match Manifests.no_match
                Manifests.checkout_read_text Manifests.checkout_glob
                Manifests.checkout_is_file) as (_ & _ & _ & Hjson & _ & _ & Hdir).
  split.
  - apply (Hjson "repo/package.json" "{" JSONDecodeError).
    + reflexivity.
    + vm_compute; reflexivity.
    + left. vm_compute; reflexivity.
  - apply (Hdir "repo" "repo/requirements.txt").
    + vm_compute. right. left. reflexivity.
    + vm_compute. left. reflexivity.
Defined.

End ParserBoundary.


(* ================================================================== *)
(** ** Registry verification *)
(* ================================================================== *)

Module VerifierProps.

Import NPMChecker Verifier.

Lemma lookups_app (a b : list event) :
  lookups (a ++ b) = lookups a ++ lookups b.
Proof. unfold lookups. apply flat_map_app. Qed.

Lemma lookups_backoff (attempt : nat) : lookups (backoff attempt) = [].
Proof. unfold backoff. destruct (_ <? _)%Z; reflexivity. Qed.

(** Attempts after the first are not new lookups. *)
Lemma lookups_later (net : nat -> outcome) (n : JSON.value)
  (attempts : list nat) :
  Forall (fun a => 1 <= a) attempts ->
  lookups (snd (attempt_loop net n attempts)) = [].
Proof.
  induction attempts as [|a attempts IH]; intros H; [reflexivity|].
  inversion H as [|? ? Ha Hrest]; subst.
  specialize (IH Hrest).
  assert (Hget : lookups [EvGet n a] = [])
    by (destruct a; [lia | reflexivity]).
  assert (Hretry :
            lookups (snd (let '(r, evs) := attempt_loop net n attempts in
                          (r, EvGet n a :: backoff a ++ evs))) = []).
  { destruct (attempt_loop net n attempts) as [r evs]. cbn [snd] in *.
    change (EvGet n a :: backoff a ++ evs)
      with ([EvGet n a] ++ backoff a ++ evs).
    rewrite !lookups_app, Hget, lookups_backoff, IH. reflexivity. }
  cbn [attempt_loop].
  destruct (net a) as [status body| |e]; try exact Hretry.
  destruct (status =? 200)%Z.
  - destruct (bind body _); [exact Hget | exact Hretry].
  - destruct (status =? 404)%Z; exact Hget.
Qed.

(** One call of [_get_package_info] is one lookup. *)
Lemma lookups_get_package_info (net : nat -> outcome) (n : JSON.value) :
  lookups (snd (_get_package_info net n)) = [n].
Proof.
  unfold _get_package_info.
  change (seq 0 MAX_RETRIES) with (0 :: [1; 2]).
  assert (L : lookups (snd (attempt_loop net n [1; 2])) = [])
    by (apply lookups_later; repeat constructor).
  cbn [attempt_loop] in *.
  assert (Hretry :
            lookups (snd (let '(r, evs) := attempt_loop net n [1; 2] in
                          (r, EvGet n 0 :: backoff 0 ++ evs))) = [n]).
  { cbn [attempt_loop].
    destruct (match net 1 with
              | Response status body => _
              | Timeout => _
              | Failure _ => _
              end) as [r evs].
    cbn [snd] in *.
    change (EvGet n 0 :: backoff 0 ++ evs)
      with ([EvGet n 0] ++ backoff 0 ++ evs).
    rewrite !lookups_app, lookups_backoff, L. reflexivity. }
  destruct (net 0) as [status body| |e]; try exact Hretry.
  destruct (status =? 200)%Z.
  - destruct (bind body _); [reflexivity | exact Hretry].
  - destruct (status =? 404)%Z; reflexivity.
Qed.

Lemma task_lookups (net : nat -> outcome) (now : Q)
  (p : PackageExtractor.package) :
  lookups (snd (_check_single_package_async net now p))
  = if has_name p then [PackageExtractor.name p] else [].
Proof.
  unfold _check_single_package_async, has_name.
  destruct (falsy (PackageExtractor.name p)); [reflexivity|].
  pose proof (lookups_get_package_info net (PackageExtractor.name p)) as L.
  destruct (_get_package_info net (PackageExtractor.name p)) as [[i|] evs];
    cbn [snd negb] in *; exact L.
Qed.

Lemma task_result (net : nat -> outcome) (now : Q)
  (p : PackageExtractor.package) :
  match fst (_check_single_package_async net now p) with
  | Some c => has_name p = true /\ package c = p
  | None => has_name p = false
  end.
Proof.
  unfold _check_single_package_async, has_name.
  destruct (falsy (PackageExtractor.name p)); [reflexivity|].
  destruct (_get_package_info net (PackageExtractor.name p)) as [[i|] evs];
    cbn [fst]; split; reflexivity.
Qed.

Lemma tasks_lookups (net : nat -> nat -> outcome) (now : nat -> Q)
  (l : list PackageExtractor.package) (k : nat) :
  lookups
    (flat_map snd
       (map (fun '(i, package) =>
               _check_single_package_async (net i) (now i) package)
            (enumerate l k)))
  = map PackageExtractor.name (filter has_name l).
Proof.
  revert k; induction l as [|p l IH]; intros k; [reflexivity|].
  cbn [enumerate map flat_map filter].
  rewrite lookups_app, task_lookups, IH.
  destruct (has_name p); reflexivity.
Qed.

Lemma tasks_results (net : nat -> nat -> outcome) (now : nat -> Q)
  (l : list PackageExtractor.package) (k : nat) :
  map package
    (flat_map (fun r => match fst r with Some c => [c] | None => [] end)
       (map (fun '(i, package) =>
               _check_single_package_async (net i) (now i) package)
            (enumerate l k)))
  = filter has_name l.
Proof.
  revert k; induction l as [|p l IH]; intros k; [reflexivity|].
  cbn [enumerate map flat_map filter].
  rewrite map_app, IH.
  pose proof (task_result (net k) (now k) p) as R.
  destruct (fst (_check_single_package_async (net k) (now k) p)) as [c|].
  - destruct R as [Hn Hp]. rewrite Hn. cbn [map app]. now rewrite Hp.
  - rewrite R. reflexivity.
Qed.

(** C3, as stated, fails: two npm records with the same name are looked up
    twice, and each keeps the answer of its own lookup. *)
Lemma same_name_looked_up_twice :
  lookups (run_trace changing_registry (fun _ => zero)
             [npm_record "left-pad"; npm_record "left-pad"])
  = [JSON.Str "left-pad"; JSON.Str "left-pad"]
  /\ map npm_status
       (check_packages_async changing_registry (fun _ => zero)
          [npm_record "left-pad"; npm_record "left-pad"])
     = ["not_found"; "found"].
Proof. split; vm_compute; reflexivity. Qed.

Lemma npm_records_filter (packages : list PackageExtractor.package) :
  VerifierSpec.npm_records packages = npm_packages packages.
Proof.
  unfold npm_packages.
  induction packages as [|p packages IH]; cbn [VerifierSpec.npm_records filter];
    [reflexivity|].
  rewrite IH.
  destruct (string_dec (PackageExtractor.package_manager p) "npm") as [E|E].
  - rewrite E. reflexivity.
  - apply String.eqb_neq in E. rewrite E. reflexivity.
Qed.

(** A task returns the result of the lookup made with its own answers. *)
Lemma task_own (net : nat -> outcome) (now : Q)
  (p : PackageExtractor.package) :
  _check_single_package_async net now p
  = (if has_name p then Some (VerifierSpec.own_result net now p) else None,
     VerifierSpec.own_trace net p).
Proof.
  unfold _check_single_package_async, has_name, VerifierSpec.own_result,
    VerifierSpec.own_trace, has_name, found_record, not_found_record.
  destruct (falsy (PackageExtractor.name p)); cbn [negb]; [reflexivity|].
  destruct (_get_package_info net (PackageExtractor.name p)) as [[i|] evs];
    reflexivity.
Qed.

Lemma tasks_own (net : nat -> nat -> outcome) (now : nat -> Q)
  (l : list PackageExtractor.package) (k : nat) :
  map (fun '(i, package) =>
         _check_single_package_async (net i) (now i) package)
      (enumerate l k)
  = map (fun '(i, p) =>
           (if has_name p
            then Some (VerifierSpec.own_result (net i) (now i) p)
            else None,
            VerifierSpec.own_trace (net i) p))
        (enumerate l k).
Proof.
  apply map_ext. intros [i p]. apply task_own.
Qed.

(** C3, amended.  The verifier works on the records of the npm ecosystem
    only, in input order.  Each of them has a task of its own that waits
    for the rate limit and, when the record has a name, makes one lookup
    of that name; equal names are not merged.  Every npm record with a
    name is returned once, as the record that the answers to its own
    lookup make of it (found with the registry information, or not
    found), and no other record is returned or looked up. *)
Theorem one_lookup_per_npm_record (net : nat -> nat -> outcome)
  (now : nat -> Q) (packages : list PackageExtractor.package) :
  let records := enumerate (VerifierSpec.npm_records packages) 0 in
  lookups (run_trace net now packages)
  = map PackageExtractor.name
      (filter has_name (VerifierSpec.npm_records packages))
  /\ run_trace net now packages
     = flat_map (fun '(i, p) => VerifierSpec.own_trace (net i) p) records
  /\ check_packages_async net now packages
     = flat_map (fun '(i, p) =>
                   if has_name p
                   then [VerifierSpec.own_result (net i) (now i) p]
                   else [])
         records
  /\ map package (check_packages_async net now packages)
     = filter has_name (VerifierSpec.npm_records packages)
  /\ Forall (fun c => PackageExtractor.package_manager (package c) = "npm")
       (check_packages_async net now packages).
Proof.
  intros records. subst records.
  assert (Hresults :
            map package (check_packages_async net now packages)
            = filter has_name (VerifierSpec.npm_records packages))
    by (rewrite npm_records_filter; apply tasks_results).
  split; [rewrite npm_records_filter; apply tasks_lookups|].
  split.
  { unfold run_trace, run_tasks. rewrite tasks_own, npm_records_filter.
    rewrite flat_map_concat_map, map_map, <- flat_map_concat_map.
    apply flat_map_ext. intros [i p]. reflexivity. }
  split.
  { unfold check_packages_async, run_tasks.
    rewrite tasks_own, npm_records_filter.
    rewrite flat_map_concat_map, map_map, <- flat_map_concat_map.
    apply flat_map_ext. intros [i p]. cbn [fst].
    destruct (has_name p); reflexivity. }
  split; [exact Hresults|].
  apply Forall_forall. intros c Hc.
  assert (Hin : In (package c)
                  (filter has_name (VerifierSpec.npm_records packages)))
    by (rewrite <- Hresults; apply in_map; exact Hc).
  apply filter_In in Hin. destruct Hin as [Hin _].
  rewrite npm_records_filter in Hin. apply filter_In in Hin.
  destruct Hin as [_ H]. now apply String.eqb_eq in H.
Qed.

(** What the task does with a failing registry: a response that is neither
    200 nor 404 is not retried and the record is built on the not-found
    branch, as for a 404; when every attempt fails the three requests are
    separated by sleeps of 1 and 2 seconds and the record is again built on
    the not-found branch. *)
Lemma failures_take_not_found_branch :
  (forall (net : nat -> outcome) (now : Q)
          (package : PackageExtractor.package) (status : Z)
          (body : result JSON.value),
      has_name package = true ->
      net 0 = Response status body ->
      status <> 200%Z ->
      _check_single_package_async net now package
      = (Some (not_found_record now package),
         [EvSleep rate_limit_delay;
          EvGet (PackageExtractor.name package) 0]))
  /\ (forall (net : nat -> outcome) (now : Q)
            (package : PackageExtractor.package),
        has_name package = true ->
        (forall k, net k = Timeout \/ exists e, net k = Failure e) ->
        _check_single_package_async net now package
        = (Some (not_found_record now package),
           [EvSleep rate_limit_delay;
            EvGet (PackageExtractor.name package) 0;
            EvSleep (QArith_base.inject_Z 1);
            EvGet (PackageExtractor.name package) 1;
            EvSleep (QArith_base.inject_Z 2);
            EvGet (PackageExtractor.name package) 2]))
  /\ _check_single_package_async server_error zero (npm_record "left-pad")
     = (Some (not_found_record zero (npm_record "left-pad")),
        [EvSleep rate_limit_delay; EvGet (JSON.Str "left-pad") 0])
  /\ _check_single_package_async not_published zero (npm_record "left-pad")
     = (Some (not_found_record zero (npm_record "left-pad")),
        [EvSleep rate_limit_delay; EvGet (JSON.Str "left-pad") 0]).
Proof.
  split.
  { intros net now package status body Hn H0 Hs.
    unfold has_name in Hn. apply negb_true_iff in Hn.
    unfold _check_single_package_async, _get_package_info.
    rewrite Hn. change (seq 0 MAX_RETRIES) with [0; 1; 2].
    cbn [attempt_loop]. rewrite H0.
    destruct (Z.eqb_spec status 200) as [E|_]; [contradiction|].
    destruct (status =? 404)%Z; reflexivity. }
  split.
  { intros net now package Hn Hfail.
    unfold has_name in Hn. apply negb_true_iff in Hn.
    unfold _check_single_package_async, _get_package_info.
    rewrite Hn. change (seq 0 MAX_RETRIES) with [0; 1; 2].
    cbn [attempt_loop].
    destruct (Hfail 0) as [E0|[e0 E0]]; rewrite E0;
      destruct (Hfail 1) as [E1|[e1 E1]]; rewrite E1;
      destruct (Hfail 2) as [E2|[e2 E2]]; rewrite E2;
      reflexivity. }
  split; reflexivity.
Qed.

(** After failed attempts the loop goes on with the next one. *)
Lemma attempt_loop_failed (net : nat -> outcome) (n : JSON.value)
  (k start : nat) (rest : list nat) :
  (forall j, start <= j < start + k -> attempt_fails n (net j) = true) ->
  attempt_loop net n (seq start k ++ rest)
  = (fst (attempt_loop net n rest),
     flat_map (fun attempt => EvGet n attempt :: backoff attempt)
       (seq start k)
     ++ snd (attempt_loop net n rest)).
Proof.
  revert start; induction k as [|k IH]; intros start H.
  - simpl. destruct (attempt_loop net n rest); reflexivity.
  - cbn [seq app attempt_loop flat_map].
    rewrite IH by (intros j Hj; apply H; lia).
    pose proof (H start ltac:(lia)) as F. unfold attempt_fails in F.
    cbn [fst snd].
    destruct (net start) as [status body| |e].
    + apply andb_true_iff in F. destruct F as [F1 F2]. rewrite F1.
      destruct (bind body _); [discriminate F2|].
      now rewrite <- app_assoc.
    + now rewrite <- app_assoc.
    + now rewrite <- app_assoc.
Qed.

(** The attempt that gets an answer ends the loop. *)
Lemma attempt_loop_answer (net : nat -> outcome) (n : JSON.value)
  (k : nat) (rest : list nat) (status : Z) (body : result JSON.value) :
  net k = Response status body ->
  attempt_fails n (net k) = false ->
  attempt_loop net n (k :: rest)
  = (if (status =? 200)%Z
     then match bind body (fun data => build_info data n) with
          | Ok i => Some i
          | Raise _ => None
          end
     else None,
     [EvGet n k]).
Proof.
  intros E F. unfold attempt_fails in F. rewrite E in F.
  cbn [attempt_loop]. rewrite E.
  destruct (status =? 200)%Z; cbn [andb] in F.
  - destruct (bind body _); [reflexivity | discriminate F].
  - destruct (status =? 404)%Z; reflexivity.
Qed.

Lemma get_package_info_answer (net : nat -> outcome) (n : JSON.value)
  (k : nat) (status : Z) (body : result JSON.value) :
  k < MAX_RETRIES ->
  (forall j, j < k -> attempt_fails n (net j) = true) ->
  net k = Response status body ->
  attempt_fails n (net k) = false ->
  _get_package_info net n
  = (if (status =? 200)%Z
     then match bind body (fun data => build_info data n) with
          | Ok i => Some i
          | Raise _ => None
          end
     else None,
     failed_prefix n k ++ [EvGet n k]).
Proof.
  intros Hk Hfail E F. unfold _get_package_info, failed_prefix.
  replace (seq 0 MAX_RETRIES)
    with (seq 0 k ++ k :: seq (S k) (MAX_RETRIES - S k)).
  - rewrite attempt_loop_failed by (intros j Hj; apply Hfail; lia).
    rewrite (attempt_loop_answer net n k _ status body E F). reflexivity.
  - change (k :: seq (S k) (MAX_RETRIES - S k))
      with (seq (0 + k) (S (MAX_RETRIES - S k))).
    rewrite <- seq_app. f_equal. lia.
Qed.

Lemma get_package_info_exhausted (net : nat -> outcome) (n : JSON.value) :
  (forall j, j < MAX_RETRIES -> attempt_fails n (net j) = true) ->
  _get_package_info net n = (None, failed_prefix n MAX_RETRIES).
Proof.
  intros Hfail. unfold _get_package_info, failed_prefix.
  rewrite <- (app_nil_r (seq 0 MAX_RETRIES)) at 1.
  rewrite attempt_loop_failed by (intros j Hj; apply Hfail; lia).
  cbn [attempt_loop fst snd]. now rewrite app_nil_r.
Qed.

(** C1, as stated, fails: a 500 is not retried (one request, no backoff)
    and the record does not get an error status. *)
Lemma server_error_not_retried :
  _check_single_package_async server_error zero (npm_record "left-pad")
  = (Some (not_found_record zero (npm_record "left-pad")),
     [EvSleep rate_limit_delay; EvGet (JSON.Str "left-pad") 0]).
Proof. reflexivity. Qed.

(** C1, amended.  A lookup makes at most [MAX_RETRIES] = 3 requests.  A
    request that times out or raises is followed, unless it was the last,
    by a sleep of [RETRY_DELAY * BACKOFF_FACTOR ^ attempt] seconds and the
    next request; three failures give the requests 0, 1, 2 with sleeps of 1
    and 2 seconds between them.  The first response with a status ends the
    lookup: no request follows it, whatever the status.  A readable 200
    makes the record found (not unclaimed), a 404 makes it not found and
    unclaimed. *)
Theorem lookup_retry_policy :
  MAX_RETRIES = 3
  /\ (forall attempt : nat,
        attempt + 1 < MAX_RETRIES ->
        backoff attempt
        = [EvSleep (QArith_base.inject_Z
                      (RETRY_DELAY * BACKOFF_FACTOR ^ Z.of_nat attempt))])
  /\ backoff (MAX_RETRIES - 1) = []
  /\ (forall n : JSON.value,
        failed_prefix n MAX_RETRIES
        = [EvGet n 0; EvSleep (QArith_base.inject_Z 1);
           EvGet n 1; EvSleep (QArith_base.inject_Z 2);
           EvGet n 2])
  /\ (forall (net : nat -> outcome) (n : JSON.value),
        (forall j, j < MAX_RETRIES -> attempt_fails n (net j) = true) ->
        snd (_get_package_info net n) = failed_prefix n MAX_RETRIES)
  /\ (forall (net : nat -> outcome) (n : JSON.value) (k : nat)
            (status : Z) (body : result JSON.value),
        k < MAX_RETRIES ->
        (forall j, j < k -> attempt_fails n (net j) = true) ->
        net k = Response status body ->
        attempt_fails n (net k) = false ->
        snd (_get_package_info net n) = failed_prefix n k ++ [EvGet n k])
  /\ (forall (net : nat -> outcome) (now : Q)
            (package : PackageExtractor.package) (k : nat)
            (body : result JSON.value),
        has_name package = true ->
        k < MAX_RETRIES ->
        (forall j, j < k ->
                   attempt_fails (PackageExtractor.name package) (net j)
                   = true) ->
        net k = Response 200 body ->
        attempt_fails (PackageExtractor.name package) (net k) = false ->
        exists i : package_info,
          fst (_check_single_package_async net now package)
          = Some (found_record now package i))
  /\ (forall (net : nat -> outcome) (now : Q)
            (package : PackageExtractor.package) (k : nat)
            (body : result JSON.value),
        has_name package = true ->
        k < MAX_RETRIES ->
        (forall j, j < k ->
                   attempt_fails (PackageExtractor.name package) (net j)
                   = true) ->
        net k = Response 404 body ->
        fst (_check_single_package_async net now package)
        = Some (not_found_record now package)).
Proof.
  split; [reflexivity|].
  split.
  { intros attempt H. unfold backoff.
    destruct (Z.ltb_spec (Z.of_nat attempt) (Z.of_nat MAX_RETRIES - 1));
      [reflexivity | lia]. }
  split; [reflexivity|].
  split; [reflexivity|].
  split.
  { intros net n H. now rewrite get_package_info_exhausted. }
  split.
  { intros net n k status body Hk Hf E F.
    now rewrite (get_package_info_answer net n k status body Hk Hf E F). }
  split.
  { intros net now package k body Hn Hk Hf E F.
    unfold has_name in Hn. apply negb_true_iff in Hn.
    unfold _check_single_package_async. rewrite Hn.
    rewrite (get_package_info_answer net _ k 200%Z body Hk Hf E F).
    unfold attempt_fails in F. rewrite E in F. cbn [Z.eqb andb] in *.
    change (200 =? 200)%Z with true in *. cbn [andb] in F.
    destruct (bind body _) as [i|]; [|discriminate F].
    exists i. reflexivity. }
  { intros net now package k body Hn Hk Hf E.
    unfold has_name in Hn. apply negb_true_iff in Hn.
    unfold _check_single_package_async. rewrite Hn.
    rewrite (get_package_info_answer net _ k 404%Z body Hk Hf E).
    - reflexivity.
    - unfold attempt_fails. rewrite E. reflexivity. }
Qed.

(** A registry that loses the first request and answers the second with a
    200: the record is found after one retry. *)
Lemma lookup_retry_policy_witness :
  exists i : package_info,
    fst (_check_single_package_async Manifests.flaky_registry zero
           (npm_record "left-pad"))
    = Some (found_record zero (npm_record "left-pad") i).
Proof.
  pose proof lookup_retry_policy as (_ & _ & _ & _ & _ & _ & Hfound & _).
  apply (Hfound Manifests.flaky_registry zero (npm_record "left-pad") 1
           (Ok (JSON.Obj []))).
  - reflexivity.
  - unfold MAX_RETRIES. auto.
  - intros j Hj. destruct j as [|j]; [reflexivity|].
    exfalso. inversion Hj as [|? Hj']. inversion Hj'.
  - reflexivity.
  - reflexivity.
Defined.

End VerifierProps.

(* ================================================================== *)
(** ** The concurrency bound *)
(* ================================================================== *)

Module Gate.

Import Scheduler.

Lemma outstanding_update (l : list phase) (i : nat) (old new : phase) :
  nth_error l i = Some old ->
  List.length (filter in_flight (update l i new)) + weight old
  = List.length (filter in_flight l) + weight new.
Proof.
  unfold weight.
  revert i; induction l as [|p l IH]; intros [|i] H; simpl in H;
    try discriminate.
  - inversion H; subst. simpl.
    destruct (in_flight old), (in_flight new); simpl; lia.
  - specialize (IH i H). simpl.
    destruct (in_flight p); simpl; lia.
Qed.

Lemma nth_error_update_same {A : Type} (l : list A) (i : nat) (x y : A) :
  nth_error l i = Some y -> nth_error (update l i x) i = Some x.
Proof.
  revert i; induction l as [|p l IH]; intros [|i] H; simpl in *;
    try discriminate; auto.
Qed.

Lemma nth_error_update_other {A : Type} (l : list A) (i j : nat) (x : A) :
  i <> j -> nth_error (update l i x) j = nth_error l j.
Proof.
  revert i j; induction l as [|p l IH]; intros [|i] [|j] H; simpl;
    try reflexivity; try congruence.
  apply IH. congruence.
Qed.

Lemma outstanding_init (n : nat) : outstanding (init n) = 0.
Proof.
  unfold outstanding, init. simpl.
  induction n as [|n IH]; simpl; auto.
Qed.

(** Permits in the semaphore plus lookups in flight stay constant. *)
Lemma step_balance (s s' : state) :
  step s s' ->
  permits s' + outstanding s' = permits s + outstanding s.
Proof.
  unfold outstanding.
  intros H; destruct H as [i Hi Hp | i Hi | i Hi | i a Hi | i a Hi Ha | i a Hi];
    cbn [permits tasks];
    match goal with
    | |- context [update _ _ ?new] =>
        pose proof (outstanding_update (tasks s) i _ new Hi) as E
    end;
    unfold weight in E; simpl in E; lia.
Qed.

Lemma reachable_balance (n : nat) (s : state) :
  reachable n s ->
  permits s + outstanding s = NPMChecker.MAX_CONCURRENT_NPM_CHECKS.
Proof.
  induction 1 as [|s s' _ IH Hstep].
  - rewrite outstanding_init. cbn [init permits]. apply Nat.add_0_r.
  - rewrite (step_balance _ _ Hstep). exact IH.
Qed.

(** With no permit left, no waiting task is admitted. *)
Lemma full_blocks_waiting (s s' : state) (j : nat) :
  permits s = 0 ->
  step s s' ->
  nth_error (tasks s) j = Some Waiting ->
  nth_error (tasks s') j = Some Waiting.
Proof.
  intros Hfull H Hj.
  destruct H as [i Hi Hp | i Hi | i Hi | i a Hi | i a Hi Ha | i a Hi];
    cbn [tasks]; try lia;
    (destruct (Nat.eq_dec i j) as [->|Hne];
     [congruence | rewrite nth_error_update_other by exact Hne; exact Hj]).
Qed.

(** C8.  In every state the event loop can reach, with any number of
    tasks, at most [MAX_CONCURRENT_NPM_CHECKS] = 10 lookups are in flight;
    when 10 are in flight the semaphore has no permit, so a waiting task
    stays waiting across every move, and the next admission needs a move
    that ends a lookup. *)
Theorem at_most_ten_in_flight (n : nat) (s : state) :
  reachable n s ->
  NPMChecker.MAX_CONCURRENT_NPM_CHECKS = 10
  /\ outstanding s <= 10
  /\ (outstanding s = 10 ->
      forall s', step s s' ->
                 outstanding s' <= outstanding s
                 /\ forall j, nth_error (tasks s) j = Some Waiting ->
                              nth_error (tasks s') j = Some Waiting).
Proof.
  intros R. pose proof (reachable_balance n s R) as B.
  change NPMChecker.MAX_CONCURRENT_NPM_CHECKS with 10 in *.
  split; [reflexivity|]. split; [lia|].
  intros Hfull s' Hstep.
  pose proof (reachable_balance n s' (reach_step n s s' R Hstep)) as B'.
  change NPMChecker.MAX_CONCURRENT_NPM_CHECKS with 10 in B'.
  split; [lia|].
  intros j Hj. eapply full_blocks_waiting; eauto. lia.
Qed.

Lemma update_after_repeat {A : Type} (a b : A) (k : nat) (rest : list A) :
  update (repeat a k ++ b :: rest) k a = repeat a (S k) ++ rest.
Proof.
  induction k as [|k IH]; [reflexivity|].
  cbn [repeat app update]. f_equal. exact IH.
Qed.

Lemma admit_prefix (k : nat) :
  k <= 10 ->
  reachable 100
    {| permits := 10 - k;
       tasks := repeat RateLimit k ++ repeat Waiting (100 - k) |}.
Proof.
  induction k as [|k IH]; intros Hk.
  - apply reach_init.
  - specialize (IH ltac:(lia)).
    eapply reach_step; [exact IH|].
    replace (repeat RateLimit (S k) ++ repeat Waiting (100 - S k))
      with (update (repeat RateLimit k ++ repeat Waiting (100 - k)) k
              RateLimit).
    + replace (10 - S k) with (10 - k - 1) by lia.
      apply (step_acquire
               {| permits := 10 - k;
                  tasks := repeat RateLimit k ++ repeat Waiting (100 - k) |}
               k).
      * cbn [tasks]. rewrite nth_error_app2 by (rewrite repeat_length; lia).
        rewrite repeat_length, Nat.sub_diag.
        replace (100 - k) with (S (99 - k)) by lia. reflexivity.
      * cbn [permits]. lia.
    + replace (100 - k) with (S (100 - S k)) by lia.
      cbn [repeat]. apply update_after_repeat.
Qed.

(** A run over 100 names with ten lookups admitted. *)
Lemma at_most_ten_in_flight_witness :
  NPMChecker.MAX_CONCURRENT_NPM_CHECKS = 10
  /\ outstanding ten_admitted <= 10
  /\ (outstanding ten_admitted = 10 ->
      forall s', step ten_admitted s' ->
                 outstanding s' <= outstanding ten_admitted
                 /\ forall j, nth_error (tasks ten_admitted) j = Some Waiting ->
                              nth_error (tasks s') j = Some Waiting).
Proof.
  apply (at_most_ten_in_flight 100 ten_admitted).
  exact (admit_prefix 10 (le_n 10)).
Defined.

End Gate.

(* ================================================================== *)
(** ** Further properties of the risk scorer *)
(* ================================================================== *)

Module RiskScorerMore.

Import NPMChecker.

Lemma hamming_refl (a : string) : Spec.hamming a a = 0.
Proof.
  induction a as [|c a IH]; simpl; [reflexivity|].
  now rewrite Ascii.eqb_refl, IH.
Qed.

Lemma hamming_app (pre x y : string) :
  Spec.hamming (pre ++ x) (pre ++ y) = Spec.hamming x y.
Proof.
  induction pre as [|c pre IH]; simpl; [reflexivity|].
  now rewrite Ascii.eqb_refl, IH.
Qed.

Lemma length_app (a b : string) :
  String.length (a ++ b) = String.length a + String.length b.
Proof. induction a as [|c a IH]; simpl; [reflexivity | now rewrite IH]. Qed.

Lemma subseq_refl (s : string) : Spec.Subseq s s.
Proof. induction s; constructor; assumption. Qed.

Lemma subseq_app (pre s l : string) :
  Spec.Subseq s l -> Spec.Subseq (pre ++ s) (pre ++ l).
Proof. intros H. induction pre; simpl; [exact H | constructor; assumption]. Qed.

(** What a positive similarity test says about the lengths. *)
Lemma similar_lengths (a b : string) :
  _is_similar_name a b = true ->
  (String.length a = String.length b /\ Spec.hamming a b <= 1)
  \/ (S (String.length a) = String.length b /\ Spec.Subseq a b)
  \/ (String.length a = S (String.length b) /\ Spec.Subseq b a).
Proof.
  intros H. apply RiskScorer.similar_name_spec in H.
  unfold Spec.similar in H.
  destruct (Nat.ltb_spec 2 (String.length a - String.length b
                            + (String.length b - String.length a)));
    [contradiction|].
  destruct (Nat.eqb_spec (String.length a) (String.length b)); [auto|].
  destruct (Nat.eqb_spec (String.length a - String.length b
                          + (String.length b - String.length a)) 1);
    [|contradiction].
  destruct (Nat.ltb_spec (String.length a) (String.length b)).
  - right; left. split; [lia | exact H].
  - right; right. split; [lia | exact H].
Qed.

Lemma similar_equal_length (a b : string) :
  String.length a = String.length b ->
  Spec.hamming a b <= 1 ->
  Spec.similar a b.
Proof.
  intros E H. unfold Spec.similar.
  destruct (Nat.ltb_spec 2 (String.length a - String.length b
                            + (String.length b - String.length a)));
    [lia|].
  destruct (Nat.eqb_spec (String.length a) (String.length b)); [exact H|lia].
Qed.

Lemma similar_one_longer (a b : string) :
  S (String.length a) = String.length b ->
  Spec.Subseq a b ->
  Spec.similar a b.
Proof.
  intros E H. unfold Spec.similar.
  destruct (Nat.ltb_spec 2 (String.length a - String.length b
                            + (String.length b - String.length a)));
    [lia|].
  destruct (Nat.eqb_spec (String.length a) (String.length b)); [lia|].
  destruct (Nat.eqb_spec (String.length a - String.length b
                          + (String.length b - String.length a)) 1);
    [|lia].
  destruct (Nat.ltb_spec (String.length a) (String.length b));
    [exact H | lia].
Qed.

(** X1.  Every name is similar to itself, so each of the eleven popular
    package names is itself reported as potentially vulnerable. *)
Theorem popular_names_are_flagged :
  (forall a : string, _is_similar_name a a = true)
  /\ (forall p : string,
        In p popular_packages ->
        _is_potentially_vulnerable_package p = true).
Proof.
  assert (R : forall a : string, _is_similar_name a a = true).
  { intros a. apply RiskScorer.similar_name_spec, similar_equal_length;
      [reflexivity | rewrite hamming_refl; lia]. }
  split; [exact R|].
  intros p Hp. rewrite RiskScorer.scorer_chain.
  destruct (existsb _ suspicious_patterns); [reflexivity|].
  destruct (String.length p <? 3)%nat; [reflexivity|].
  apply existsb_exists. exists p. split; [exact Hp | apply R].
Qed.

(** X2.  Two names that pass the similarity test have lengths that differ
    by at most one; a difference of two is never similar. *)
Theorem similar_names_differ_by_one (a b : string) :
  _is_similar_name a b = true ->
  String.length a <= String.length b + 1
  /\ String.length b <= String.length a + 1.
Proof.
  intros H. destruct (similar_lengths a b H) as [[E _]|[[E _]|[E _]]]; lia.
Qed.

Lemma similar_names_differ_by_one_witness :
  String.length "lodah" <= String.length "lodash" + 1
  /\ String.length "lodash" <= String.length "lodah" + 1.
Proof.
  apply (similar_names_differ_by_one "lodah" "lodash"). reflexivity.
Defined.

Lemma similar_substitution (pre post : string) (c d : ascii) :
  _is_similar_name (pre ++ String c post) (pre ++ String d post) = true.
Proof.
  apply RiskScorer.similar_name_spec, similar_equal_length.
  - rewrite !length_app. reflexivity.
  - rewrite hamming_app. cbn [Spec.hamming]. rewrite hamming_refl.
    destruct (Ascii.eqb c d); lia.
Qed.

Lemma similar_insertion (pre post : string) (c : ascii) :
  _is_similar_name (pre ++ post) (pre ++ String c post) = true.
Proof.
  apply RiskScorer.similar_name_spec, similar_one_longer.
  - rewrite !length_app. simpl. lia.
  - apply subseq_app. constructor. apply subseq_refl.
Qed.

Lemma similar_deletion (pre post : string) (c : ascii) :
  _is_similar_name (pre ++ String c post) (pre ++ post) = true.
Proof.
  apply RiskScorer.similar_name_spec, RiskScorer.similar_sym,
    RiskScorer.similar_name_spec, similar_insertion.
Qed.

(** X3.  A name is similar to every name obtained from it by replacing one
    character, by inserting one character, or by deleting one character,
    wherever the edit is made; exchanging two neighbouring characters that
    differ is two replacements and is not similar. *)
Theorem one_edit_is_similar (pre post : string) (c d : ascii) :
  _is_similar_name (pre ++ String c post) (pre ++ String d post) = true
  /\ _is_similar_name (pre ++ post) (pre ++ String c post) = true
  /\ _is_similar_name (pre ++ String c post) (pre ++ post) = true
  /\ (c <> d ->
      _is_similar_name (pre ++ String c (String d post))
        (pre ++ String d (String c post)) = false).
Proof.
  split; [apply similar_substitution|].
  split; [apply similar_insertion|].
  split; [apply similar_deletion|].
  intros Hcd.
  destruct (_is_similar_name (pre ++ String c (String d post))
              (pre ++ String d (String c post))) eqn:E; [|reflexivity].
  apply RiskScorer.similar_name_spec in E. unfold Spec.similar in E.
  rewrite !length_app in E. cbn [String.length] in E.
  rewrite Nat.sub_diag, Nat.eqb_refl, hamming_app in E.
  cbn [Spec.hamming plus Nat.ltb Nat.leb] in E. rewrite hamming_refl in E.
  destruct (Ascii.eqb_spec c d) as [|_]; [contradiction|].
  destruct (Ascii.eqb_spec d c) as [|_]; [congruence|].
  simpl in E. lia.
Qed.

Lemma flagged_by_similarity (name p : string) :
  In p popular_packages ->
  _is_similar_name name p = true ->
  _is_potentially_vulnerable_package name = true.
Proof.
  intros Hp H. rewrite RiskScorer.scorer_chain.
  destruct (existsb _ suspicious_patterns); [reflexivity|].
  destruct (String.length name <? 3)%nat; [reflexivity|].
  apply existsb_exists. exists p. auto.
Qed.

(** X4.  Every name one character away from a popular package name (one
    character replaced, one missing, or one extra) is reported. *)
Theorem typo_of_popular_is_flagged (pre post : string) (c d : ascii) :
  (In (pre ++ String d post)%string popular_packages ->
   _is_potentially_vulnerable_package (pre ++ String c post) = true
   /\ _is_potentially_vulnerable_package (pre ++ post) = true)
  /\ (In (pre ++ post)%string popular_packages ->
      _is_potentially_vulnerable_package (pre ++ String c post) = true).
Proof.
  split.
  - intros Hp. split; eapply flagged_by_similarity; try exact Hp.
    + apply similar_substitution.
    + apply similar_insertion.
  - intros Hp. eapply flagged_by_similarity; [exact Hp|].
    apply similar_deletion.
Qed.

Lemma typo_of_popular_is_flagged_witness :
  _is_potentially_vulnerable_package "lodesh" = true
  /\ _is_potentially_vulnerable_package "lodsh" = true.
Proof.
  apply (proj1 (typo_of_popular_is_flagged "lod" "sh" "e" "a")).
  simpl. auto.
Defined.

Lemma lower_app (a b : string) :
  Py.lower (a ++ b) = (Py.lower a ++ Py.lower b)%string.
Proof. induction a as [|c a IH]; simpl; [reflexivity | now rewrite IH]. Qed.

(** X5.  A name that contains a suspicious keyword in any mix of upper and
    lower case, anywhere in it, is reported. *)
Theorem keyword_in_any_case_is_flagged (pre k post : string) :
  In (Py.lower k) suspicious_patterns ->
  _is_potentially_vulnerable_package (pre ++ k ++ post) = true.
Proof.
  intros Hk. rewrite RiskScorer.scorer_chain.
  replace (existsb (fun kw => Py.contains kw (Py.lower (pre ++ k ++ post)))
             suspicious_patterns) with true; [reflexivity|].
  symmetry. apply existsb_exists. exists (Py.lower k). split; [exact Hk|].
  apply PyFacts.contains_spec. rewrite !lower_app.
  exists (Py.lower pre), (Py.lower post). reflexivity.
Qed.

Lemma keyword_in_any_case_is_flagged_witness :
  _is_potentially_vulnerable_package "MyTESTLib" = true.
Proof.
  apply (keyword_in_any_case_is_flagged "My" "TEST" "Lib").
  simpl. auto.
Defined.

(** X6.  For a name of more than ten characters the verdict is that of the
    keyword rule alone: no popular package name is long enough to be
    similar to it. *)
Theorem long_names_need_a_keyword (name : string) :
  10 < String.length name ->
  _is_potentially_vulnerable_package name
  = existsb (fun kw => Py.contains kw (Py.lower name)) suspicious_patterns.
Proof.
  intros Hl. rewrite RiskScorer.scorer_chain.
  destruct (existsb _ suspicious_patterns); [reflexivity|].
  destruct (Nat.ltb_spec (String.length name) 3) as [H3|_]; [lia|].
  destruct (existsb (_is_similar_name name) popular_packages) eqn:E;
    [|reflexivity].
  apply existsb_exists in E. destruct E as [p [Hp Hs]].
  assert (Hgap : String.length name <= String.length p + 1)
    by (destruct (similar_lengths name p Hs) as [[E _]|[[E _]|[E _]]]; lia).
  assert (Hlen : Forall (fun q => String.length q <= 9) popular_packages)
    by (repeat constructor).
  rewrite Forall_forall in Hlen. specialize (Hlen p Hp). lia.
Qed.

Lemma long_names_need_a_keyword_witness :
  _is_potentially_vulnerable_package "completely-unrelated-package-name"
  = existsb (fun kw => Py.contains kw
                         (Py.lower "completely-unrelated-package-name"))
      suspicious_patterns.
Proof.
  apply (long_names_need_a_keyword "completely-unrelated-package-name").
  simpl. repeat constructor.
Defined.

End RiskScorerMore.

(* ================================================================== *)
(** ** Further properties of the line parsers *)
(* ================================================================== *)

Module LineParsersMore.

Import PackageExtractor SpecScanner.

(** X7.  [_parse_pip_specification] never raises (its unpacking always
    finds two parts).  The name it returns has no white space around it;
    the version is either "unknown", and then the name is the whole
    stripped text, or one of the seven operators followed by a value
    without white space around it. *)
Theorem pip_specification_shape (spec : string) :
  exists name version : string,
    _parse_pip_specification spec = Ok (name, version)
    /\ Py.strip name = name
    /\ ((version = "unknown" /\ name = Py.strip spec)
        \/ exists op value : string,
             In op pip_operators
             /\ version = (op ++ value)%string
             /\ Py.strip value = value).
Proof.
  unfold _parse_pip_specification.
  destruct (find (fun operator => Py.contains operator (Py.strip spec))
              pip_operators) as [op|] eqn:F.
  - destruct (PipSpec.operator_loop_found _ _ _ F) as [pre [post [_ [_ H]]]].
    exists (Py.strip pre), (op ++ Py.strip post)%string.
    split; [exact H|]. split; [apply PyFacts.strip_idempotent|].
    right. exists op, (Py.strip post).
    split; [|split; [reflexivity | apply PyFacts.strip_idempotent]].
    apply find_some in F. tauto.
  - exists (Py.strip spec), "unknown".
    split; [apply (PipSpec.operator_loop_none _ _ F)|].
    split; [apply PyFacts.strip_idempotent|]. left. auto.
Qed.

Lemma in_enumerate {A : Type} (l : list A) (k n : nat) (x : A) :
  In (n, x) (enumerate l k) -> In x l.
Proof.
  revert k; induction l as [|y l IH]; intros k; simpl; [tauto|].
  intros [E|H]; [inversion E; auto | right; eapply IH; eassumption].
Qed.

Lemma section_scan_closed (trigger : string -> bool)
  (name_of : string -> string) (emit : nat -> string -> string -> package)
  (lines : list (nat * string)) :
  (forall n raw, In (n, raw) lines -> trigger (Py.strip raw) = false) ->
  section_scan trigger name_of emit false lines = [].
Proof.
  induction lines as [|[n raw] lines IH]; intros H; [reflexivity|].
  cbn [section_scan]. rewrite (H n raw) by (left; reflexivity).
  destruct (Py.startswith (Py.strip raw) "["); cbn [andb];
    apply IH; intros; eapply H; right; eassumption.
Qed.

(** X8.  Without its section header a TOML manifest gives no record: the
    Cargo parser returns nothing unless some line starts with
    [[dependencies]], the pyproject parser nothing unless some line starts
    with [[tool.poetry.dependencies]] or [[project.dependencies]].  Tables
    such as [[dev-dependencies]] or [[dependencies.serde]] do not open the
    section. *)
Theorem no_section_header_no_records (content file_path : string) :
  ((forall line, In line (Py.split_char newline content) ->
                 cargo_trigger (Py.strip line) = false) ->
   _extract_cargo_packages content file_path = [])
  /\ ((forall line, In line (Py.split_char newline content) ->
                    pyproject_trigger (Py.strip line) = false) ->
      _extract_pyproject_toml content file_path = []).
Proof.
  split; intros H.
  - unfold _extract_cargo_packages.
    rewrite SectionScannerProps.cargo_loop. cbn [app].
    apply section_scan_closed. intros n raw Hin.
    apply H. eapply in_enumerate; eassumption.
  - unfold _extract_pyproject_toml.
    rewrite SectionScannerProps.pyproject_loop. cbn [app].
    apply section_scan_closed. intros n raw Hin.
    apply H. eapply in_enumerate; eassumption.
Qed.

Lemma no_section_header_no_records_witness :
  _extract_cargo_packages Samples.dev_only_manifest "Cargo.toml" = [].
Proof.
  apply (proj1 (no_section_header_no_records Samples.dev_only_manifest
                  "Cargo.toml")).
  intros line [E|[E|[E|[]]]]; subst line; reflexivity.
Defined.

End LineParsersMore.

(* ================================================================== *)
(** ** Further properties of the dispatch on file names *)
(* ================================================================== *)

Module DispatchMore.

Import PackageExtractor.

Lemma split_char_join (c : ascii) (a b : string) :
  exists front : list string,
    front <> []
    /\ Py.split_char c (a ++ String c b) = front ++ Py.split_char c b.
Proof.
  induction a as [|x a IH]; cbn [append Py.split_char].
  - rewrite Ascii.eqb_refl. exists [EmptyString]. split; [discriminate|].
    reflexivity.
  - destruct IH as [front [Hne E]]. rewrite E.
    destruct (Ascii.eqb x c).
    + exists (EmptyString :: front). split; [discriminate | reflexivity].
    + destruct front as [|f front]; [congruence|].
      exists (String x f :: front). split; [discriminate | reflexivity].
Qed.

Lemma split_char_plain (c : ascii) (b : string) :
  Py.mem_char c b = false -> Py.split_char c b = [b].
Proof.
  induction b as [|x b IH]; cbn [Py.mem_char Py.split_char];
    [reflexivity|].
  intros H. apply orb_false_iff in H. destruct H as [Hx Hb].
  rewrite Ascii.eqb_sym, Hx, (IH Hb). reflexivity.
Qed.

(** The last component of [directory/base]. *)
Lemma path_name_join (directory base : string) :
  Py.mem_char "/" base = false ->
  path_name (directory ++ String "/" base) = base.
Proof.
  intros H. unfold path_name.
  destruct (split_char_join "/" directory base) as [front [_ E]].
  rewrite E, (split_char_plain _ _ H). apply last_last.
Qed.

Lemma mem_char_app (c : ascii) (a b : string) :
  Py.mem_char c (a ++ b) = Py.mem_char c a || Py.mem_char c b.
Proof.
  induction a as [|x a IH]; cbn [append Py.mem_char]; [reflexivity|].
  rewrite IH. apply orb_assoc.
Qed.

Lemma endswith_app (x suffix : string) :
  Py.endswith (x ++ suffix) suffix = true.
Proof.
  unfold Py.endswith. rewrite RiskScorerMore.length_app.
  replace (String.length x + String.length suffix - String.length suffix)
    with (String.length x) by lia.
  rewrite PipSpec.drop_app, String.eqb_refl. apply Nat.leb_le. lia.
Qed.

(** A text with suffix [suffix] differs from a text without it. *)
Lemma eqb_suffix_mismatch (x suffix lit : string) :
  Py.endswith lit suffix = false ->
  String.eqb (x ++ suffix) lit = false.
Proof.
  intros H. destruct (String.eqb_spec (x ++ suffix) lit) as [E|]; [|reflexivity].
  rewrite <- E, endswith_app in H. discriminate H.
Qed.

Lemma identify_literal (directory base type : string) :
  In (base, type) Samples.literal_manifests ->
  _identify_package_type (directory ++ String "/" base) = Some type.
Proof.
  intros H. unfold _identify_package_type.
  simpl in H.
  repeat (destruct H as [H|H];
          [inversion H; subst; rewrite path_name_join by reflexivity;
           reflexivity|]).
  contradiction.
Qed.

Lemma identify_project_file (directory stem suffix : string) :
  Py.mem_char "/" stem = false ->
  suffix = ".csproj" \/ suffix = ".vbproj" ->
  _identify_package_type (directory ++ String "/" (stem ++ suffix))
  = Some "nuget".
Proof.
  intros Hs Hsuf. unfold _identify_package_type.
  rewrite path_name_join
    by (rewrite mem_char_app, Hs; destruct Hsuf; subst; reflexivity).
  rewrite RiskScorerMore.lower_app.
  assert (L : Py.lower suffix = suffix) by (destruct Hsuf; subst; reflexivity).
  rewrite L. cbn [existsb].
  rewrite !(eqb_suffix_mismatch (Py.lower stem) suffix)
    by (destruct Hsuf; subst; reflexivity).
  cbn [orb].
  destruct Hsuf; subst suffix.
  - rewrite endswith_app. reflexivity.
  - rewrite endswith_app, orb_true_r. reflexivity.
Qed.

(** X9.  Every file the pattern table can find is given a type that has a
    parser: each of the thirteen literal names, in any directory, gets the
    type of its format, and every name ending in .csproj or .vbproj gets
    the NuGet type. *)
Theorem pattern_files_are_identified :
  PACKAGE_FILE_PATTERNS
  = map (fun x => ("**/" ++ fst x)%string) Samples.literal_manifests
    ++ ["**/*.csproj"; "**/*.vbproj"]
  /\ (forall directory : string,
        Forall (fun x => _identify_package_type
                           (directory ++ String "/" (fst x))
                         = Some (snd x))
          Samples.literal_manifests)
  /\ (forall directory stem : string,
        Py.mem_char "/" stem = false ->
        _identify_package_type (directory ++ String "/" (stem ++ ".csproj"))
        = Some "nuget"
        /\ _identify_package_type
             (directory ++ String "/" (stem ++ ".vbproj"))
           = Some "nuget").
Proof.
  split; [reflexivity|]. split.
  - intros directory. apply Forall_forall. intros [base type] Hin.
    apply identify_literal. exact Hin.
  - intros directory stem Hs.
    split; apply identify_project_file; auto.
Qed.

End DispatchMore.

(* ================================================================== *)
(** ** Further properties of the extractor *)
(* ================================================================== *)

Module ExtractorMore.

Import PackageExtractor.

Section Extractor.

Variable json_loads : string -> result JSON.value.
Variable ET_fromstring : string -> result XML.element.
Variable re_findall : pattern -> string -> list re_item.
Variable re_search : pattern -> string -> option re_groups.
Variable re_match : pattern -> string -> option re_groups.
Variable read_text : string -> result string.
Variable glob : string -> string -> list string * option exn.
Variable is_file : string -> bool.

Local Abbreviation extract_one :=
  (_extract_packages_from_file json_loads ET_fromstring re_findall
     re_search re_match read_text).
Local Abbreviation extract_state :=
  (extract_packages_from_directory_state json_loads ET_fromstring
     re_findall re_search re_match read_text glob is_file).
Local Abbreviation found_files := (_find_package_files glob is_file).

(** X10.  End to end on the line-based manifests: whatever the text of
    the file, [directory/requirements.txt] gives one record per non-blank,
    non-comment line, [directory/Cargo.toml] and
    [directory/pyproject.toml] give the records of their section scanner,
    and [directory/go.mod] those of the go.mod parser; an empty file gives
    none. *)
Theorem line_manifests_end_to_end (directory content : string) :
  (read_text (directory ++ "/requirements.txt") = Ok content ->
   extract_one (directory ++ "/requirements.txt")
   = map (RecordNames.requirement_record (directory ++ "/requirements.txt"))
       (filter RecordNames.qualifying
          (enumerate (Py.split_char newline content) 1)))
  /\ (read_text (directory ++ "/Cargo.toml") = Ok content ->
      extract_one (directory ++ "/Cargo.toml")
      = SpecScanner.cargo_scanner content (directory ++ "/Cargo.toml"))
  /\ (read_text (directory ++ "/pyproject.toml") = Ok content ->
      extract_one (directory ++ "/pyproject.toml")
      = SpecScanner.pyproject_scanner content
          (directory ++ "/pyproject.toml"))
  /\ (read_text (directory ++ "/go.mod") = Ok content ->
      extract_one (directory ++ "/go.mod")
      = _extract_go_packages content (directory ++ "/go.mod")).
Proof.
  repeat split; intros R;
    unfold _extract_packages_from_file, extract_file_body.
  - rewrite (DispatchMore.identify_literal directory "requirements.txt" "pip")
      by (simpl; auto).
    rewrite R. cbn [bind].
    destruct content as [|c content]; [reflexivity|].
    cbn [Py.isempty String.eqb Ascii.eqb Bool.eqb].
    unfold _extract_pip_packages.
    rewrite (DispatchMore.path_name_join directory "requirements.txt")
      by reflexivity.
    cbn [String.eqb Ascii.eqb Bool.eqb].
    unfold _extract_requirements_txt.
    rewrite RecordNamesProps.requirements_loop. reflexivity.
  - rewrite (DispatchMore.identify_literal directory "Cargo.toml" "cargo")
      by (simpl; auto 12).
    rewrite R. cbn [bind].
    destruct content as [|c content]; [reflexivity|].
    cbn [Py.isempty String.eqb Ascii.eqb Bool.eqb].
    unfold _extract_cargo_packages, SpecScanner.cargo_scanner.
    rewrite SectionScannerProps.cargo_loop. reflexivity.
  - rewrite (DispatchMore.identify_literal directory "pyproject.toml" "pip")
      by (simpl; auto).
    rewrite R. cbn [bind].
    destruct content as [|c content]; [reflexivity|].
    cbn [Py.isempty String.eqb Ascii.eqb Bool.eqb].
    unfold _extract_pip_packages.
    rewrite (DispatchMore.path_name_join directory "pyproject.toml")
      by reflexivity.
    cbn [String.eqb Ascii.eqb Bool.eqb].
    unfold _extract_pyproject_toml, SpecScanner.pyproject_scanner.
    rewrite SectionScannerProps.pyproject_loop. reflexivity.
  - rewrite (DispatchMore.identify_literal directory "go.mod" "go")
      by (simpl; auto 12).
    rewrite R. cbn [bind].
    destruct content as [|c content]; reflexivity.
Qed.

(** X11.  A file can be given a type and still have no parser: a
    yarn.lock always gives the empty list, and so does a file whose name
    matches requirements.txt, setup.py, pyproject.toml or packages.config
    only up to the case of its letters, because the second dispatch
    compares the name as it is. *)
Theorem identified_without_parser (file_path : string) :
  (_identify_package_type file_path = Some "yarn" ->
   extract_one file_path = [])
  /\ (_identify_package_type file_path = Some "pip" ->
      String.eqb (path_name file_path) "requirements.txt" = false ->
      String.eqb (path_name file_path) "setup.py" = false ->
      String.eqb (path_name file_path) "pyproject.toml" = false ->
      extract_one file_path = [])
  /\ (_identify_package_type file_path = Some "nuget" ->
      String.eqb (path_name file_path) "packages.config" = false ->
      Py.endswith (path_name file_path) ".csproj" = false ->
      Py.endswith (path_name file_path) ".vbproj" = false ->
      extract_one file_path = []).
Proof.
  unfold _extract_packages_from_file, extract_file_body.
  repeat split.
  - intros T. rewrite T.
    destruct (read_text file_path) as [content|e]; [|reflexivity].
    cbn [bind]. destruct (Py.isempty content); reflexivity.
  - intros T H1 H2 H3. rewrite T.
    destruct (read_text file_path) as [content|e]; [|reflexivity].
    cbn [bind]. destruct (Py.isempty content); [reflexivity|].
    cbn [String.eqb Ascii.eqb Bool.eqb].
    unfold _extract_pip_packages. rewrite H1, H2, H3. reflexivity.
  - intros T H1 H2 H3. rewrite T.
    destruct (read_text file_path) as [content|e]; [|reflexivity].
    cbn [bind]. destruct (Py.isempty content); [reflexivity|].
    cbn [String.eqb Ascii.eqb Bool.eqb].
    unfold _extract_nuget_packages. rewrite H1, H2, H3. reflexivity.
Qed.

Lemma getitem_non_object (data : JSON.value) (k : string) :
  Samples.is_object data = false -> exists e, getitem data k = Raise e.
Proof. destruct data; try discriminate; intros _; eexists; reflexivity. Qed.

Lemma main_record_non_object (manager src file_path : string)
  (data : JSON.value) :
  Samples.is_object data = false ->
  match main_record manager src file_path data with
  | Ok packages => packages = []
  | Raise _ => True
  end.
Proof.
  intros H. unfold main_record.
  destruct (value_contains data "name") as [[|]|e]; cbn [bind]; auto.
  destruct (getitem_non_object data "name" H) as [e E]. rewrite E. exact I.
Qed.

Lemma dependency_tables_non_object (manager src file_path : string)
  (data : JSON.value) (keys : list string) (packages : list package) :
  Samples.is_object data = false ->
  match dependency_tables manager src file_path data keys packages with
  | Ok packages' => packages' = packages
  | Raise _ => True
  end.
Proof.
  intros H. unfold dependency_tables.
  induction keys as [|k keys IH]; cbn [for_each]; [reflexivity|].
  destruct (value_contains data k) as [[|]|e]; cbn [bind]; auto.
  destruct (getitem_non_object data k H) as [e E]. rewrite E. exact I.
Qed.

Lemma npm_non_object (content file_path : string) (data : JSON.value) :
  json_loads content = Ok data ->
  Samples.is_object data = false ->
  match _extract_npm_packages json_loads re_findall content file_path with
  | Ok packages => packages = []
  | Raise _ => True
  end.
Proof.
  intros J H. unfold _extract_npm_packages. rewrite J.
  pose proof (main_record_non_object "npm" "package.json" file_path data H)
    as M.
  destruct (main_record "npm" "package.json" file_path data) as [p0|e];
    cbn [bind]; [subst p0 | exact I].
  match goal with
  | |- context [dependency_tables ?m ?s ?f ?d ?ks ?ps] =>
      pose proof (dependency_tables_non_object m s f d ks ps H) as D;
      destruct (dependency_tables m s f d ks ps) as [p1|e]
  end; cbn [bind]; [subst p1 | exact I].
  destruct (value_contains data "scripts") as [[|]|e]; cbn [bind]; auto.
  destruct (getitem_non_object data "scripts" H) as [e E]. rewrite E.
  exact I.
Qed.

Lemma composer_non_object (content file_path : string) (data : JSON.value) :
  json_loads content = Ok data ->
  Samples.is_object data = false ->
  match _extract_composer_packages json_loads content file_path with
  | Ok packages => packages = []
  | Raise _ => True
  end.
Proof.
  intros J H. unfold _extract_composer_packages. rewrite J.
  pose proof (main_record_non_object "composer" "composer.json" file_path
                data H) as M.
  destruct (main_record "composer" "composer.json" file_path data)
    as [p0|e]; cbn [bind]; [subst p0 | exact I].
  apply dependency_tables_non_object. exact H.
Qed.

(** X12.  A package.json or composer.json that is valid JSON but whose
    top-level value is not an object (an array, a string, a number, true,
    false, null) gives no record, whatever it contains. *)
Theorem non_object_manifest_gives_nothing (file_path content : string)
  (data : JSON.value) :
  read_text file_path = Ok content ->
  json_loads content = Ok data ->
  Samples.is_object data = false ->
  _identify_package_type file_path = Some "npm"
  \/ _identify_package_type file_path = Some "composer" ->
  extract_one file_path = [].
Proof.
  intros R J H T.
  unfold _extract_packages_from_file, extract_file_body.
  destruct T as [T|T]; rewrite T, R; cbn [bind];
    destruct (Py.isempty content); try reflexivity;
    cbn [String.eqb Ascii.eqb Bool.eqb].
  - pose proof (npm_non_object content file_path data J H) as N.
    destruct (_extract_npm_packages json_loads re_findall content file_path);
      [exact N | reflexivity].
  - pose proof (composer_non_object content file_path data J H) as N.
    destruct (_extract_composer_packages json_loads content file_path);
      [exact N | reflexivity].
Qed.

Lemma files_found_fold (files : list string) (self : extractor) :
  package_files_found
    (fold_left (extract_step json_loads ET_fromstring re_findall re_search
                  re_match read_text) files self)
  = package_files_found self
    ++ flat_map (fun f => match extract_one f with
                          | [] => []
                          | p :: ps =>
                              [(f, Z.of_nat (List.length (p :: ps)))]
                          end) files.
Proof.
  revert self; induction files as [|f files IH]; intros self;
    cbn [fold_left flat_map].
  - now rewrite app_nil_r.
  - rewrite IH. unfold extract_step.
    destruct (extract_one f) as [|p ps]; cbn [package_files_found app].
    + reflexivity.
    + rewrite <- app_assoc. reflexivity.
Qed.

(** X13.  The bookkeeping of a directory run: every entry of
    [package_files_found] has a count of at least one (a file without
    records is not listed), the counts add up to the number of extracted
    packages, and there are at most as many entries as files found. *)
Theorem directory_bookkeeping (directory : string) :
  let self := extract_state directory in
  Forall (fun entry => (1 <= snd entry)%Z) (package_files_found self)
  /\ fold_right (fun entry acc => (snd entry + acc)%Z) 0%Z
       (package_files_found self)
     = Z.of_nat (List.length (extracted_packages self))
  /\ List.length (package_files_found self)
     <= List.length (_find_package_files glob is_file directory).
Proof.
  intros self. subst self.
  unfold extract_packages_from_directory_state.
  rewrite files_found_fold, ParserBoundary.directory_fold.
  cbn [package_files_found extracted_packages app].
  set (entry_of := fun f : string =>
                     match extract_one f with
                     | [] => []
                     | p :: ps => [(f, Z.of_nat (List.length (p :: ps)))]
                     end).
  induction (found_files directory) as [|f files IH]; cbn [flat_map].
  { split; [apply Forall_nil | split; [reflexivity | apply Nat.le_refl]]. }
  destruct IH as [IH1 [IH2 IH3]].
  assert (E : entry_of f = match extract_one f with
                           | [] => []
                           | p :: ps =>
                               [(f, Z.of_nat (List.length (p :: ps)))]
                           end) by reflexivity.
  rewrite E. clear E.
  destruct (extract_one f) as [|p ps].
  - change ([] ++ flat_map entry_of files) with (flat_map entry_of files).
    change ([] ++ flat_map (fun f0 : string => extract_one f0) files)
      with (flat_map (fun f0 : string => extract_one f0) files).
    split; [exact IH1 | split; [exact IH2 | ]].
    change (List.length (f :: files)) with (S (List.length files)). lia.
  - change ([(f, Z.of_nat (List.length (p :: ps)))]
            ++ flat_map entry_of files)
      with ((f, Z.of_nat (List.length (p :: ps)))
            :: flat_map entry_of files).
    split; [|split].
    + apply Forall_cons; [|exact IH1].
      change (snd (f, Z.of_nat (List.length (p :: ps))))
        with (Z.of_nat (S (List.length ps))). lia.
    + change (fold_right (fun entry acc => (snd entry + acc)%Z) 0%Z
                ((f, Z.of_nat (List.length (p :: ps)))
                 :: flat_map entry_of files))
        with (Z.of_nat (List.length (p :: ps))
              + fold_right (fun entry acc => (snd entry + acc)%Z) 0%Z
                  (flat_map entry_of files))%Z.
      rewrite IH2, length_app. lia.
    + change (List.length ((f, Z.of_nat (List.length (p :: ps)))
                           :: flat_map entry_of files))
        with (S (List.length (flat_map entry_of files))).
      change (List.length (f :: files)) with (S (List.length files)). lia.
Qed.

End Extractor.

Lemma line_manifests_end_to_end_witness :
  _extract_packages_from_file JSON.loads Manifests.no_xml
    Manifests.no_findall Manifests.no_match Manifests.no_match
    Samples.flask_read_text "repo/requirements.txt"
  = map (RecordNames.requirement_record "repo/requirements.txt")
      (filter RecordNames.qualifying
         (enumerate (Py.split_char newline "flask") 1)).
Proof.
  apply (proj1 (line_manifests_end_to_end JSON.loads Manifests.no_xml
                  Manifests.no_findall Manifests.no_match Manifests.no_match
                  Samples.flask_read_text "repo" "flask")).
  reflexivity.
Defined.

Lemma identified_without_parser_witness :
  _extract_packages_from_file JSON.loads Manifests.no_xml
    Manifests.no_findall Manifests.no_match Manifests.no_match
    Samples.flask_read_text "repo/Requirements.txt" = [].
Proof.
  apply (proj1 (proj2 (identified_without_parser JSON.loads Manifests.no_xml
                         Manifests.no_findall Manifests.no_match
                         Manifests.no_match Samples.flask_read_text
                         "repo/Requirements.txt")));
    reflexivity.
Defined.

Lemma non_object_manifest_gives_nothing_witness :
  _extract_packages_from_file JSON.loads Manifests.no_xml
    Manifests.no_findall Manifests.no_match Manifests.no_match
    Samples.array_read_text "repo/package.json" = [].
Proof.
  apply (non_object_manifest_gives_nothing JSON.loads Manifests.no_xml
           Manifests.no_findall Manifests.no_match Manifests.no_match
           Samples.array_read_text "repo/package.json" "[1, 2]"
           (JSON.Arr [JSON.Num "1"; JSON.Num "2"])).
  - reflexivity.
  - vm_compute; reflexivity.
  - reflexivity.
  - left. vm_compute; reflexivity.
Defined.

End ExtractorMore.

(* ================================================================== *)
(** ** Properties of the statistics *)
(* ================================================================== *)

Module StatisticsMore.

Import Statistics.

Lemma counter_get_set (d : counter) (k k' : string) (v default : Z) :
  counter_get (counter_set d k v) k' default
  = if String.eqb k k' then v else counter_get d k' default.
Proof.
  induction d as [|[k0 v0] d IH]; cbn [counter_set counter_get].
  - reflexivity.
  - destruct (String.eqb_spec k0 k) as [->|Hk]; cbn [counter_get].
    + destruct (String.eqb k k'); reflexivity.
    + rewrite IH.
      destruct (String.eqb_spec k0 k') as [->|Hk'].
      * destruct (String.eqb_spec k k'); [congruence | reflexivity].
      * reflexivity.
Qed.

Lemma counter_total_set (d : counter) (k : string) (v : Z) :
  counter_total (counter_set d k v)
  = (counter_total d - counter_get d k 0 + v)%Z.
Proof.
  unfold counter_total.
  induction d as [|[k0 v0] d IH]; cbn [counter_set counter_get fold_right snd].
  - lia.
  - destruct (String.eqb k0 k); cbn [fold_right snd]; [lia|].
    rewrite IH. lia.
Qed.

(** The counting loop on one key. *)
Lemma count_loop (key : PackageExtractor.package -> string)
  (packages : list PackageExtractor.package) (d : counter) :
  (forall k, counter_get
               (fold_left (fun d p => count_up d (key p)) packages d) k 0
             = (counter_get d k 0 + occurrences key k packages)%Z)
  /\ counter_total (fold_left (fun d p => count_up d (key p)) packages d)
     = (counter_total d + Z.of_nat (List.length packages))%Z.
Proof.
  unfold occurrences.
  revert d; induction packages as [|p packages IH]; intros d;
    cbn [fold_left filter].
  - split; [intros k|]; simpl; lia.
  - destruct (IH (count_up d (key p))) as [IH1 IH2]. split.
    + intros k. rewrite IH1. unfold count_up. rewrite counter_get_set.
      destruct (String.eqb_spec (key p) k) as [E|E]; cbn [List.length];
        [rewrite E|]; lia.
    + rewrite IH2. unfold count_up. rewrite counter_total_set.
      cbn [List.length]. lia.
Qed.

Lemma count_packages_split (packages : list PackageExtractor.package)
  (pm pt : counter) :
  fold_left
    (fun '(package_managers, package_types) package =>
       (count_up package_managers
          (PackageExtractor.package_manager package),
        count_up package_types (PackageExtractor.type package)))
    packages (pm, pt)
  = (fold_left (fun d p => count_up d (PackageExtractor.package_manager p))
       packages pm,
     fold_left (fun d p => count_up d (PackageExtractor.type p))
       packages pt).
Proof.
  revert pm pt; induction packages as [|p packages IH]; intros pm pt;
    cbn [fold_left]; [reflexivity | apply IH].
Qed.

(** X14.  In the extraction statistics the entry of a package manager (of
    a record type) is the number of extracted records with that manager
    (that type), a key that does not occur reads as 0, and both tables add
    up to [total_packages]. *)
Theorem extraction_statistics_count (self : PackageExtractor.extractor) :
  let stats := get_extraction_statistics self in
  (forall k : string,
      counter_get (package_managers stats) k 0
      = occurrences PackageExtractor.package_manager k
          (PackageExtractor.extracted_packages self))
  /\ (forall k : string,
        counter_get (package_types stats) k 0
        = occurrences PackageExtractor.type k
            (PackageExtractor.extracted_packages self))
  /\ counter_total (package_managers stats) = total_packages stats
  /\ counter_total (package_types stats) = total_packages stats.
Proof.
  unfold get_extraction_statistics, count_packages.
  rewrite count_packages_split. cbn zeta.
  cbn [package_managers package_types total_packages].
  destruct (count_loop PackageExtractor.package_manager
              (PackageExtractor.extracted_packages self) []) as [M1 M2].
  destruct (count_loop PackageExtractor.type
              (PackageExtractor.extracted_packages self) []) as [T1 T2].
  split; [intros k; rewrite M1; reflexivity|].
  split; [intros k; rewrite T1; reflexivity|].
  split; [rewrite M2 | rewrite T2]; reflexivity.
Qed.

End StatisticsMore.

(* ================================================================== *)
(** ** Properties of the checker object *)
(* ================================================================== *)

Module CheckerMore.

Import NPMChecker CheckerState.

Lemma task_on_effect (net : nat -> outcome) (now : Q) (self : checker)
  (p : PackageExtractor.package) :
  let r := fst (_check_single_package_async net now p) in
  snd (task_on net now self p) = r
  /\ checked_packages (fst (task_on net now self p)) = checked_packages self
  /\ failed_checks (fst (task_on net now self p)) = failed_checks self
  /\ unclaimed_packages (fst (task_on net now self p))
     = unclaimed_packages self ++ unclaimed_of r
  /\ vulnerable_packages (fst (task_on net now self p))
     = vulnerable_packages self ++ vulnerable_of r.
Proof.
  unfold task_on, _check_single_package_async.
  destruct (falsy (PackageExtractor.name p)).
  - cbn. rewrite !app_nil_r. auto.
  - destruct (_get_package_info net (PackageExtractor.name p))
      as [[i|] evs]; cbn [fst snd].
    + destruct (0 <? List.length
                       (_get_package_vulnerabilities
                          (PackageExtractor.name p)))%nat eqn:V;
        cbn; rewrite ?V, ?app_nil_r; auto.
    + cbn. rewrite !app_nil_r. auto.
Qed.

Lemma run_effect (completion : list nat) (net : nat -> nat -> outcome)
  (now : nat -> Q) (packages : list PackageExtractor.package)
  (self : checker) :
  let self' := check_packages_async_on completion net now packages self in
  checked_packages self' = checked_packages self
  /\ failed_checks self' = failed_checks self
  /\ unclaimed_packages self'
     = unclaimed_packages self
       ++ flat_map (fun i => unclaimed_of (result_of_task net now packages i))
            completion
  /\ vulnerable_packages self'
     = vulnerable_packages self
       ++ flat_map (fun i => vulnerable_of (result_of_task net now packages i))
            completion.
Proof.
  unfold check_packages_async_on.
  revert self; induction completion as [|i completion IH]; intros self;
    cbn [fold_left flat_map].
  - rewrite !app_nil_r. auto.
  - match goal with
    | |- context [fold_left _ completion ?s] =>
        destruct (IH s) as [I1 [I2 [I3 I4]]]
    end.
    cbn zeta in *. rewrite I1, I2, I3, I4. unfold result_of_task.
    destruct (nth_error (npm_packages packages) i) as [p|].
    + destruct (task_on_effect (net i) (now i) self p)
        as [_ [E1 [E2 [E3 E4]]]].
      cbn zeta in *. rewrite E1, E2, E3, E4, <- !app_assoc. auto.
    + cbn [unclaimed_of vulnerable_of app]. auto.
Qed.

(** X15.  Whatever calls of [check_packages_async] were made on a new
    checker, in whatever order their tasks finished,
    [get_check_statistics] reports 0 checked packages and 0 failed checks,
    and all three rates are the integer 0: nothing ever appends to
    [checked_packages], and no task hands an exception to the caller. *)
Theorem check_statistics_stay_zero (runs : list run) :
  let stats := get_check_statistics (after_runs runs init) in
  total_packages_checked stats = 0%Z
  /\ stat_failed_checks stats = 0%Z
  /\ success_rate stats = Int 0
  /\ vulnerability_rate stats = Int 0
  /\ unclaimed_rate stats = Int 0.
Proof.
  assert (K : forall self,
             checked_packages (after_runs runs self) = checked_packages self
             /\ failed_checks (after_runs runs self) = failed_checks self).
  { unfold after_runs. induction runs as [|r runs IH]; intros self;
      cbn [fold_left]; [auto|].
    match goal with
    | |- context [fold_left _ runs ?s] => destruct (IH s) as [I1 I2]
    end.
    rewrite I1, I2.
    destruct (run_effect (run_completion r) (run_net r) (run_now r)
                (run_packages r) self) as [E1 [E2 _]].
    auto. }
  destruct (K init) as [K1 K2].
  unfold get_check_statistics. cbn zeta. rewrite K1, K2.
  cbn. auto.
Qed.

Lemma flat_map_seq_enumerate {A B : Type} (g : nat -> A -> list B)
  (pre rest : list A) :
  flat_map (fun i => match nth_error (pre ++ rest) i with
                     | Some x => g i x
                     | None => []
                     end)
    (seq (List.length pre) (List.length rest))
  = flat_map (fun '(i, x) => g i x) (enumerate rest (List.length pre)).
Proof.
  revert pre; induction rest as [|x rest IH]; intros pre; [reflexivity|].
  cbn [List.length seq flat_map enumerate].
  rewrite nth_error_app2, Nat.sub_diag by lia. cbn [nth_error].
  f_equal.
  specialize (IH (pre ++ [x])).
  rewrite <- app_assoc in IH. cbn [app] in IH.
  rewrite length_app in IH. cbn [List.length] in IH.
  rewrite Nat.add_1_r in IH. exact IH.
Qed.

Lemma filter_flat_map {A B : Type} (f : B -> bool) (g : A -> list B)
  (l : list A) :
  filter f (flat_map g l) = flat_map (fun x => filter f (g x)) l.
Proof.
  induction l as [|x l IH]; cbn [flat_map]; [reflexivity|].
  now rewrite filter_app, IH.
Qed.

Lemma flat_map_map {A B C : Type} (f : A -> B) (g : B -> list C)
  (l : list A) :
  flat_map g (map f l) = flat_map (fun x => g (f x)) l.
Proof.
  induction l as [|x l IH]; cbn [map flat_map]; [reflexivity|].
  now rewrite IH.
Qed.

Lemma results_in_task_order (flag : checked_package -> bool)
  (net : nat -> nat -> outcome) (now : nat -> Q)
  (packages : list PackageExtractor.package) :
  flat_map (fun i => match result_of_task net now packages i with
                     | Some c => if flag c then [c] else []
                     | None => []
                     end)
    (seq 0 (List.length (npm_packages packages)))
  = filter flag (check_packages_async net now packages).
Proof.
  unfold check_packages_async, run_tasks, result_of_task.
  rewrite filter_flat_map, flat_map_map.
  pose proof (flat_map_seq_enumerate
                (fun i p =>
                   match fst (_check_single_package_async (net i) (now i) p)
                   with
                   | Some c => if flag c then [c] else []
                   | None => []
                   end) [] (npm_packages packages)) as E.
  cbn [app List.length] in E.
  etransitivity; [|etransitivity; [exact E|]].
  - apply flat_map_ext. intros i.
    destruct (nth_error (npm_packages packages) i); reflexivity.
  - apply flat_map_ext. intros [i p].
    destruct (fst (_check_single_package_async (net i) (now i) p));
      [cbn [filter]; destruct (flag _); reflexivity | reflexivity].
Qed.

(** X16.  After one call on a new checker, in whatever order the tasks
    finish, [unclaimed_packages] holds exactly the returned records that
    are unclaimed and [vulnerable_packages] exactly the returned records
    that are vulnerable (each once, in the order of finishing), so the two
    counts of the statistics are the numbers of such records. *)
Theorem checker_lists_collect_results (completion : list nat)
  (net : nat -> nat -> outcome) (now : nat -> Q)
  (packages : list PackageExtractor.package) :
  Permutation completion (seq 0 (List.length (npm_packages packages))) ->
  let self := check_packages_async_on completion net now packages init in
  let returned := check_packages_async net now packages in
  Permutation (unclaimed_packages self) (filter is_unclaimed returned)
  /\ Permutation (vulnerable_packages self) (filter is_vulnerable returned)
  /\ stat_unclaimed_packages (get_check_statistics self)
     = Z.of_nat (List.length (filter is_unclaimed returned))
  /\ stat_vulnerable_packages (get_check_statistics self)
     = Z.of_nat (List.length (filter is_vulnerable returned)).
Proof.
  intros P self returned. subst self returned.
  destruct (run_effect completion net now packages init)
    as [_ [_ [U V]]].
  cbn zeta in U, V. cbn [init unclaimed_packages vulnerable_packages app]
    in U, V.
  assert (PU : Permutation
                 (unclaimed_packages
                    (check_packages_async_on completion net now packages
                       init))
                 (filter is_unclaimed
                    (check_packages_async net now packages))).
  { rewrite U, <- results_in_task_order.
    apply Permutation_flat_map. exact P. }
  assert (PV : Permutation
                 (vulnerable_packages
                    (check_packages_async_on completion net now packages
                       init))
                 (filter is_vulnerable
                    (check_packages_async net now packages))).
  { rewrite V, <- results_in_task_order.
    apply Permutation_flat_map. exact P. }
  split; [exact PU|]. split; [exact PV|].
  unfold get_check_statistics.
  cbn [stat_unclaimed_packages stat_vulnerable_packages].
  rewrite (Permutation_length PU), (Permutation_length PV). auto.
Qed.

Lemma checker_lists_collect_results_witness :
  let self :=
    check_packages_async_on [1; 0] Verifier.changing_registry
      (fun _ => Verifier.zero)
      [Verifier.npm_record "left-pad"; Verifier.npm_record "left-pad"]
      init in
  let returned :=
    check_packages_async Verifier.changing_registry (fun _ => Verifier.zero)
      [Verifier.npm_record "left-pad"; Verifier.npm_record "left-pad"] in
  Permutation (unclaimed_packages self) (filter is_unclaimed returned)
  /\ Permutation (vulnerable_packages self) (filter is_vulnerable returned)
  /\ stat_unclaimed_packages (get_check_statistics self)
     = Z.of_nat (List.length (filter is_unclaimed returned))
  /\ stat_vulnerable_packages (get_check_statistics self)
     = Z.of_nat (List.length (filter is_vulnerable returned)).
Proof.
  apply (checker_lists_collect_results [1; 0] Verifier.changing_registry
           (fun _ => Verifier.zero)
           [Verifier.npm_record "left-pad"; Verifier.npm_record "left-pad"]).
  apply perm_swap.
Defined.

End CheckerMore.

(* ================================================================== *)
(** ** Further properties of the registry lookups *)
(* ================================================================== *)

Module VerifierMore.

Import NPMChecker Verifier.

Lemma not_failed_is_response (n : JSON.value) (o : outcome) :
  attempt_fails n o = false -> exists status body, o = Response status body.
Proof.
  destruct o as [status body| |e]; cbn; intros H;
    [eauto | discriminate | discriminate].
Qed.

(** The trace of a lookup: some attempts that failed, then one last
    request. *)
Lemma lookup_trace (net : nat -> outcome) (n : JSON.value) :
  exists k, k < MAX_RETRIES
            /\ snd (_get_package_info net n)
               = failed_prefix n k ++ [EvGet n k].
Proof.
  destruct (attempt_fails n (net 0)) eqn:F0.
  - destruct (attempt_fails n (net 1)) eqn:F1.
    + destruct (attempt_fails n (net 2)) eqn:F2.
      * exists 2. split; [unfold MAX_RETRIES; lia|].
        rewrite VerifierProps.get_package_info_exhausted; [reflexivity|].
        intros [|[|[|j]]] Hj; auto. unfold MAX_RETRIES in Hj. lia.
      * exists 2. split; [unfold MAX_RETRIES; lia|].
        destruct (not_failed_is_response _ _ F2) as [status [body E]].
        rewrite (VerifierProps.get_package_info_answer net n 2 status body);
          auto.
        intros [|[|j]] Hj; auto. lia.
    + exists 1. split; [unfold MAX_RETRIES; lia|].
      destruct (not_failed_is_response _ _ F1) as [status [body E]].
      rewrite (VerifierProps.get_package_info_answer net n 1 status body);
        auto; [unfold MAX_RETRIES; lia|].
      intros [|j] Hj; auto. lia.
  - exists 0. split; [unfold MAX_RETRIES; lia|].
    destruct (not_failed_is_response _ _ F0) as [status [body E]].
    rewrite (VerifierProps.get_package_info_answer net n 0 status body);
      auto; [unfold MAX_RETRIES; lia|].
    intros j Hj. lia.
Qed.

(** Names that are numbers: zero, also by underflow, is no name. *)
Lemma zero_is_no_name :
  map (fun lit => falsy (JSON.Num lit))
    ["0"; "-0"; "0.0"; "-0.0"; "0e5"; "1e-400"; "2.47e-324"]
  = [true; true; true; true; true; true; true]
  /\ map (fun lit => falsy (JSON.Num lit))
       ["7"; "0.5"; "1e-323"; "2.48e-324"; "1E400"; "NaN"; "-Infinity"]
     = [false; false; false; false; false; false; false].
Proof. split; vm_compute; reflexivity. Qed.

(** X17.  What a task sends, whatever the registry does: one rate-limit
    sleep first; then, for a record that has a name, between one and three
    requests for that name, numbered from 0, each but the last followed by
    its backoff sleep, and a record is returned; for a record without a
    name, no request and no record.  Retries are not rate-limited again;
    the backoff sleeps are 1 second after the first failed request and 2
    seconds after the second. *)
Theorem task_trace_shape (net : nat -> outcome) (now : Q)
  (p : PackageExtractor.package) :
  ((has_name p = false
    /\ _check_single_package_async net now p
       = (None, [EvSleep rate_limit_delay]))
   \/ (has_name p = true
       /\ exists (k : nat) (c : checked_package),
            k < MAX_RETRIES
            /\ _check_single_package_async net now p
               = (Some c,
                  EvSleep rate_limit_delay
                  :: failed_prefix (PackageExtractor.name p) k
                     ++ [EvGet (PackageExtractor.name p) k])))
  /\ (forall n : JSON.value,
        failed_prefix n 0 = []
        /\ failed_prefix n 1
           = [EvGet n 0; EvSleep (QArith_base.inject_Z 1)]
        /\ failed_prefix n 2
           = [EvGet n 0; EvSleep (QArith_base.inject_Z 1);
              EvGet n 1; EvSleep (QArith_base.inject_Z 2)]).
Proof.
  split; [|intros n; repeat split; reflexivity].
  unfold has_name, _check_single_package_async.
  destruct (falsy (PackageExtractor.name p)); [left; auto|right].
  split; [reflexivity|].
  destruct (lookup_trace net (PackageExtractor.name p)) as [k [Hk E]].
  exists k.
  destruct (_get_package_info net (PackageExtractor.name p)) as [[i|] evs];
    cbn [snd] in E; subst evs; eexists; split; try exact Hk; reflexivity.
Qed.

Lemma tasks_forall (P : checked_package -> Prop)
  (net : nat -> nat -> outcome) (now : nat -> Q)
  (l : list PackageExtractor.package) (k : nat) :
  (forall i p c, In p l ->
                 fst (_check_single_package_async (net i) (now i) p) = Some c ->
                 P c) ->
  Forall P
    (flat_map (fun r : option checked_package * list event =>
                 match fst r with Some c => [c] | None => [] end)
       (map (fun '(i, package) =>
               _check_single_package_async (net i) (now i) package)
            (enumerate l k))).
Proof.
  revert k; induction l as [|p l IH]; intros k H;
    cbn [enumerate map flat_map]; [constructor|].
  apply Forall_app. split.
  - destruct (fst (_check_single_package_async (net k) (now k) p)) eqn:E;
      [|constructor].
    constructor; [|constructor]. eapply H; [left; reflexivity | exact E].
  - apply IH. intros i q c Hq. apply H. right. exact Hq.
Qed.

(** X18.  Every record returned by [check_packages_async] is an npm record
    with a name and is of one of two kinds: found, not unclaimed, with the
    registry information, and vulnerable exactly when its name is a string
    that the risk scorer reports; or not found, unclaimed, not vulnerable,
    without vulnerabilities and without registry information.  No record
    is both unclaimed and vulnerable. *)
Theorem returned_records_are_consistent (net : nat -> nat -> outcome)
  (now : nat -> Q) (packages : list PackageExtractor.package) :
  Forall
    (fun c =>
       PackageExtractor.package_manager (package c) = "npm"
       /\ has_name (package c) = true
       /\ ((npm_status c = "found"
            /\ is_unclaimed c = false
            /\ info c <> None
            /\ vulnerabilities c
               = _get_package_vulnerabilities
                   (PackageExtractor.name (package c))
            /\ (is_vulnerable c = true
                <-> exists s, PackageExtractor.name (package c) = JSON.Str s
                              /\ _is_potentially_vulnerable_package s = true))
           \/ (npm_status c = "not_found"
               /\ is_unclaimed c = true
               /\ is_vulnerable c = false
               /\ vulnerabilities c = []
               /\ info c = None)))
    (check_packages_async net now packages).
Proof.
  unfold check_packages_async, run_tasks.
  apply tasks_forall. intros i p c Hin E.
  apply filter_In in Hin. destruct Hin as [_ Hm].
  apply String.eqb_eq in Hm.
  unfold _check_single_package_async in E. unfold has_name.
  destruct (falsy (PackageExtractor.name p)) eqn:Hf; [discriminate E|].
  destruct (_get_package_info (net i) (PackageExtractor.name p))
    as [[pi|] evs]; cbn [fst] in E; inversion E; subst c; clear E;
    cbn [package npm_status is_unclaimed is_vulnerable vulnerabilities info];
    rewrite Hf; (split; [exact Hm|]); (split; [reflexivity|]).
  - left. repeat split; try discriminate.
    + unfold _get_package_vulnerabilities.
      destruct (PackageExtractor.name p) as [| | |s| |];
        cbn; try discriminate.
      destruct (_is_potentially_vulnerable_package s) eqn:V;
        cbn; [eauto | discriminate].
    + intros [s [Es V]]. unfold _get_package_vulnerabilities.
      rewrite Es, V. reflexivity.
  - right. auto.
Qed.

End VerifierMore.

(* ================================================================== *)
(** ** The merge of the check results into the extracted records *)
(* ================================================================== *)

Module AnalyzerMore.

Import JSON Analyzer.

Lemma length_update {A : Type} (l : list A) (i : nat) (x : A) :
  List.length (Scheduler.update l i x) = List.length l.
Proof.
  revert i; induction l as [|y l IH]; intros [|i]; simpl; auto.
Qed.

Lemma filter_none {A : Type} (f : A -> bool) (l : list A) :
  (forall x, In x l -> f x = false) -> filter f l = [].
Proof.
  induction l as [|x l IH]; intros H; simpl; [reflexivity|].
  rewrite (H x (or_introl eq_refl)). apply IH.
  intros y Hy. apply H. right. exact Hy.
Qed.

Lemma nth_error_middle {A : Type} (l1 l2 : list A) (x : A) :
  nth_error (l1 ++ x :: l2) (List.length l1) = Some x.
Proof.
  induction l1 as [|y l1 IH]; simpl; auto.
Qed.

Lemma last_from_app (l1 l2 : list PackageExtractor.package) (start : nat)
  (s : string) (acc : option nat) :
  last_from (l1 ++ l2) start s acc
  = last_from l2 (start + List.length l1) s (last_from l1 start s acc).
Proof.
  revert start acc; induction l1 as [|p l1 IH]; intros start acc;
    cbn [app last_from List.length].
  - rewrite Nat.add_0_r. reflexivity.
  - rewrite IH. rewrite Nat.add_succ_r. reflexivity.
Qed.

Lemma last_from_none (l : list PackageExtractor.package) (start : nat)
  (s : string) (acc : option nat) :
  (forall q, In q l -> PackageExtractor.name q <> Str s) ->
  last_from l start s acc = acc.
Proof.
  revert start acc; induction l as [|p l IH]; intros start acc H;
    cbn [last_from]; [reflexivity|].
  rewrite IH by (intros q Hq; apply H; right; exact Hq).
  destruct (PackageExtractor.name p) as [| | |t| |] eqn:E; try reflexivity.
  destruct (String.eqb_spec t s) as [Et|Et]; [|reflexivity].
  exfalso. apply (H p (or_introl eq_refl)). rewrite E, Et. reflexivity.
Qed.

Lemma last_from_mono (l : list PackageExtractor.package) (start : nat)
  (s : string) (a : nat) :
  a <= start ->
  exists j, last_from l start s (Some a) = Some j /\ a <= j.
Proof.
  revert start a; induction l as [|p l IH]; intros start a Ha;
    cbn [last_from]; [eauto|].
  destruct (PackageExtractor.name p) as [| | |t| |];
    try (apply IH; lia).
  destruct (String.eqb t s).
  - destruct (IH (S start) start) as [j [E Hj]]; [lia|].
    exists j. split; [exact E | lia].
  - apply IH. lia.
Qed.

Lemma last_from_later (l : list PackageExtractor.package) (start : nat)
  (s : string) (acc : option nat) (q : PackageExtractor.package) :
  In q l -> PackageExtractor.name q = Str s ->
  exists j, last_from l start s acc = Some j /\ start <= j.
Proof.
  revert start acc; induction l as [|p l IH]; intros start acc Hin Hq;
    [destruct Hin|].
  cbn [last_from]. destruct Hin as [Hp|Hin].
  - subst p. rewrite Hq, String.eqb_refl.
    destruct (last_from_mono l (S start) s start) as [j [E Hj]]; [lia|].
    exists j. split; [exact E | exact Hj].
  - destruct (IH (S start)
                (match PackageExtractor.name p with
                 | Str t => if String.eqb t s then Some start else acc
                 | _ => acc
                 end) Hin Hq) as [j [E Hj]].
    exists j. split; [exact E | lia].
Qed.

Lemma last_from_sound (l : list PackageExtractor.package) (start : nat)
  (s : string) (acc : option nat) (j : nat) :
  last_from l start s acc = Some j ->
  acc = Some j
  \/ (exists q, nth_error l (j - start) = Some q
                /\ PackageExtractor.name q = Str s /\ start <= j).
Proof.
  revert start acc; induction l as [|p l IH]; intros start acc H;
    cbn [last_from] in H; [left; exact H|].
  destruct (IH _ _ H) as [E|[q [Hq [Hn Hj]]]].
  - destruct (PackageExtractor.name p) as [| | |t| |] eqn:En;
      try (left; exact E).
    destruct (String.eqb_spec t s) as [Et|Et]; [|left; exact E].
    right. exists p. inversion E; subst.
    rewrite Nat.sub_diag. auto.
  - right. exists q. replace (j - start) with (S (j - S start)) by lia.
    cbn [nth_error]. repeat split; [exact Hq | exact Hn | lia].
Qed.

Section Merge.

Variable scalar_eqb : value -> value -> bool.

Lemma map_get_set (m : package_map) (s t : string) (i : nat) :
  string_keys m ->
  map_get scalar_eqb (map_set scalar_eqb m (Str s) i) (Str t)
  = if String.eqb s t then Some i else map_get scalar_eqb m (Str t).
Proof.
  induction 1 as [|[k j] r [u Hk] Hr IH]; cbn [map_set map_get key_eqb];
    [reflexivity|].
  cbn [fst] in Hk. subst k. cbn [key_eqb].
  destruct (String.eqb_spec u s) as [Eu|Eu]; cbn [map_get key_eqb].
  - subst u. destruct (String.eqb s t); reflexivity.
  - rewrite IH. destruct (String.eqb_spec u t) as [Et|Et]; [|reflexivity].
    subst u. destruct (String.eqb_spec s t) as [E|E]; [|reflexivity].
    exfalso. apply Eu. symmetry. exact E.
Qed.

Lemma map_set_keys (m : package_map) (s : string) (i : nat) :
  string_keys m -> string_keys (map_set scalar_eqb m (Str s) i).
Proof.
  induction 1 as [|[k j] r Hk Hr IH]; cbn [map_set].
  - constructor; [exists s; reflexivity | constructor].
  - destruct (key_eqb scalar_eqb k (Str s)).
    + constructor; [exact Hk | exact Hr].
    + constructor; [exact Hk | exact IH].
Qed.

Lemma build_loop (l : list PackageExtractor.package) :
  Forall string_named l ->
  forall (start : nat) (m : package_map),
    string_keys m ->
    exists m',
      for_each (enumerate l start)
        (fun '(i, pkg) m =>
           if hashable (PackageExtractor.name pkg)
           then Ok (map_set scalar_eqb m (PackageExtractor.name pkg) i)
           else Raise TypeError) m
      = Ok m'
      /\ string_keys m'
      /\ forall s, map_get scalar_eqb m' (Str s)
                   = last_from l start s (map_get scalar_eqb m (Str s)).
Proof.
  induction 1 as [|p l [t Hp] Hl IH]; intros start m Hm;
    cbn [enumerate for_each last_from].
  - exists m. auto.
  - rewrite Hp. cbn [hashable bind].
    destruct (IH (S start) (map_set scalar_eqb m (Str t) start)
                (map_set_keys m t start Hm)) as [m' [E [K G]]].
    exists m'. split; [exact E|]. split; [exact K|].
    intros s. rewrite G, map_get_set by exact Hm. reflexivity.
Qed.

Lemma merge_loop (m : package_map)
  (cs : list NPMChecker.checked_package) :
  Forall (fun c => string_named (NPMChecker.package c)) cs ->
  forall store : list report_package,
    exists store',
      for_each_keep cs (merge_step scalar_eqb m) store = (store', None)
      /\ forall i,
           nth_error store' i
           = option_map
               (fold_left update_with
                  (filter (aims_at (map_get scalar_eqb m) i) cs))
               (nth_error store i).
Proof.
  induction 1 as [|c cs [t Hc] Hcs IH]; intros store;
    cbn [for_each_keep filter].
  - exists store. split; [reflexivity|].
    intros i. destruct (nth_error store i); reflexivity.
  - unfold merge_step at 1, aims_at at 1. rewrite Hc. cbn [hashable].
    destruct (map_get scalar_eqb m (Str t)) as [j|] eqn:Ej.
    + destruct (nth_error store j) as [d|] eqn:Ed.
      * destruct (IH (Scheduler.update store j (update_with d c)))
          as [store' [E G]].
        exists store'. split; [exact E|].
        intros i. rewrite G.
        destruct (Nat.eqb_spec j i) as [Eji|Eji].
        -- subst i.
           rewrite (Gate.nth_error_update_same store j _ d Ed), Ed.
           reflexivity.
        -- rewrite Gate.nth_error_update_other by exact Eji.
           reflexivity.
      * destruct (IH store) as [store' [E G]].
        exists store'. split; [exact E|].
        intros i. rewrite G.
        destruct (Nat.eqb_spec j i) as [Eji|Eji]; [|reflexivity].
        subst i. rewrite Ed. reflexivity.
    + destruct (IH store) as [store' [E G]].
      exists store'. split; [exact E|]. exact G.
Qed.

Lemma merge_keeps_length (m : package_map)
  (cs : list NPMChecker.checked_package) (store : list report_package) :
  List.length (fst (for_each_keep cs (merge_step scalar_eqb m) store))
  = List.length store.
Proof.
  revert store; induction cs as [|c cs IH]; intros store;
    cbn [for_each_keep]; [reflexivity|].
  unfold merge_step at 1.
  destruct (hashable (PackageExtractor.name (NPMChecker.package c)));
    [|reflexivity].
  destruct (map_get scalar_eqb m _) as [j|]; [|apply IH].
  destruct (nth_error store j) as [d|]; [|apply IH].
  rewrite IH. apply length_update.
Qed.

(** What the merge leaves at a position, when every name is a string. *)
Lemma merged_position (all_packages : list PackageExtractor.package)
  (checked_packages : list NPMChecker.checked_package) :
  Forall string_named all_packages ->
  Forall (fun c => string_named (NPMChecker.package c)) checked_packages ->
  exists lookup : value -> option nat,
    (forall s, lookup (Str s) = last_from all_packages 0 s None)
    /\ snd (update_packages scalar_eqb all_packages checked_packages) = None
    /\ forall i,
         nth_error
           (fst (update_packages scalar_eqb all_packages checked_packages)) i
         = option_map
             (fun p => fold_left update_with
                         (filter (aims_at lookup i) checked_packages)
                         (unchecked p))
             (nth_error all_packages i).
Proof.
  intros Ha Hc. unfold update_packages, build_package_map.
  destruct (build_loop all_packages Ha 0 [] (Forall_nil _)) as [m [E [_ G]]].
  rewrite E.
  destruct (merge_loop m checked_packages Hc (map unchecked all_packages))
    as [store' [E' G']].
  rewrite E'. exists (map_get scalar_eqb m).
  split; [intros s; rewrite G; reflexivity|].
  split; [reflexivity|].
  intros i. cbn [fst]. rewrite G', nth_error_map.
  destruct (nth_error all_packages i); reflexivity.
Qed.

(** X19.  The merge neither adds nor drops a record, whatever the names
    are and even when it is cut short by an unhashable name; when every
    name is a string it is not cut short. *)
Theorem merge_keeps_every_record
  (all_packages : list PackageExtractor.package)
  (checked_packages : list NPMChecker.checked_package) :
  List.length (fst (update_packages scalar_eqb all_packages checked_packages))
  = List.length all_packages
  /\ (Forall string_named all_packages ->
      Forall (fun c => string_named (NPMChecker.package c))
        checked_packages ->
      snd (update_packages scalar_eqb all_packages checked_packages) = None).
Proof.
  split.
  - unfold update_packages.
    destruct (build_package_map scalar_eqb all_packages) as [m|e];
      cbn [fst]; [rewrite merge_keeps_length|]; apply length_map.
  - intros Ha Hc.
    destruct (merged_position all_packages checked_packages Ha Hc)
      as [lookup [_ [E _]]].
    exact E.
Qed.

(** X20.  The results are merged by name alone.  A record that is followed
    by a later record of the same name (in any file, of any ecosystem), or
    whose name no check result carries, comes out of the merge exactly as
    the extractor left it: without any of the check's keys. *)
Theorem shadowed_record_stays_unchecked
  (l1 l2 : list PackageExtractor.package) (p : PackageExtractor.package)
  (checked_packages : list NPMChecker.checked_package) (n : string)
  (Hall : Forall string_named (l1 ++ p :: l2))
  (Hchecked : Forall (fun c => string_named (NPMChecker.package c))
                checked_packages)
  (Hname : PackageExtractor.name p = Str n)
  (Hcase : (exists q, In q l2 /\ PackageExtractor.name q = Str n)
           \/ (forall c, In c checked_packages ->
                         PackageExtractor.name (NPMChecker.package c)
                         <> Str n)) :
  nth_error
    (fst (update_packages scalar_eqb (l1 ++ p :: l2) checked_packages))
    (List.length l1)
  = Some (unchecked p).
Proof.
  destruct (merged_position _ _ Hall Hchecked) as [lookup [L [_ G]]].
  rewrite G, nth_error_middle. cbn [option_map].
  rewrite filter_none; [reflexivity|].
  intros c Hc. unfold aims_at.
  rewrite Forall_forall in Hchecked.
  destruct (Hchecked c Hc) as [t Ht]. rewrite Ht, L.
  destruct (last_from (l1 ++ p :: l2) 0 t None) as [j|] eqn:E;
    [|reflexivity].
  destruct (Nat.eqb_spec j (List.length l1)) as [Ej|Ej]; [|reflexivity].
  exfalso. subst j.
  assert (Et : t = n).
  { destruct (last_from_sound _ _ _ _ _ E) as [D|[q [Hq [Hn _]]]];
      [discriminate D|].
    rewrite Nat.sub_0_r, nth_error_middle in Hq. inversion Hq; subst q.
    rewrite Hname in Hn. inversion Hn. reflexivity. }
  subst t. destruct Hcase as [[q [Hq Hn]]|Hno].
  - rewrite last_from_app in E. cbn [last_from] in E.
    rewrite Hname, String.eqb_refl in E.
    destruct (last_from_later l2 (S (0 + List.length l1)) n
                (Some (0 + List.length l1)) q Hq Hn) as [j [E' Hj]].
    rewrite E' in E. inversion E. lia.
  - exact (Hno c Hc Ht).
Qed.

(** X21.  The last record of a name receives the last check result of that
    name, whatever its own ecosystem is: all seven extractor keys are
    overwritten by those of the checked npm record, and the check's keys
    are added. *)
Theorem last_record_takes_the_check
  (l1 l2 : list PackageExtractor.package) (p : PackageExtractor.package)
  (c1 c2 : list NPMChecker.checked_package) (c : NPMChecker.checked_package)
  (n : string)
  (Hall : Forall string_named (l1 ++ p :: l2))
  (Hchecked : Forall (fun c => string_named (NPMChecker.package c))
                (c1 ++ c :: c2))
  (Hname : PackageExtractor.name p = Str n)
  (Hlast : forall q, In q l2 -> PackageExtractor.name q <> Str n)
  (Hcheck : PackageExtractor.name (NPMChecker.package c) = Str n)
  (Hlatest : forall c', In c' c2 ->
                        PackageExtractor.name (NPMChecker.package c')
                        <> Str n) :
  exists d,
    nth_error
      (fst (update_packages scalar_eqb (l1 ++ p :: l2) (c1 ++ c :: c2)))
      (List.length l1)
    = Some d
    /\ record d = NPMChecker.package c
    /\ checked d = checked (update_with (unchecked p) c)
    /\ (forall i, NPMChecker.info c = Some i -> package_info d = Some i).
Proof.
  destruct (merged_position _ _ Hall Hchecked) as [lookup [L [_ G]]].
  rewrite G, nth_error_middle. cbn [option_map].
  assert (Hn : lookup (Str n) = Some (List.length l1)).
  { rewrite L, last_from_app. cbn [last_from].
    rewrite Hname, String.eqb_refl.
    apply last_from_none. exact Hlast. }
  rewrite filter_app. cbn [filter]. unfold aims_at at 2.
  rewrite Hcheck, Hn, Nat.eqb_refl.
  rewrite (filter_none _ c2).
  - rewrite fold_left_app. cbn [fold_left].
    eexists. split; [reflexivity|].
    split; [reflexivity|]. split; [reflexivity|].
    intros i Hi. cbn [package_info update_with]. rewrite Hi. reflexivity.
  - intros c' Hc'. unfold aims_at.
    rewrite Forall_forall in Hchecked.
    destruct (Hchecked c') as [t Ht];
      [apply in_or_app; right; right; exact Hc'|].
    rewrite Ht, L.
    destruct (last_from (l1 ++ p :: l2) 0 t None) as [j|] eqn:E;
      [|reflexivity].
    destruct (Nat.eqb_spec j (List.length l1)) as [Ej|Ej]; [|reflexivity].
    exfalso. subst j.
    destruct (last_from_sound _ _ _ _ _ E) as [D|[q [Hq [Hq' _]]]];
      [discriminate D|].
    rewrite Nat.sub_0_r, nth_error_middle in Hq. inversion Hq; subst q.
    rewrite Hname in Hq'. inversion Hq'; subst t.
    exact (Hlatest c' Hc' Ht).
Qed.

End Merge.

Lemma shadowed_record_stays_unchecked_witness :
  nth_error
    (fst (update_packages no_scalars
            ([] ++ pip_requests :: [Verifier.npm_record "requests"])
            [checked_requests]))
    0
  = Some (unchecked pip_requests).
Proof.
  apply (shadowed_record_stays_unchecked no_scalars [] [Verifier.npm_record "requests"]
           pip_requests [checked_requests] "requests").
  - repeat constructor; exists "requests"; reflexivity.
  - repeat constructor; exists "requests"; reflexivity.
  - reflexivity.
  - left. exists (Verifier.npm_record "requests").
    split; [left; reflexivity | reflexivity].
Defined.

Lemma last_record_takes_the_check_witness :
  exists d,
    nth_error
      (fst (update_packages no_scalars
              ([Verifier.npm_record "requests"] ++ pip_requests :: [])
              ([] ++ checked_requests :: [])))
      (List.length [Verifier.npm_record "requests"])
    = Some d
    /\ record d = NPMChecker.package checked_requests
    /\ checked d = checked (update_with (unchecked pip_requests)
                              checked_requests)
    /\ (forall i, NPMChecker.info checked_requests = Some i ->
                  package_info d = Some i).
Proof.
  apply (last_record_takes_the_check no_scalars [Verifier.npm_record "requests"] []
           pip_requests [] [] checked_requests "requests").
  - repeat constructor; exists "requests"; reflexivity.
  - repeat constructor; exists "requests"; reflexivity.
  - reflexivity.
  - intros q [].
  - reflexivity.
  - intros c' [].
Defined.

End AnalyzerMore.

(* ================================================================== *)
(** ** Progress and termination of the gathered tasks *)
(* ================================================================== *)

Module RunsMore.

Import Scheduler Runs.

Lemma forall_update (P : phase -> Prop) (l : list phase) (i : nat)
  (x : phase) :
  Forall P l -> P x -> Forall P (update l i x).
Proof.
  intros H Hx. revert i; induction H as [|y l Hy Hl IH]; intros [|i];
    cbn [update]; constructor; auto.
Qed.

Lemma reachable_may_retry (n : nat) (s : state) :
  reachable n s -> Forall may_retry (tasks s).
Proof.
  induction 1 as [|s s' _ IH Hstep].
  - cbn [init tasks]. apply Forall_forall. intros p Hp.
    apply repeat_spec in Hp. subst p. exact I.
  - destruct Hstep as [i Hi Hp | i Hi | i Hi | i a Hi | i a Hi Ha | i a Hi];
      cbn [tasks]; apply forall_update; try exact IH; try exact I.
    exact Ha.
Qed.

Lemma remaining_update (l : list phase) (i : nat) (old new : phase) :
  nth_error l i = Some old ->
  list_sum (map rank (update l i new)) + rank old
  = list_sum (map rank l) + rank new.
Proof.
  revert i; induction l as [|p l IH]; intros [|i] H; cbn [nth_error] in H;
    try discriminate.
  - inversion H; subst. unfold list_sum.
    cbn [update map fold_right]. lia.
  - specialize (IH i H). unfold list_sum in *.
    cbn [update map fold_right]. lia.
Qed.

Lemma step_decreases (s s' : state) :
  Forall may_retry (tasks s) -> step s s' -> remaining s' < remaining s.
Proof.
  unfold remaining. intros W H.
  destruct H as [i Hi Hp | i Hi | i Hi | i a Hi | i a Hi Ha | i a Hi];
    cbn [tasks];
    match goal with
    | |- context [update _ _ ?new] =>
        pose proof (remaining_update (tasks s) i _ new Hi) as E
    end;
    cbn [rank] in E; unfold NPMChecker.MAX_RETRIES in *; try lia.
  rewrite Forall_forall in W.
  pose proof (W _ (nth_error_In _ _ Hi)) as Hr. cbn [may_retry] in Hr.
  unfold NPMChecker.MAX_RETRIES in Hr. lia.
Qed.

Lemma run_reachable (n k : nat) (s : state) :
  run (init n) k s -> reachable n s.
Proof.
  induction 1 as [|k s1 s2 _ IH Hstep]; [apply reach_init|].
  eapply reach_step; [exact IH | exact Hstep].
Qed.

Lemma remaining_init (n : nat) :
  remaining (init n) = (2 * NPMChecker.MAX_RETRIES + 1) * n.
Proof.
  unfold remaining, init. cbn [tasks].
  induction n as [|n IH]; [reflexivity|].
  unfold list_sum in *. cbn [repeat map fold_right]. rewrite IH.
  cbn [rank]. lia.
Qed.

Lemma not_all (f : phase -> bool) (l : list phase) :
  forallb f l = false -> exists x, In x l /\ f x = false.
Proof.
  induction l as [|p l IH]; cbn [forallb]; [discriminate|].
  destruct (f p) eqn:E; cbn [andb]; intros H.
  - destruct (IH H) as [x [Hx Hf]]. exists x. split; [right|]; assumption.
  - exists p. split; [left; reflexivity | exact E].
Qed.

Lemma none_in_flight (l : list phase) :
  existsb in_flight l = false -> List.length (filter in_flight l) = 0.
Proof.
  induction l as [|p l IH]; cbn [existsb filter]; [reflexivity|].
  destruct (in_flight p); cbn [orb]; [discriminate | exact IH].
Qed.

Lemma finished_not_in_flight (l : list phase) :
  forallb finished l = true -> List.length (filter in_flight l) = 0.
Proof.
  induction l as [|p l IH]; cbn [forallb filter]; [reflexivity|].
  destruct p; cbn [finished andb in_flight]; try discriminate. exact IH.
Qed.

(** X22.  The gathered tasks never deadlock on the semaphore: in every
    state the event loop can reach, as long as a task has not left the
    [async with] block some task can move; and once all have left it,
    nothing moves any more and the semaphore has all its ten permits
    back. *)
Theorem gather_never_deadlocks (n : nat) (s : state) :
  reachable n s ->
  (forallb finished (tasks s) = false -> exists s', step s s')
  /\ (forallb finished (tasks s) = true ->
      permits s = 10 /\ forall s', ~ step s s').
Proof.
  intros R. pose proof (Gate.reachable_balance n s R) as B.
  change NPMChecker.MAX_CONCURRENT_NPM_CHECKS with 10 in B.
  unfold outstanding in B. split.
  - intros H. destruct (existsb in_flight (tasks s)) eqn:F.
    + apply existsb_exists in F. destruct F as [p [Hp Hf]].
      apply In_nth_error in Hp. destruct Hp as [i Hi].
      destruct p as [| |a|a|]; cbn [in_flight] in Hf; try discriminate.
      * eexists. exact (step_request s i Hi).
      * eexists. exact (step_answer s i a Hi).
      * eexists. exact (step_retry s i a Hi).
    + apply none_in_flight in F.
      destruct (not_all _ _ H) as [p [Hp Hf]].
      apply In_nth_error in Hp. destruct Hp as [i Hi].
      assert (Ew : p = Waiting).
      { destruct p as [| |a|a|]; cbn [finished] in Hf;
          try discriminate; try reflexivity;
          exfalso;
          pose proof (Gate.outstanding_update (tasks s) i _ Finished Hi) as E;
          unfold weight in E; cbn [in_flight] in E; lia. }
      subst p. eexists. apply (step_acquire s i Hi). lia.
  - intros H. split.
    + rewrite (finished_not_in_flight _ H) in B. lia.
    + intros s' Hstep. rewrite forallb_forall in H.
      destruct Hstep as [i Hi Hp | i Hi | i Hi | i a Hi | i a Hi Ha | i a Hi];
        pose proof (H _ (nth_error_In _ _ Hi)) as Hf;
        discriminate Hf.
Qed.

Lemma gather_never_deadlocks_witness :
  (forallb finished (tasks ten_admitted) = false ->
   exists s', step ten_admitted s')
  /\ (forallb finished (tasks ten_admitted) = true ->
      permits ten_admitted = 10 /\ forall s', ~ step ten_admitted s').
Proof.
  apply (gather_never_deadlocks 100 ten_admitted).
  exact (Gate.admit_prefix 10 (le_n 10)).
Defined.

(** X23.  Every run of the event loop over [n] tasks is finite: a run has
    at most [7 * n] moves, whatever the schedule and the registry's
    answers are (per task the admission, the first request, two failures
    each with its retry, and the answer); the moves made and the moves the
    tasks still have before them never add up to more. *)
Theorem every_run_is_bounded (n k : nat) (s : state) :
  run (init n) k s -> k <= 7 * n /\ k + remaining s <= 7 * n.
Proof.
  intros H.
  assert (G : k + remaining s <= remaining (init n)).
  { induction H as [|k s1 s2 Hrun IH Hstep]; [lia|].
    pose proof (step_decreases s1 s2
                  (reachable_may_retry n s1 (run_reachable n k s1 Hrun))
                  Hstep).
    lia. }
  rewrite remaining_init in G. unfold NPMChecker.MAX_RETRIES in G. lia.
Qed.

Lemma every_run_is_bounded_witness :
  1 <= 7 * 1 /\ 1 + remaining one_admitted <= 7 * 1.
Proof.
  apply (every_run_is_bounded 1 1 one_admitted).
  eapply run_move; [apply run_stop|].
  exact (step_acquire (init 1) 0 eq_refl (Nat.lt_0_succ 9)).
Defined.

End RunsMore.
